(** * ELI5 orchestration core

    A shallow embedding of the Convex backend of the ELI5 demo generator
    ([convex/users.ts], [convex/papers.ts], [convex/demos.ts],
    [convex/sandbox.ts], [convex/schema.ts]) and the properties of its
    three pipelines: owner provisioning, document ingestion, and artifact
    generation with sandbox execution.

    Conventions.
    - JavaScript strings are modelled as byte strings (UTF-8); every
      pattern the code searches for is ASCII, so searching bytes and
      searching code units agree.
    - A Convex table is an association list in insertion order (the order
      [_creationTime] gives); identifiers come from one counter.
    - Queries read the world, mutations are transactions (a throw rolls
      the writes back), actions thread the world through their steps.
    - Every call that leaves the deployment (model inference, HTTP fetch,
      the sandbox provider, blob upload) is an oracle of the action: a
      function from the call's arguments to a value or a thrown exception.
    - [console.log] and [console.error] have no effect on the world and
      are left out; so is the fixed three second wait of the sandbox. *)

From Stdlib Require Import String Ascii List Bool Arith PeanoNat NArith Lia DecimalString.
Import ListNotations.

#[local] Set Warnings "-register-all,-abstract-large-number".

Local Open Scope list_scope.
Local Open Scope string_scope.
Local Open Scope nat_scope.

(* ================================================================== *)
(** ** JavaScript string operations used by the backend *)

Module JsString.

Definition newline : ascii := "010"%char.
Definition dquote : ascii := "034"%char.
Definition backslash : ascii := "092"%char.
Definition backtick : ascii := "096"%char.

Definition empty : string := EmptyString.

Definition isEmpty (s : string) : bool :=
  match s with EmptyString => true | String _ _ => false end.

(** One-byte white space of ECMAScript: TAB, LF, VT, FF, CR, SP. *)
Definition ws1 (a : ascii) : bool :=
  let n := nat_of_ascii a in ((9 <=? n) && (n <=? 13)) || (n =? 32).

(** U+00A0, as the UTF-8 bytes C2 A0. *)
Definition ws2 (a b : ascii) : bool :=
  (nat_of_ascii a =? 194) && (nat_of_ascii b =? 160).

(** U+1680, U+2000..U+200A, U+2028, U+2029, U+202F, U+205F, U+3000 and
    U+FEFF, as three UTF-8 bytes. *)
Definition ws3 (a b c : ascii) : bool :=
  let x := nat_of_ascii a in
  let y := nat_of_ascii b in
  let z := nat_of_ascii c in
  ((x =? 225) && (y =? 154) && (z =? 128))
  || ((x =? 226) && (y =? 128)
      && (((128 <=? z) && (z <=? 138)) || (z =? 168) || (z =? 169) || (z =? 175)))
  || ((x =? 226) && (y =? 129) && (z =? 159))
  || ((x =? 227) && (y =? 128) && (z =? 128))
  || ((x =? 239) && (y =? 187) && (z =? 191)).

Fixpoint trimStartL (l : list ascii) : list ascii :=
  match l with
  | [] => []
  | a :: r1 =>
      if ws1 a then trimStartL r1
      else match r1 with
           | [] => l
           | b :: r2 =>
               if ws2 a b then trimStartL r2
               else match r2 with
                    | [] => l
                    | c :: r3 => if ws3 a b c then trimStartL r3 else l
                    end
           end
  end.

(** The same scan on the reversed string: the bytes of a character come
    last byte first. *)
Fixpoint trimStartRevL (l : list ascii) : list ascii :=
  match l with
  | [] => []
  | a :: r1 =>
      if ws1 a then trimStartRevL r1
      else match r1 with
           | [] => l
           | b :: r2 =>
               if ws2 b a then trimStartRevL r2
               else match r2 with
                    | [] => l
                    | c :: r3 => if ws3 c b a then trimStartRevL r3 else l
                    end
           end
  end.

(** [s.trim()] *)
Definition trim (s : string) : string :=
  string_of_list_ascii
    (rev (trimStartRevL (rev (trimStartL (list_ascii_of_string s))))).

(** [s.startsWith(p)] *)
Definition startsWith (s p : string) : bool := String.prefix p s.

(** [s.replace(/LIT\n?/g, '')] for a literal, non-empty [LIT]: the scan
    goes left to right; at a position where [LIT] starts it drops the
    literal and one line feed when one follows, and resumes after them.
    [skip] counts the bytes of the current match still to drop, [nl]
    says that a match has just ended and its optional line feed may
    follow. *)
Fixpoint removeAll (lit : string) (skip : nat) (nl : bool) (s : string) : string :=
  match s with
  | EmptyString => EmptyString
  | String c s' =>
      match skip with
      | S k => removeAll lit k true s'
      | O =>
          if nl && Ascii.eqb c newline then removeAll lit 0 false s'
          else if String.prefix lit s then removeAll lit (String.length lit - 1) true s'
          else String c (removeAll lit 0 false s')
      end
  end.

Definition replaceFence (lit s : string) : string := removeAll lit 0 false s.

(** Does [lit] occur in [s]? *)
Fixpoint includes (lit s : string) : bool :=
  match s with
  | EmptyString => String.prefix lit EmptyString
  | String _ s' => String.prefix lit s || includes lit s'
  end.

(** The suffix of [s] that starts at the first [c]. *)
Fixpoint fromFirst (c : ascii) (s : string) : option string :=
  match s with
  | EmptyString => None
  | String a s' => if Ascii.eqb a c then Some s else fromFirst c s'
  end.

(** The prefix of [s] that ends at the last [c]. *)
Fixpoint uptoLast (c : ascii) (s : string) : option string :=
  match s with
  | EmptyString => None
  | String a s' =>
      match uptoLast c s' with
      | Some p => Some (String a p)
      | None => if Ascii.eqb a c then Some (String a EmptyString) else None
      end
  end.

(** [s.match(/\{[\s\S]*\}/)]: the leftmost opening brace that has a
    closing brace after it, up to the last closing brace (the star is
    greedy). [Some m] is [jsonMatch[0]], [None] is [null]. *)
Definition matchBraces (s : string) : option string :=
  match fromFirst "{"%char s with
  | None => None
  | Some t => uptoLast "}"%char t
  end.

(** [s.split(c)] for a one-character separator. *)
Fixpoint split (c : ascii) (s : string) : list string :=
  match s with
  | EmptyString => [EmptyString]
  | String a s' =>
      if Ascii.eqb a c then EmptyString :: split c s'
      else match split c s' with
           | h :: t => String a h :: t
           | [] => [String a EmptyString]
           end
  end.

(** [s.replace(lit, '')] with a string pattern: the first occurrence
    only. [drop] bytes of the occurrence are still to be dropped. *)
Fixpoint dropN (n : nat) (s : string) : string :=
  match n, s with
  | O, _ => s
  | S k, EmptyString => EmptyString
  | S k, String _ s' => dropN k s'
  end.

Fixpoint removeFirst (lit s : string) : string :=
  match s with
  | EmptyString => EmptyString
  | String c s' =>
      if String.prefix lit s then dropN (String.length lit) s
      else String c (removeFirst lit s')
  end.

(** [String(n)] for a natural number. *)
Definition ofNat (n : nat) : string := NilZero.string_of_uint (Nat.to_uint n).

End JsString.

(* ================================================================== *)
(** ** JSON values and [JSON.parse] *)

Module Json.
Import JsString.

Inductive json : Type :=
| JNull
| JBool (b : bool)
| JNum (lexeme : string)
| JStr (s : string)
| JArr (items : list json)
| JObj (members : list (string * json)).

(** [o[k]] on a parsed object: the last member with that key wins. *)
Fixpoint lookupLast (k : string) (ms : list (string * json)) : option json :=
  match ms with
  | [] => None
  | (k', v) :: r =>
      match lookupLast k r with
      | Some v' => Some v'
      | None => if String.eqb k' k then Some v else None
      end
  end.

Definition jsonWs (c : ascii) : bool :=
  let n := nat_of_ascii c in (n =? 32) || (n =? 9) || (n =? 10) || (n =? 13).

Fixpoint skipWs (s : string) : string :=
  match s with
  | EmptyString => EmptyString
  | String c r => if jsonWs c then skipWs r else s
  end.

Definition isDigit (c : ascii) : bool :=
  let n := nat_of_ascii c in (48 <=? n) && (n <=? 57).

Definition hexVal (c : ascii) : option N :=
  let n := N_of_ascii c in
  (if (48 <=? n) && (n <=? 57) then Some (n - 48)
   else if (65 <=? n) && (n <=? 70) then Some (n - 55)
   else if (97 <=? n) && (n <=? 102) then Some (n - 87)
   else None)%N.

(** UTF-8 bytes of a code point of the basic plane; the halves of a
    surrogate pair have no byte string of their own and are refused. *)
Definition utf8 (cp : N) : option string :=
  (if cp <? 128 then Some (String (ascii_of_N cp) EmptyString)
   else if cp <? 2048 then
     Some (String (ascii_of_N (192 + cp / 64))
            (String (ascii_of_N (128 + cp mod 64)) EmptyString))
   else if (55296 <=? cp) && (cp <=? 57343) then None
   else
     Some (String (ascii_of_N (224 + cp / 4096))
            (String (ascii_of_N (128 + (cp / 64) mod 64))
              (String (ascii_of_N (128 + cp mod 64)) EmptyString))))%N.

Definition unescape (e : ascii) : option ascii :=
  if Ascii.eqb e dquote then Some dquote
  else if Ascii.eqb e backslash then Some backslash
  else if Ascii.eqb e "/"%char then Some "/"%char
  else if Ascii.eqb e "b"%char then Some "008"%char
  else if Ascii.eqb e "f"%char then Some "012"%char
  else if Ascii.eqb e "n"%char then Some "010"%char
  else if Ascii.eqb e "r"%char then Some "013"%char
  else if Ascii.eqb e "t"%char then Some "009"%char
  else None.

(** The characters of a string literal after its opening quote; the
    result is the decoded text and the input after the closing quote. *)
Fixpoint parseChars (s : string) : option (string * string) :=
  match s with
  | EmptyString => None
  | String c r =>
      if Ascii.eqb c dquote then Some (EmptyString, r)
      else if Ascii.eqb c backslash then
        match r with
        | EmptyString => None
        | String e r1 =>
            match unescape e with
            | Some d =>
                match parseChars r1 with
                | Some (t, rest) => Some (String d t, rest)
                | None => None
                end
            | None =>
                if Ascii.eqb e "u"%char then
                  match r1 with
                  | String h1 (String h2 (String h3 (String h4 r5))) =>
                      match hexVal h1, hexVal h2, hexVal h3, hexVal h4 with
                      | Some a, Some b, Some c', Some d =>
                          match utf8 (4096 * a + 256 * b + 16 * c' + d)%N, parseChars r5 with
                          | Some bytes, Some (t, rest) => Some (bytes ++ t, rest)
                          | _, _ => None
                          end
                      | _, _, _, _ => None
                      end
                  | _ => None
                  end
                else None
            end
        end
      else if nat_of_ascii c <? 32 then None
      else match parseChars r with
           | Some (t, rest) => Some (String c t, rest)
           | None => None
           end
  end.

Fixpoint takeDigits (s : string) : string * string :=
  match s with
  | EmptyString => (EmptyString, EmptyString)
  | String c r =>
      if isDigit c then let (d, rest) := takeDigits r in (String c d, rest)
      else (EmptyString, s)
  end.

(** One or more digits. *)
Definition digits1 (s : string) : option (string * string) :=
  match takeDigits s with
  | (EmptyString, _) => None
  | (d, rest) => Some (d, rest)
  end.

(** A number: an optional minus sign; a zero, or a digit from one to
    nine and then any digits; an optional fraction (a dot and one or
    more digits); an optional exponent (e or E, an optional sign, one
    or more digits). The lexeme is kept as it is written. *)
Definition parseNumber (s : string) : option (string * string) :=
  let (sign, s1) :=
    match s with
    | String c r => if Ascii.eqb c "-"%char then ("-", r) else (EmptyString, s)
    | EmptyString => (EmptyString, s)
    end in
  let intPart :=
    match s1 with
    | String c r =>
        if Ascii.eqb c "0"%char then Some ("0", r)
        else if isDigit c then digits1 s1
        else None
    | EmptyString => None
    end in
  match intPart with
  | None => None
  | Some (i, s2) =>
      let frac :=
        match s2 with
        | String c r =>
            if Ascii.eqb c "."%char then
              match digits1 r with
              | Some (d, rest) => Some (String c d, rest)
              | None => None
              end
            else Some (EmptyString, s2)
        | EmptyString => Some (EmptyString, s2)
        end in
      match frac with
      | None => None
      | Some (f, s3) =>
          let expo :=
            match s3 with
            | String c r =>
                if Ascii.eqb c "e"%char || Ascii.eqb c "E"%char then
                  let (sg, r') :=
                    match r with
                    | String c2 r2 =>
                        if Ascii.eqb c2 "+"%char || Ascii.eqb c2 "-"%char
                        then (String c2 EmptyString, r2) else (EmptyString, r)
                    | EmptyString => (EmptyString, r)
                    end in
                  match digits1 r' with
                  | Some (d, rest) => Some (String c (sg ++ d), rest)
                  | None => None
                  end
                else Some (EmptyString, s3)
            | EmptyString => Some (EmptyString, s3)
            end in
          match expo with
          | None => None
          | Some (e, s4) => Some (sign ++ i ++ f ++ e, s4)
          end
      end
  end.

(** Recursive descent; every call spends one unit of [fuel], and a text
    of [n] bytes needs less than [2 * n + 2]. *)
Fixpoint parseValue (fuel : nat) (s : string) : option (json * string) :=
  match fuel with
  | O => None
  | S f =>
      match skipWs s with
      | EmptyString => None
      | String c r =>
          if Ascii.eqb c "{"%char then
            match skipWs r with
            | String c2 r2 =>
                if Ascii.eqb c2 "}"%char then Some (JObj [], r2)
                else parseMembers f r []
            | EmptyString => None
            end
          else if Ascii.eqb c "["%char then
            match skipWs r with
            | String c2 r2 =>
                if Ascii.eqb c2 "]"%char then Some (JArr [], r2)
                else parseElements f r []
            | EmptyString => None
            end
          else if Ascii.eqb c dquote then
            match parseChars r with
            | Some (t, rest) => Some (JStr t, rest)
            | None => None
            end
          else if String.prefix "true" (String c r) then Some (JBool true, dropN 4 (String c r))
          else if String.prefix "false" (String c r) then Some (JBool false, dropN 5 (String c r))
          else if String.prefix "null" (String c r) then Some (JNull, dropN 4 (String c r))
          else match parseNumber (String c r) with
               | Some (n, rest) => Some (JNum n, rest)
               | None => None
               end
      end
  end
with parseElements (fuel : nat) (s : string) (acc : list json) : option (json * string) :=
  match fuel with
  | O => None
  | S f =>
      match parseValue f s with
      | None => None
      | Some (v, rest) =>
          match skipWs rest with
          | EmptyString => None
          | String c r =>
              if Ascii.eqb c ","%char then parseElements f r (v :: acc)
              else if Ascii.eqb c "]"%char then Some (JArr (rev (v :: acc)), r)
              else None
          end
      end
  end
with parseMembers (fuel : nat) (s : string) (acc : list (string * json)) : option (json * string) :=
  match fuel with
  | O => None
  | S f =>
      match skipWs s with
      | EmptyString => None
      | String c r =>
          if Ascii.eqb c dquote then
            match parseChars r with
            | None => None
            | Some (k, rest) =>
                match skipWs rest with
                | EmptyString => None
                | String c2 r2 =>
                    if Ascii.eqb c2 ":"%char then
                      match parseValue f r2 with
                      | None => None
                      | Some (v, rest2) =>
                          match skipWs rest2 with
                          | EmptyString => None
                          | String c3 r3 =>
                              if Ascii.eqb c3 ","%char then parseMembers f r3 ((k, v) :: acc)
                              else if Ascii.eqb c3 "}"%char
                                   then Some (JObj (rev ((k, v) :: acc)), r3)
                              else None
                          end
                      end
                    else None
                end
            end
          else None
      end
  end.

(** [JSON.parse(s)]; [None] stands for the [SyntaxError] it throws. *)
Definition parse (s : string) : option json :=
  match parseValue (2 * String.length s + 2) s with
  | Some (v, rest) =>
      match skipWs rest with
      | EmptyString => Some v
      | String _ _ => None
      end
  | None => None
  end.

End Json.

Import JsString.

(* ================================================================== *)
(** ** Data model ([convex/schema.ts]) *)

Definition Id : Type := nat.

(** The address [ctx.storage.getUrl] gives for a stored blob. *)
Inductive Url : Type := BlobUrl (storageId : Id).

Module User.
Record t : Type := mk {
  workosId : string;
  email : string;
  name : string;
  organizationId : option string }.
End User.

Module PaperStatus.
Inductive t : Type := uploading | processing | ready | error.
End PaperStatus.

Module Metadata.
Record t : Type := mk {
  authors : option (list string);
  abstract : option string;
  keywords : option (list string) }.
End Metadata.

Module Paper.
Record t : Type := mk {
  userId : Id;
  title : string;
  fileName : string;
  fileStorageId : Id;
  pdfUrl : option Url;
  status : PaperStatus.t;
  extractedContent : option string;
  metadata : option Metadata.t }.
End Paper.

Module DemoStatus.
Inductive t : Type := generating | executing | ready | failed.
End DemoStatus.

Module CodeType.
Inductive t : Type := html | react.
End CodeType.

Module ExecutionResults.
Record t : Type := mk {
  sandboxId : string;
  outputHtml : option string;
  screenshot : option string;
  logs : option (list string);
  errors : option (list string) }.
End ExecutionResults.

Module Demo.
Record t : Type := mk {
  paperId : Id;
  userId : Id;
  concept : string;
  status : DemoStatus.t;
  generatedCode : string;
  codeType : CodeType.t;
  executionResults : option ExecutionResults.t;
  demoFileStorageId : option Id }.
End Demo.

(** What [ctx.auth.getUserIdentity()] resolves to; an [organizationId]
    that is not a string is [None]. *)
Module Identity.
Record t : Type := mk {
  subject : string;
  email : option string;
  name : option string;
  organizationId : option string }.
End Identity.

Record Blob : Type := mkBlob { mediaType : string; body : string }.

(** A function call handed to [ctx.scheduler.runAfter]. *)
Inductive Job : Type :=
| JobExtractPdfContent (paperId : Id)
| JobExecuteInSandbox (demoId : Id).

(** Calls made to the sandbox provider. *)
Inductive SandboxCall : Type :=
| SandboxCreated (sandboxId : string)
| SandboxCommand (sandboxId command : string)
| SandboxDelete (sandboxId : string).

(** The deployment: the three tables, file storage, the scheduler's
    queue, and a log of the sandbox provider's calls. *)
Record World : Type := mkWorld {
  nextId : Id;
  users : list (Id * User.t);
  papers : list (Id * Paper.t);
  demos : list (Id * Demo.t);
  storage : list (Id * Blob);
  scheduled : list Job;
  sandboxCalls : list SandboxCall }.

Definition emptyWorld : World := mkWorld 0 [] [] [] [] [] [].

(* ================================================================== *)
(** ** Convex functions as state and exception passing *)

(** A JavaScript [throw] carries any value; the code only asks whether
    it is an [Error] and for its [message]. *)
Inductive Thrown : Type :=
| ErrorObj (message : string)
| NonError.

Inductive Result (A : Type) : Type :=
| Ok (a : A)
| Throw (e : Thrown).
Arguments Ok {A} a.
Arguments Throw {A} e.

Definition Fn (A : Type) : Type := World -> Result A * World.

Definition ret {A} (a : A) : Fn A := fun w => (Ok a, w).

Definition throw {A} (e : Thrown) : Fn A := fun w => (Throw e, w).

Definition bind {A B} (c : Fn A) (k : A -> Fn B) : Fn B :=
  fun w => match c w with
           | (Ok a, w') => k a w'
           | (Throw e, w') => (Throw e, w')
           end.

(** [try { c } catch (error) { h error }] *)
Definition tryCatch {A} (c : Fn A) (h : Thrown -> Fn A) : Fn A :=
  fun w => match c w with
           | (Ok a, w') => (Ok a, w')
           | (Throw e, w') => h e w'
           end.

(** The result of a call that leaves the deployment. *)
Definition external {A} (r : Result A) : Fn A := fun w => (r, w).

(** [ctx.runQuery]: a query reads and writes nothing. *)
Definition runQuery {A} (q : Fn A) : Fn A := fun w => (fst (q w), w).

(** [ctx.runMutation], and a mutation called by a client: a transaction,
    whose writes are dropped when it throws. *)
Definition runMutation {A} (m : Fn A) : Fn A :=
  fun w => match m w with
           | (Ok a, w') => (Ok a, w')
           | (Throw e, _) => (Throw e, w)
           end.

Declare Scope fn_scope.
Delimit Scope fn_scope with fn.
Notation "x <- c ;; k" := (bind c (fun x => k))
  (at level 61, c at next level, right associativity) : fn_scope.
Notation "c ;; k" := (bind c (fun _ => k))
  (at level 61, right associativity) : fn_scope.
Local Open Scope fn_scope.

(** [error instanceof Error ? error.message : fallback] *)
Definition messageOr (fallback : string) (e : Thrown) : string :=
  match e with
  | ErrorObj m => m
  | NonError => fallback
  end.

(* ------------------------------------------------------------------ *)
(** *** The database ([ctx.db]) *)

Record Table (A : Type) : Type := mkTable {
  rowsOf : World -> list (Id * A);
  withRows : list (Id * A) -> World -> World }.
Arguments rowsOf {A} _ _.
Arguments withRows {A} _ _ _.

Definition usersT : Table User.t :=
  mkTable User.t users
    (fun r w => mkWorld (nextId w) r (papers w) (demos w) (storage w) (scheduled w) (sandboxCalls w)).

Definition papersT : Table Paper.t :=
  mkTable Paper.t papers
    (fun r w => mkWorld (nextId w) (users w) r (demos w) (storage w) (scheduled w) (sandboxCalls w)).

Definition demosT : Table Demo.t :=
  mkTable Demo.t demos
    (fun r w => mkWorld (nextId w) (users w) (papers w) r (storage w) (scheduled w) (sandboxCalls w)).

Definition storageT : Table Blob :=
  mkTable Blob storage
    (fun r w => mkWorld (nextId w) (users w) (papers w) (demos w) r (scheduled w) (sandboxCalls w)).

Definition freshId : Fn Id :=
  fun w => (Ok (nextId w),
            mkWorld (S (nextId w)) (users w) (papers w) (demos w) (storage w)
                    (scheduled w) (sandboxCalls w)).

Fixpoint lookup {A} (id : Id) (rows : list (Id * A)) : option A :=
  match rows with
  | [] => None
  | (i, a) :: r => if i =? id then Some a else lookup id r
  end.

Fixpoint update {A} (id : Id) (f : A -> A) (rows : list (Id * A)) : list (Id * A) :=
  match rows with
  | [] => []
  | (i, a) :: r => if i =? id then (i, f a) :: r else (i, a) :: update id f r
  end.

(** [ctx.db.insert(table, fields)] *)
Definition db_insert {A} (T : Table A) (a : A) : Fn Id :=
  id <- freshId ;;
  fun w => (Ok id, withRows T (rowsOf T w ++ [(id, a)])%list w).

(** [ctx.db.get(id)] *)
Definition db_get {A} (T : Table A) (id : Id) : Fn (option A) :=
  fun w => (Ok (lookup id (rowsOf T w)), w).

(** [ctx.db.patch(id, updates)]: throws when no document has this id. *)
Definition db_patch {A} (T : Table A) (id : Id) (f : A -> A) : Fn unit :=
  fun w => match lookup id (rowsOf T w) with
           | None => (Throw (ErrorObj "Update on nonexistent document ID"), w)
           | Some _ => (Ok tt, withRows T (update id f (rowsOf T w)) w)
           end.

(** [ctx.db.query(table).withIndex(ix, q => q.eq(field, value)).collect()]:
    the documents the index range selects, oldest first. *)
Definition db_collect {A} (T : Table A) (sel : A -> bool) : Fn (list (Id * A)) :=
  fun w => (Ok (filter (fun r => sel (snd r)) (rowsOf T w)), w).

(** [.unique()]: throws when more than one document matches. *)
Definition unique {A} (l : list A) : Fn (option A) :=
  match l with
  | [] => ret None
  | [x] => ret (Some x)
  | _ :: _ :: _ => throw (ErrorObj "unique() query returned more than one result")
  end.

(** [ctx.storage.getUrl(storageId)]: [None] is [null]. *)
Definition storage_getUrl (storageId : Id) : Fn (option Url) :=
  fun w => (Ok (match lookup storageId (storage w) with
                | Some _ => Some (BlobUrl storageId)
                | None => None
                end), w).

(** [ctx.scheduler.runAfter(0, fn, args)] *)
Definition scheduler_runAfter (j : Job) : Fn unit :=
  fun w => (Ok tt, mkWorld (nextId w) (users w) (papers w) (demos w) (storage w)
                           (scheduled w ++ [j])%list (sandboxCalls w)).

Definition logSandbox (c : SandboxCall) : Fn unit :=
  fun w => (Ok tt, mkWorld (nextId w) (users w) (papers w) (demos w) (storage w)
                           (scheduled w) (sandboxCalls w ++ [c])%list).

(* ================================================================== *)
(** ** [convex/users.ts] *)

Definition byWorkosId (subject : string) : Fn (option (Id * User.t)) :=
  rows <- db_collect usersT (fun u => String.eqb (User.workosId u) subject) ;;
  unique rows.

Definition getUserFromAuth (auth : option Identity.t) : Fn Id :=
  match auth with
  | None => throw (ErrorObj "Not authenticated")
  | Some identity =>
      user <- byWorkosId (Identity.subject identity) ;;
      match user with
      | None =>
          throw (ErrorObj "User not found in database. Please ensure the user is created via ensureUser mutation first.")
      | Some (id, _) => ret id
      end
  end.

Definition orElse {A} (o : option A) (d : A) : A :=
  match o with Some a => a | None => d end.

Definition ensureUser_handler (auth : option Identity.t) : Fn Id :=
  match auth with
  | None => throw (ErrorObj "Not authenticated")
  | Some identity =>
      existingUser <- byWorkosId (Identity.subject identity) ;;
      match existingUser with
      | Some (id, _) => ret id
      | None =>
          db_insert usersT
            (User.mk (Identity.subject identity)
                     (orElse (Identity.email identity) EmptyString)
                     (orElse (Identity.name identity) "Unknown User")
                     (Identity.organizationId identity))
      end
  end.

Definition ensureUser (auth : option Identity.t) : Fn Id :=
  runMutation (ensureUser_handler auth).

Definition getCurrentUser (auth : option Identity.t) : Fn (option (Id * User.t)) :=
  match auth with
  | None => ret None
  | Some identity => byWorkosId (Identity.subject identity)
  end.

(* ================================================================== *)
(** ** External collaborators *)

(** The response of [fetch]: [text] is the outcome of [response.text()]. *)
Record Response : Type := mkResponse {
  ok : bool;
  status : nat;
  statusText : string;
  text : Result string }.

(** The answers the outside world gives during one run of an action.
    - [generateText prompt file]: the [text] of the model's answer to a
      user message with this prompt and, for extraction, the attached
      file bytes (the model name and the output bound are constants);
    - [fetchArrayBuffer url]: [(await fetch(url)).arrayBuffer()];
    - [daytona_create]: the [id] of the sandbox [daytona.create] gives;
    - [process_executeCommand id command];
    - [fetch url];
    - [storage_store blob]: whether the upload succeeds;
    - [sandbox_delete id]. *)
Record Collaborators : Type := mkCollaborators {
  generateText : string -> option string -> Result string;
  fetchArrayBuffer : Url -> Result string;
  daytona_create : Result string;
  process_executeCommand : string -> string -> Result unit;
  fetch : string -> Result Response;
  storage_store : Blob -> Result unit;
  sandbox_delete : string -> Result unit }.

(* ================================================================== *)
(** ** [convex/papers.ts] *)

Definition createPaper_handler (auth : option Identity.t)
    (fileName : string) (fileStorageId : Id) (title : option string) : Fn Id :=
  userId <- getUserFromAuth auth ;;
  paperId <- db_insert papersT
               (Paper.mk userId (orElse title (removeFirst ".pdf" fileName)) fileName
                         fileStorageId None PaperStatus.processing None None) ;;
  scheduler_runAfter (JobExtractPdfContent paperId) ;;
  ret paperId.

Definition createPaper (auth : option Identity.t)
    (fileName : string) (fileStorageId : Id) (title : option string) : Fn Id :=
  runMutation (createPaper_handler auth fileName fileStorageId title).

(** The optional arguments of [updatePaper]; [None] is [undefined]. *)
Module PaperUpdates.
Record t : Type := mk {
  status : option PaperStatus.t;
  extractedContent : option string;
  metadata : option Metadata.t;
  pdfUrl : option Url }.

(** [ctx.db.patch] with the [updates] object: a field that is present
    overwrites, the others stay. *)
Definition apply (u : t) (p : Paper.t) : Paper.t :=
  Paper.mk (Paper.userId p) (Paper.title p) (Paper.fileName p) (Paper.fileStorageId p)
    (match pdfUrl u with Some x => Some x | None => Paper.pdfUrl p end)
    (match status u with Some x => x | None => Paper.status p end)
    (match extractedContent u with Some x => Some x | None => Paper.extractedContent p end)
    (match metadata u with Some x => Some x | None => Paper.metadata p end).
End PaperUpdates.

Definition updatePaper_handler (paperId : Id) (u : PaperUpdates.t) : Fn unit :=
  db_patch papersT paperId (PaperUpdates.apply u).

Definition updatePaper (paperId : Id) (u : PaperUpdates.t) : Fn unit :=
  runMutation (updatePaper_handler paperId u).

Definition getPaperInternal (paperId : Id) : Fn (option Paper.t) :=
  db_get papersT paperId.

Definition extractionPrompt : string :=
"Analyze this academic paper PDF and extract the following information in a structured format:
1. Full text content
2. Paper title
3. Authors (comma-separated list)
4. Abstract
5. Key keywords or topics (comma-separated list)

Format your response as JSON with keys: content, title, authors, abstract, keywords".

Section Extraction.
Import Json.

(** [JSON.parse]; [None] stands for the exception it throws. *)
Variable JSON_parse : string -> option json.

(** The inner [try]: parse the braces of the answer, or fall back to
    the whole answer as [content]. *)
Definition extractedDataOf (resultText : string) : json :=
  match matchBraces resultText with
  | Some jsonMatch0 =>
      match JSON_parse jsonMatch0 with
      | Some v => v
      | None => JObj [("content", JStr resultText)]
      end
  | None => JObj [("content", JStr resultText)]
  end.

(** [v.k]: reading a property of [null] throws, a value that is not an
    object has none of the keys read here. *)
Definition prop (k : string) (v : json) : Fn (option json) :=
  match v with
  | JObj ms => ret (lookupLast k ms)
  | JNull => throw (ErrorObj "TypeError: cannot read properties of null")
  | _ => ret None
  end.

(** [x ?? d] *)
Definition coalesce (x : option json) (d : json) : json :=
  match x with
  | None | Some JNull => d
  | Some v => v
  end.

(** [x?.split(',').map((a) => a.trim())]: only a string has [split]. *)
Definition splitTrim (x : option json) : Fn (option (list string)) :=
  match x with
  | None | Some JNull => ret None
  | Some (JStr s) => ret (Some (map trim (split ","%char s)))
  | Some _ => throw (ErrorObj "TypeError: split is not a function")
  end.

(** The validator [v.optional(v.string())] of an argument. *)
Definition v_optional_string (x : option json) : Fn (option string) :=
  match x with
  | None => ret None
  | Some (JStr s) => ret (Some s)
  | Some _ => throw (ErrorObj "ArgumentValidationError: value does not match validator v.string()")
  end.

(** The body of the [try] block. *)
Definition extractPdfContent_try (env : Collaborators) (paperId : Id) : Fn unit :=
  paper <- runQuery (getPaperInternal paperId) ;;
  match paper with
  | None => throw (ErrorObj "Paper not found")
  | Some paper =>
      pdfUrl <- storage_getUrl (Paper.fileStorageId paper) ;;
      match pdfUrl with
      | None => throw (ErrorObj "PDF file not found in storage")
      | Some pdfUrl =>
          data <- external (fetchArrayBuffer env pdfUrl) ;;
          resultText <- external (generateText env extractionPrompt (Some data)) ;;
          let extractedData := extractedDataOf resultText in
          content <- prop "content" extractedData ;;
          authors <- (a <- prop "authors" extractedData ;; splitTrim a) ;;
          abstract <- prop "abstract" extractedData ;;
          keywords <- (k <- prop "keywords" extractedData ;; splitTrim k) ;;
          extractedContent <- v_optional_string (Some (coalesce content (JStr resultText))) ;;
          abstract <- v_optional_string abstract ;;
          updatePaper paperId
            (PaperUpdates.mk (Some PaperStatus.ready) extractedContent
               (Some (Metadata.mk authors abstract keywords)) (Some pdfUrl))
      end
  end.

Definition extractPdfContent (env : Collaborators) (paperId : Id) : Fn unit :=
  tryCatch
    (extractPdfContent_try env paperId)
    (fun _ => updatePaper paperId (PaperUpdates.mk (Some PaperStatus.error) None None None)) ;;
  ret tt.

End Extraction.

Definition withPdfUrl (pdfUrl : option Url) (p : Paper.t) : Paper.t :=
  Paper.mk (Paper.userId p) (Paper.title p) (Paper.fileName p) (Paper.fileStorageId p)
           pdfUrl (Paper.status p) (Paper.extractedContent p) (Paper.metadata p).

(** A storage id is a non-empty string, so [paper.fileStorageId ? .. : null]
    always takes its first branch. *)
Definition getPaper (auth : option Identity.t) (paperId : Id) : Fn (option (Id * Paper.t)) :=
  runQuery
    (userId <- getUserFromAuth auth ;;
     paper <- db_get papersT paperId ;;
     match paper with
     | None => ret None
     | Some paper =>
         if negb (Paper.userId paper =? userId) then ret None
         else
           pdfUrl <- storage_getUrl (Paper.fileStorageId paper) ;;
           ret (Some (paperId, withPdfUrl pdfUrl paper))
     end).

(** [Promise.all(l.map(f))] *)
Fixpoint mapFn {A B} (f : A -> Fn B) (l : list A) : Fn (list B) :=
  match l with
  | [] => ret []
  | a :: r => b <- f a ;; bs <- mapFn f r ;; ret (b :: bs)
  end.

Definition listUserPapers (auth : option Identity.t) : Fn (list (Id * Paper.t)) :=
  runQuery
    (userId <- getUserFromAuth auth ;;
     papers <- db_collect papersT (fun p => Paper.userId p =? userId) ;;
     mapFn (fun paper : Id * Paper.t =>
              pdfUrl <- storage_getUrl (Paper.fileStorageId (snd paper)) ;;
              ret (fst paper, withPdfUrl pdfUrl (snd paper)))
           (rev papers)).

(* ================================================================== *)
(** ** [convex/demos.ts] *)

Definition createDemo_handler (paperId userId : Id) (concept : string)
    (status : DemoStatus.t) (generatedCode : string) (codeType : CodeType.t) : Fn Id :=
  db_insert demosT (Demo.mk paperId userId concept status generatedCode codeType None None).

Definition createDemo (paperId userId : Id) (concept : string)
    (status : DemoStatus.t) (generatedCode : string) (codeType : CodeType.t) : Fn Id :=
  runMutation (createDemo_handler paperId userId concept status generatedCode codeType).

(** The optional arguments of [updateDemo]; [None] is [undefined]. *)
Module DemoUpdates.
Record t : Type := mk {
  status : option DemoStatus.t;
  generatedCode : option string;
  executionResults : option ExecutionResults.t;
  demoFileStorageId : option Id }.

Definition apply (u : t) (d : Demo.t) : Demo.t :=
  Demo.mk (Demo.paperId d) (Demo.userId d) (Demo.concept d)
    (match status u with Some x => x | None => Demo.status d end)
    (match generatedCode u with Some x => x | None => Demo.generatedCode d end)
    (Demo.codeType d)
    (match executionResults u with Some x => Some x | None => Demo.executionResults d end)
    (match demoFileStorageId u with Some x => Some x | None => Demo.demoFileStorageId d end).
End DemoUpdates.

Definition updateDemo_handler (demoId : Id) (u : DemoUpdates.t) : Fn unit :=
  db_patch demosT demoId (DemoUpdates.apply u).

Definition updateDemo (demoId : Id) (u : DemoUpdates.t) : Fn unit :=
  runMutation (updateDemo_handler demoId u).

Definition getDemoInternal (demoId : Id) : Fn (option Demo.t) :=
  db_get demosT demoId.

Definition fence : string := "```".
Definition fenceHtml : string := "```html".
Definition doctype : string := "<!DOCTYPE html>".

Definition demoPrompt (title : string) (extractedContent : option string) (concept : string) : string :=
  "You are an expert at creating interactive visual demonstrations of academic concepts.

Paper Title: " ++ title ++ "
Paper Content: " ++ orElse extractedContent "No content available" ++ "

Concept to Demonstrate: " ++ concept ++ "

Generate a complete, self-contained HTML file that visually demonstrates this concept. Requirements:
1. Include ALL CSS inline in a <style> tag (no external stylesheets)
2. Include ALL JavaScript inline in a <script> tag (no external dependencies)
3. Make it interactive and animated where appropriate
4. Use modern HTML5, CSS3, and vanilla JavaScript
5. Work without any external dependencies or CDN links
6. Be responsive and mobile-friendly
7. Keep total size under 100KB
8. Use clear visual design with smooth animations
9. Add explanatory text to help understand the concept

Return ONLY the complete HTML code, no markdown formatting, no explanations, just pure HTML starting with <!DOCTYPE html>.".

(** The clean-up of the model's answer: trim it, and when the trimmed
    text starts with a fence, remove every fence labelled html (with the
    line feed after it, if any) and then every remaining fence (with the
    line feed after it, if any). *)
Definition cleanHtml (resultText : string) : string :=
  let htmlCode := trim resultText in
  if startsWith htmlCode fence
  then replaceFence fence (replaceFence fenceHtml htmlCode)
  else htmlCode.

Definition failedResults (message : string) : ExecutionResults.t :=
  ExecutionResults.mk EmptyString None None None (Some [message]).

(** The body of the [try] block of [generateDemo]. *)
Definition generateDemo_try (env : Collaborators) (paper : Paper.t)
    (concept : string) (demoId : Id) : Fn unit :=
  resultText <- external
    (generateText env
       (demoPrompt (Paper.title paper) (Paper.extractedContent paper) concept) None) ;;
  let htmlCode := cleanHtml resultText in
  updateDemo demoId
    (DemoUpdates.mk (Some DemoStatus.executing) (Some htmlCode) None None) ;;
  scheduler_runAfter (JobExecuteInSandbox demoId).

Definition generateDemo (auth : option Identity.t) (env : Collaborators)
    (paperId : Id) (concept : string) : Fn Id :=
  user <- runQuery (getCurrentUser auth) ;;
  match user with
  | None => throw (ErrorObj "Not authenticated")
  | Some (userId, _) =>
      paper <- runQuery (getPaperInternal paperId) ;;
      match paper with
      | None => throw (ErrorObj "Paper not found")
      | Some paper =>
          if negb (Paper.userId paper =? userId) then throw (ErrorObj "Unauthorized")
          else
            demoId <- createDemo paperId userId concept DemoStatus.generating
                        EmptyString CodeType.html ;;
            tryCatch
              (generateDemo_try env paper concept demoId)
              (fun error =>
                 updateDemo demoId
                   (DemoUpdates.mk (Some DemoStatus.failed) None
                      (Some (failedResults (messageOr "Unknown error" error))) None)) ;;
            ret demoId
      end
  end.

Record DemoWithUrl : Type := mkDemoWithUrl {
  demoDoc : Id * Demo.t;
  demoUrl : option Url }.

(** [demo.demoFileStorageId ? await ctx.storage.getUrl(..) : null] *)
Definition demoUrlOf (demo : Demo.t) : Fn (option Url) :=
  match Demo.demoFileStorageId demo with
  | Some storageId => storage_getUrl storageId
  | None => ret None
  end.

Definition getDemo (auth : option Identity.t) (demoId : Id) : Fn (option DemoWithUrl) :=
  runQuery
    (userId <- getUserFromAuth auth ;;
     demo <- db_get demosT demoId ;;
     match demo with
     | None => ret None
     | Some demo =>
         if negb (Demo.userId demo =? userId) then ret None
         else
           demoUrl <- demoUrlOf demo ;;
           ret (Some (mkDemoWithUrl (demoId, demo) demoUrl))
     end).

Definition listPaperDemos (auth : option Identity.t) (paperId : Id) : Fn (list DemoWithUrl) :=
  runQuery
    (userId <- getUserFromAuth auth ;;
     demos <- db_collect demosT (fun d => Demo.paperId d =? paperId) ;;
     mapFn (fun demo : Id * Demo.t =>
              demoUrl <- demoUrlOf (snd demo) ;;
              ret (mkDemoWithUrl demo demoUrl))
           (filter (fun demo : Id * Demo.t => Demo.userId (snd demo) =? userId)
                   (rev demos))).

(* ================================================================== *)
(** ** [convex/sandbox.ts] *)

Definition writeCommand (generatedCode : string) : string :=
  "cat > /workspace/demo.html << 'EOFHTML'
" ++ generatedCode ++ "
EOFHTML".

Definition serverCommand : string := "npx -y http-server /workspace -p 8080 --cors -s".

Definition sandboxUrl (sandboxId : string) : string :=
  "https://" ++ sandboxId ++ "-8080.daytona.app".

(** [daytona.create(..)]: a sandbox exists once the call has returned. *)
Definition daytonaCreate (env : Collaborators) : Fn string :=
  sandboxId <- external (daytona_create env) ;;
  logSandbox (SandboxCreated sandboxId) ;;
  ret sandboxId.

(** [sandbox.process.executeCommand(command)] *)
Definition executeCommand (env : Collaborators) (sandboxId command : string) : Fn unit :=
  logSandbox (SandboxCommand sandboxId command) ;;
  external (process_executeCommand env sandboxId command).

(** [sandbox.delete()] *)
Definition sandboxDelete (env : Collaborators) (sandboxId : string) : Fn unit :=
  logSandbox (SandboxDelete sandboxId) ;;
  external (sandbox_delete env sandboxId).

(** [ctx.storage.store(blob)] *)
Definition storageStore (env : Collaborators) (blob : Blob) : Fn Id :=
  external (storage_store env blob) ;;
  db_insert storageT blob.

(** The body of the [try] block of [executeInSandbox]. (The client object
    built before it, from the environment variables, holds no state of
    its own here: its calls are the oracles.) *)
Definition executeInSandbox_try (env : Collaborators) (demoId : Id) (demo : Demo.t) : Fn unit :=
  sandboxId <- daytonaCreate env ;;
  executeCommand env sandboxId (writeCommand (Demo.generatedCode demo)) ;;
  executeCommand env sandboxId serverCommand ;;
  htmlResponse <- external (fetch env (sandboxUrl sandboxId ++ "/demo.html")) ;;
  if negb (ok htmlResponse)
  then throw (ErrorObj ("Failed to fetch demo: " ++ ofNat (status htmlResponse) ++ " "
                          ++ statusText htmlResponse))
  else
    renderedHtml <- external (text htmlResponse) ;;
    fileStorageId <- storageStore env (mkBlob "text/html" renderedHtml) ;;
    updateDemo demoId
      (DemoUpdates.mk (Some DemoStatus.ready) None
         (Some (ExecutionResults.mk sandboxId (Some renderedHtml) None None None))
         (Some fileStorageId)) ;;
    sandboxDelete env sandboxId.

Definition executeInSandbox (env : Collaborators) (demoId : Id) : Fn unit :=
  demo <- runQuery (getDemoInternal demoId) ;;
  match demo with
  | None => throw (ErrorObj "Demo not found")
  | Some demo =>
      tryCatch
        (executeInSandbox_try env demoId demo)
        (fun error =>
           updateDemo demoId
             (DemoUpdates.mk (Some DemoStatus.failed) None
                (Some (failedResults (messageOr "Unknown sandbox execution error" error)))
                None) ;;
           throw error) ;;
      ret tt
  end.

(** Sandboxes provisioned and teardown calls made, in a log of calls. *)
Definition isCreate (c : SandboxCall) : bool :=
  match c with SandboxCreated _ => true | _ => false end.

Definition isDelete (c : SandboxCall) : bool :=
  match c with SandboxDelete _ => true | _ => false end.

Definition createCount (w : World) : nat := length (filter isCreate (sandboxCalls w)).
Definition deleteCount (w : World) : nat := length (filter isDelete (sandboxCalls w)).

(* ================================================================== *)
(** ** The deployment as a transition system *)

(** What moves the world: the mutations and actions a client calls, the
    upload of a file to storage, and the scheduler running a queued job.
    An action is run here from start to end without another call in
    between (each record has one writer at a time). *)
Inductive Call : Type :=
| CallEnsureUser (auth : option Identity.t)
| CallUpload (blob : Blob)
| CallCreatePaper (auth : option Identity.t) (fileName : string)
                  (fileStorageId : Id) (title : option string)
| CallGenerateDemo (auth : option Identity.t) (env : Collaborators)
                   (paperId : Id) (concept : string)
| RunJob (env : Collaborators) (job : Job).

Definition Job_eqb (a b : Job) : bool :=
  match a, b with
  | JobExtractPdfContent x, JobExtractPdfContent y => x =? y
  | JobExecuteInSandbox x, JobExecuteInSandbox y => x =? y
  | _, _ => false
  end.

(** The queue without the first occurrence of [j]; [None] when [j] is
    not queued. *)
Fixpoint dequeue (j : Job) (q : list Job) : option (list Job) :=
  match q with
  | [] => None
  | h :: t =>
      if Job_eqb h j then Some t
      else match dequeue j t with
           | Some t' => Some (h :: t')
           | None => None
           end
  end.

Definition withScheduled (q : list Job) (w : World) : World :=
  mkWorld (nextId w) (users w) (papers w) (demos w) (storage w) q (sandboxCalls w).

Definition runJob (env : Collaborators) (j : Job) : Fn unit :=
  match j with
  | JobExtractPdfContent paperId => extractPdfContent Json.parse env paperId
  | JobExecuteInSandbox demoId => executeInSandbox env demoId
  end.

Definition run (c : Call) (w : World) : option World :=
  match c with
  | CallEnsureUser auth => Some (snd (ensureUser auth w))
  | CallUpload blob => Some (snd (db_insert storageT blob w))
  | CallCreatePaper auth fileName fileStorageId title =>
      Some (snd (createPaper auth fileName fileStorageId title w))
  | CallGenerateDemo auth env paperId concept =>
      Some (snd (generateDemo auth env paperId concept w))
  | RunJob env j =>
      match dequeue j (scheduled w) with
      | Some q => Some (snd (runJob env j (withScheduled q w)))
      | None => None
      end
  end.

Fixpoint runCalls (cs : list Call) (w : World) : option World :=
  match cs with
  | [] => Some w
  | c :: r =>
      match run c w with
      | Some w' => runCalls r w'
      | None => None
      end
  end.

Section Reachability.

(** What is assumed of the collaborators of a call. *)
Variable good : Call -> Prop.

Inductive reachable : World -> Prop :=
| reachable_empty : reachable emptyWorld
| reachable_step (c : Call) (w w' : World) :
    reachable w -> good c -> run c w = Some w' -> reachable w'.

End Reachability.

(** The generative model never answers with a text that is empty once
    it is cleaned up. *)
Definition answersNonEmpty (c : Call) : Prop :=
  match c with
  | CallGenerateDemo _ env _ _ =>
      forall prompt file resultText,
        generateText env prompt file = Ok resultText -> cleanHtml resultText <> EmptyString
  | _ => True
  end.

(** Nothing is assumed. *)
Definition anyCall (c : Call) : Prop := True.

(* ================================================================== *)
(** ** Predicates of the statements *)

(** [c] leaves the world as it is, whatever it returns. *)
Definition readonly {A} (c : Fn A) : Prop := forall w, snd (c w) = w.

(** When [c] throws, the world is as it was. *)
Definition rollsBack {A} (c : Fn A) : Prop :=
  forall w e w', c w = (Throw e, w') -> w' = w.

(** [c] keeps the property [I] of the world. *)
Definition preserves {A} (I : World -> Prop) (c : Fn A) : Prop :=
  forall w, I w -> I (snd (c w)).

(** A property that looks at the demos table and the queue only. *)
Definition onDemos (I : World -> Prop) : Prop :=
  forall w w', demos w = demos w' -> scheduled w = scheduled w' -> I w -> I w'.

(** The answer [m] wrapped in fences labelled html, each on its own line. *)
Definition fenced (m : string) : string :=
  fenceHtml ++ String newline (m ++ String newline fence).

(** The metadata object with every field absent. *)
Definition emptyMetadata : Metadata.t := Metadata.mk None None None.

(** The fallback of the inner [try]: no braces to parse, or braces that
    [JSON.parse] refuses. *)
Definition fallsBack (JSON_parse : string -> option Json.json) (resultText : string) : Prop :=
  matchBraces resultText = None
  \/ exists m, matchBraces resultText = Some m /\ JSON_parse m = None.

(** The address [demoUrlOf] finds for a demo in the world [w]. *)
Definition demoUrlIn (w : World) (d : Demo.t) : option Url :=
  match Demo.demoFileStorageId d with
  | Some storageId =>
      match lookup storageId (storage w) with
      | Some _ => Some (BlobUrl storageId)
      | None => None
      end
  | None => None
  end.

(** The demo that [executeInSandbox] loaded is still there at the end of
    the [try] block. *)
Definition demoFound (demoId : Id) (w : World) : Prop :=
  lookup demoId (demos w) <> None.

(** A demo in [executing] or [ready] has code, and so has every demo
    that is queued for the sandbox. *)
Definition codeInv (w : World) : Prop :=
  (forall id d, In (id, d) (demos w) ->
      Demo.status d = DemoStatus.executing \/ Demo.status d = DemoStatus.ready ->
      Demo.generatedCode d <> EmptyString)
  /\ (forall demoId, In (JobExecuteInSandbox demoId) (scheduled w) ->
      exists d, lookup demoId (demos w) = Some d /\ Demo.generatedCode d <> EmptyString).

(** The demo [demoId] is there and has code. *)
Definition hasCode (demoId : Id) (w : World) : Prop :=
  exists d, lookup demoId (demos w) = Some d /\ Demo.generatedCode d <> EmptyString.

(* ================================================================== *)
(** ** Scenarios *)

Definition alice : Identity.t :=
  Identity.mk "user_01" (Some "alice@example.org") (Some "Alice") None.

Definition bob : Identity.t :=
  Identity.mk "user_02" None None None.

Definition pdfBlob : Blob := mkBlob "application/pdf" "%PDF-1.7".

(** A world with two users, one uploaded file, and one paper of Alice's
    (ids: Alice 0, Bob 1, the file 2, the paper 3). *)
Definition worldWithPaper : World :=
  snd (createPaper (Some alice) "attention.pdf" 2 None
        (snd (db_insert storageT pdfBlob
          (snd (ensureUser (Some bob)
            (snd (ensureUser (Some alice) emptyWorld))))))).

(** No collaborator answers. *)
Definition silent : Collaborators :=
  mkCollaborators
    (fun _ _ => Throw (ErrorObj "model unavailable"))
    (fun _ => Throw (ErrorObj "network unreachable"))
    (Throw (ErrorObj "no sandbox"))
    (fun _ _ => Throw (ErrorObj "no sandbox"))
    (fun _ => Throw (ErrorObj "network unreachable"))
    (fun _ => Throw (ErrorObj "storage unavailable"))
    (fun _ => Throw (ErrorObj "no sandbox")).

(** Scenario C: the model wraps its markup in fences labelled html. *)
Definition fencedAnswer : string :=
"  ```html
<!DOCTYPE html><p>hi</p>
```
".

Definition fencedModel : Collaborators :=
  mkCollaborators
    (fun _ _ => Ok fencedAnswer)
    (fun _ => Throw (ErrorObj "network unreachable"))
    (Throw (ErrorObj "no sandbox"))
    (fun _ _ => Throw (ErrorObj "no sandbox"))
    (fun _ => Throw (ErrorObj "network unreachable"))
    (fun _ => Throw (ErrorObj "storage unavailable"))
    (fun _ => Throw (ErrorObj "no sandbox")).

(** Alice's demo, generated and queued for the sandbox (its id is 4). *)
Definition worldWithDemo : World :=
  snd (generateDemo (Some alice) fencedModel 3 "self-attention" worldWithPaper).

(** Bob's demo on Alice's paper, put next to hers (the calls of the
    backend never produce it: the reads do not rely on that). *)
Definition mixedWorld : World :=
  snd (db_insert demosT
         (Demo.mk 3 1 "positional encoding" DemoStatus.ready "<!DOCTYPE html>"
                  CodeType.html None None)
         worldWithDemo).

(** The file downloads, the analysis model is down. *)
Definition analysisDown : Collaborators :=
  mkCollaborators
    (fun _ _ => Throw (ErrorObj "model unavailable"))
    (fun _ => Ok "%PDF-1.7")
    (Throw (ErrorObj "no sandbox"))
    (fun _ _ => Throw (ErrorObj "no sandbox"))
    (fun _ => Throw (ErrorObj "network unreachable"))
    (fun _ => Throw (ErrorObj "storage unavailable"))
    (fun _ => Throw (ErrorObj "no sandbox")).

(** Scenario B: the analysis model answers with plain text. *)
Definition plainText : Collaborators :=
  mkCollaborators
    (fun _ _ => Ok "hello world")
    (fun _ => Ok "%PDF-1.7")
    (Throw (ErrorObj "no sandbox"))
    (fun _ _ => Throw (ErrorObj "no sandbox"))
    (fun _ => Throw (ErrorObj "network unreachable"))
    (fun _ => Throw (ErrorObj "storage unavailable"))
    (fun _ => Throw (ErrorObj "no sandbox")).

(** An answer that is prose around a JSON object: the text as a whole is
    not JSON, the braces in it are. *)
Definition quoted (s : string) : string := String dquote (s ++ String dquote EmptyString).

Definition proseAroundJson : string :=
  "Sure! {" ++ quoted "content" ++ ":" ++ quoted "abc" ++ "}".

Definition proseModel : Collaborators :=
  mkCollaborators
    (fun _ _ => Ok proseAroundJson)
    (fun _ => Ok "%PDF-1.7")
    (Throw (ErrorObj "no sandbox"))
    (fun _ _ => Throw (ErrorObj "no sandbox"))
    (fun _ => Throw (ErrorObj "network unreachable"))
    (fun _ => Throw (ErrorObj "storage unavailable"))
    (fun _ => Throw (ErrorObj "no sandbox")).

(** Prose around an object whose [authors] is a list, not a string. *)
Definition proseAroundAuthorList : string :=
  "Note {" ++ quoted "authors" ++ ":[" ++ quoted "A" ++ "]}".

(** The sandbox is provisioned, then writing the file fails. *)
Definition writeFails : Collaborators :=
  mkCollaborators
    (fun _ _ => Throw (ErrorObj "model unavailable"))
    (fun _ => Throw (ErrorObj "network unreachable"))
    (Ok "sbx-1")
    (fun _ _ => Throw (ErrorObj "disk full"))
    (fun _ => Throw (ErrorObj "network unreachable"))
    (fun _ => Ok tt)
    (fun _ => Ok tt).

(** Scenario D: provisioning and the commands succeed, the fetch answers
    with a non-success status. *)
Definition fetchNotOk : Collaborators :=
  mkCollaborators
    (fun _ _ => Throw (ErrorObj "model unavailable"))
    (fun _ => Throw (ErrorObj "network unreachable"))
    (Ok "sbx-1")
    (fun _ _ => Ok tt)
    (fun _ => Ok (mkResponse false 502 "Bad Gateway" (Ok "upstream error")))
    (fun _ => Ok tt)
    (fun _ => Ok tt).

(** Scenario E: every step succeeds. *)
Definition allSucceed : Collaborators :=
  mkCollaborators
    (fun _ _ => Throw (ErrorObj "model unavailable"))
    (fun _ => Throw (ErrorObj "network unreachable"))
    (Ok "sbx-1")
    (fun _ _ => Ok tt)
    (fun _ => Ok (mkResponse true 200 "OK" (Ok "<html>ok</html>")))
    (fun _ => Ok tt)
    (fun _ => Ok tt).

(** The calls that lead to Alice's demo. *)
Definition callsToDemo (model : Collaborators) : list Call :=
  [ CallEnsureUser (Some alice);
    CallEnsureUser (Some bob);
    CallUpload pdfBlob;
    CallCreatePaper (Some alice) "attention.pdf" 2 None;
    CallGenerateDemo (Some alice) model 3 "self-attention" ].

(** The model answers with the two fences and nothing between them. *)
Definition fencesOnly : Collaborators :=
  mkCollaborators
    (fun _ _ => Ok (fenceHtml ++ String newline fence))
    (fun _ => Throw NonError) (Throw NonError) (fun _ _ => Throw NonError)
    (fun _ => Throw NonError) (fun _ => Throw NonError) (fun _ => Throw NonError).


(* ================================================================== *)
(** ** More of the backend and of its callers *)


(** The status literals of a paper, as the pages compare them. *)
Definition paperStatusName (s : PaperStatus.t) : string :=
  match s with
  | PaperStatus.uploading => "uploading"
  | PaperStatus.processing => "processing"
  | PaperStatus.ready => "ready"
  | PaperStatus.error => "error"
  end.

(** [getStatusCount] of [app/papers/page.tsx]; [None] is the [undefined]
    of a query that is still loading. *)
Definition getStatusCount (papers : option (list (Id * Paper.t))) (status : string) : nat :=
  match papers with
  | None => 0
  | Some papers =>
      if String.eqb status "all" then length papers
      else length (filter (fun p : Id * Paper.t =>
                             String.eqb (paperStatusName (Paper.status (snd p))) status)
                          papers)
  end.

(* ================================================================== *)
(** ** More predicates of the statements *)

(** [c] leaves the component [proj] of the world as it is. *)
Definition keeps {A X} (proj : World -> X) (c : Fn A) : Prop :=
  forall w, proj (snd (c w)) = proj w.

(** The string a JSON member holds, if it holds one. *)
Definition asText (x : option Json.json) : option string :=
  match x with
  | Some (Json.JStr s) => Some s
  | _ => None
  end.

(** A member that is absent, [null] or a string. *)
Definition textOrNull (x : option Json.json) : bool :=
  match x with
  | None | Some Json.JNull | Some (Json.JStr _) => true
  | Some _ => false
  end.

(** A member that is absent or a string. *)
Definition textOrAbsent (x : option Json.json) : bool :=
  match x with
  | None | Some (Json.JStr _) => true
  | Some _ => false
  end.

(** [s.split(',').map((a) => a.trim())] *)
Definition commaList (s : string) : list string := map trim (split ","%char s).

(** The users whose [workosId] is [subject]. *)
Definition usersWith (subject : string) (w : World) : list (Id * User.t) :=
  filter (fun r : Id * User.t => String.eqb (User.workosId (snd r)) subject) (users w).

(** No two users share a [workosId]. *)
Definition usersUnique (w : World) : Prop :=
  forall subject, length (usersWith subject w) <= 1.

(** The extension [createPaper] removes from a file name. *)
Definition pdfExt : string := ".pdf".

(** The fields [extractPdfContent] passes to [updatePaper] for a parsed
    object with the members [ms] and the answer [resultText], when the
    members it reads have the types the code relies on: [content],
    [authors] and [keywords] absent, [null] or a string, [abstract]
    absent or a string. *)
Definition fieldsOf (ms : list (string * Json.json)) (resultText : string)
  : option (string * Metadata.t) :=
  let content := Json.lookupLast "content" ms in
  let authors := Json.lookupLast "authors" ms in
  let abstract := Json.lookupLast "abstract" ms in
  let keywords := Json.lookupLast "keywords" ms in
  if textOrNull authors && textOrNull keywords && textOrNull content && textOrAbsent abstract
  then Some (match asText content with Some c => c | None => resultText end,
             Metadata.mk (option_map commaList (asText authors))
                         (asText abstract)
                         (option_map commaList (asText keywords)))
  else None.

(** Scenario A: the analysis model answers with the object asked for. *)
Definition structuredAnswer : string :=
  "{" ++ quoted "content" ++ ":" ++ quoted "..." ++ ","
      ++ quoted "title" ++ ":" ++ quoted "T" ++ ","
      ++ quoted "authors" ++ ":" ++ quoted "A, B" ++ ","
      ++ quoted "abstract" ++ ":" ++ quoted "X" ++ ","
      ++ quoted "keywords" ++ ":" ++ quoted "k1, k2" ++ "}".

Definition structuredModel : Collaborators :=
  mkCollaborators
    (fun _ _ => Ok structuredAnswer)
    (fun _ => Ok "%PDF-1.7")
    (Throw NonError) (fun _ _ => Throw NonError) (fun _ => Throw NonError)
    (fun _ => Throw NonError) (fun _ => Throw NonError).

(** An object whose [abstract] is [null]. *)
Definition nullAbstractAnswer : string :=
  "{" ++ quoted "content" ++ ":" ++ quoted "text" ++ ","
      ++ quoted "abstract" ++ ":null}".

Definition nullAbstractModel : Collaborators :=
  mkCollaborators
    (fun _ _ => Ok nullAbstractAnswer)
    (fun _ => Ok "%PDF-1.7")
    (Throw NonError) (fun _ _ => Throw NonError) (fun _ => Throw NonError)
    (fun _ => Throw NonError) (fun _ => Throw NonError).

(** [c] writes nothing; it throws, or returns a value that satisfies [Q]. *)
Definition yields {A} (Q : A -> Prop) (c : Fn A) : Prop :=
  forall w, (exists e, c w = (Throw e, w)) \/ (exists a, Q a /\ c w = (Ok a, w)).

(** [c] throws and writes nothing, or it is the patch of the paper to
    [ready] with some content, some metadata and the address [url]. *)
Definition readyPatchOrThrow (paperId : Id) (url : Url) (c : Fn unit) : Prop :=
  forall w,
    (exists e, c w = (Throw e, w))
    \/ (exists content md,
          c w = updatePaper paperId
                  (PaperUpdates.mk (Some PaperStatus.ready) (Some content) (Some md)
                     (Some url)) w).

(** The demo [d] after the patch to [ready]. *)
Definition readyDemo (d : Demo.t) (sandboxId renderedHtml : string) (fileStorageId : Id)
  : Demo.t :=
  Demo.mk (Demo.paperId d) (Demo.userId d) (Demo.concept d) DemoStatus.ready
          (Demo.generatedCode d) (Demo.codeType d)
          (Some (ExecutionResults.mk sandboxId (Some renderedHtml) None None None))
          (Some fileStorageId).

(** The demo [d] after the patch to [failed] of [executeInSandbox]. *)
Definition failedDemo (d : Demo.t) (e : Thrown) : Demo.t :=
  Demo.mk (Demo.paperId d) (Demo.userId d) (Demo.concept d) DemoStatus.failed
          (Demo.generatedCode d) (Demo.codeType d)
          (Some (failedResults (messageOr "Unknown sandbox execution error" e)))
          (Demo.demoFileStorageId d).

(** The sandbox calls of a run that reaches the fetch. *)
Definition deployCalls (sandboxId generatedCode : string) : list SandboxCall :=
  [ SandboxCreated sandboxId;
    SandboxCommand sandboxId (writeCommand generatedCode);
    SandboxCommand sandboxId serverCommand ].

(** Scenario E with a teardown that fails. *)
Definition teardownFails : Collaborators :=
  mkCollaborators
    (fun _ _ => Throw (ErrorObj "model unavailable"))
    (fun _ => Throw (ErrorObj "network unreachable"))
    (Ok "sbx-1")
    (fun _ _ => Ok tt)
    (fun _ => Ok (mkResponse true 200 "OK" (Ok "<html>ok</html>")))
    (fun _ => Ok tt)
    (fun _ => Throw (ErrorObj "sandbox is busy")).

(** Alice's demo as [generateDemo] leaves it in [worldWithDemo]. *)
Definition aliceDemo : Demo.t :=
  Demo.mk 3 0 "self-attention" DemoStatus.executing (cleanHtml fencedAnswer)
          CodeType.html None None.

(** The address [getPaper] and [listUserPapers] find for a paper in the
    world [w]. *)
Definition pdfUrlIn (w : World) (p : Paper.t) : option Url :=
  match lookup (Paper.fileStorageId p) (storage w) with
  | Some _ => Some (BlobUrl (Paper.fileStorageId p))
  | None => None
  end.

(** A paper as the reads return it: with its id and a fresh address. *)
Definition paperDocIn (w : World) (r : Id * Paper.t) : Id * Paper.t :=
  (fst r, withPdfUrl (pdfUrlIn w (snd r)) (snd r)).

(* ================================================================== *)
(** ** The steps of the deployment, by their effect *)

(** The paper [p] after the patch to [ready] of [extractPdfContent]. *)
Definition readyPaper (p : Paper.t) (content : string) (md : Metadata.t) : Paper.t :=
  Paper.mk (Paper.userId p) (Paper.title p) (Paper.fileName p) (Paper.fileStorageId p)
           (Some (BlobUrl (Paper.fileStorageId p))) PaperStatus.ready
           (Some content) (Some md).

(** The paper [p] after the patch to [error] of [extractPdfContent]. *)
Definition erroredPaper (p : Paper.t) : Paper.t :=
  Paper.mk (Paper.userId p) (Paper.title p) (Paper.fileName p) (Paper.fileStorageId p)
           (Paper.pdfUrl p) PaperStatus.error (Paper.extractedContent p) (Paper.metadata p).

(** No record has the id the job [j] names. *)
Definition recordMissing (j : Job) (w : World) : Prop :=
  match j with
  | JobExtractPdfContent paperId => lookup paperId (papers w) = None
  | JobExecuteInSandbox demoId => lookup demoId (demos w) = None
  end.

(** What one call can do to the world: the cases of [run], each with
    the world it leaves. A call that is refused leaves the world as it
    is; a queued job whose record is missing is only taken off the
    queue. *)
Inductive step (w : World) : World -> Prop :=
| step_refused : step w w
| step_user (u : User.t) :
    step w (mkWorld (S (nextId w)) (users w ++ [(nextId w, u)])%list (papers w) (demos w)
              (storage w) (scheduled w) (sandboxCalls w))
| step_upload (b : Blob) :
    step w (mkWorld (S (nextId w)) (users w) (papers w) (demos w)
              (storage w ++ [(nextId w, b)])%list (scheduled w) (sandboxCalls w))
| step_paper (uid : Id) (u : User.t) (title fileName : string) (fileStorageId : Id) :
    In (uid, u) (users w) ->
    step w (mkWorld (S (nextId w)) (users w)
              (papers w ++ [(nextId w,
                             Paper.mk uid title fileName fileStorageId None
                                      PaperStatus.processing None None)])%list
              (demos w) (storage w)
              (scheduled w ++ [JobExtractPdfContent (nextId w)])%list (sandboxCalls w))
| step_demo_executing (paperId : Id) (paper : Paper.t) (u : User.t) (concept code : string) :
    lookup paperId (papers w) = Some paper ->
    In (Paper.userId paper, u) (users w) ->
    step w (mkWorld (S (nextId w)) (users w) (papers w)
              (demos w ++ [(nextId w,
                            Demo.mk paperId (Paper.userId paper) concept DemoStatus.executing
                                    code CodeType.html None None)])%list
              (storage w)
              (scheduled w ++ [JobExecuteInSandbox (nextId w)])%list (sandboxCalls w))
| step_demo_failed (paperId : Id) (paper : Paper.t) (u : User.t) (concept message : string) :
    lookup paperId (papers w) = Some paper ->
    In (Paper.userId paper, u) (users w) ->
    step w (mkWorld (S (nextId w)) (users w) (papers w)
              (demos w ++ [(nextId w,
                            Demo.mk paperId (Paper.userId paper) concept DemoStatus.failed
                                    EmptyString CodeType.html
                                    (Some (failedResults message)) None)])%list
              (storage w) (scheduled w) (sandboxCalls w))
| step_dropped (j : Job) (q : list Job) :
    dequeue j (scheduled w) = Some q ->
    recordMissing j w ->
    step w (withScheduled q w)
| step_paper_ready (paperId : Id) (p : Paper.t) (q : list Job)
                   (content : string) (md : Metadata.t) (b : Blob) :
    dequeue (JobExtractPdfContent paperId) (scheduled w) = Some q ->
    lookup paperId (papers w) = Some p ->
    lookup (Paper.fileStorageId p) (storage w) = Some b ->
    step w (mkWorld (nextId w) (users w)
              (update paperId (fun _ => readyPaper p content md) (papers w))
              (demos w) (storage w) q (sandboxCalls w))
| step_paper_error (paperId : Id) (p : Paper.t) (q : list Job) :
    dequeue (JobExtractPdfContent paperId) (scheduled w) = Some q ->
    lookup paperId (papers w) = Some p ->
    step w (mkWorld (nextId w) (users w)
              (update paperId (fun _ => erroredPaper p) (papers w))
              (demos w) (storage w) q (sandboxCalls w))
| step_demo_ready (demoId : Id) (d : Demo.t) (q : list Job)
                  (sandboxId renderedHtml : string) (calls : list SandboxCall) :
    dequeue (JobExecuteInSandbox demoId) (scheduled w) = Some q ->
    lookup demoId (demos w) = Some d ->
    step w (mkWorld (S (nextId w)) (users w) (papers w)
              (update demoId (fun _ => readyDemo d sandboxId renderedHtml (nextId w))
                      (demos w))
              (storage w ++ [(nextId w, mkBlob "text/html" renderedHtml)])%list q calls)
| step_demo_run_failed (demoId : Id) (d : Demo.t) (q : list Job)
                       (e : Thrown) (calls : list SandboxCall) :
    dequeue (JobExecuteInSandbox demoId) (scheduled w) = Some q ->
    lookup demoId (demos w) = Some d ->
    step w (mkWorld (nextId w) (users w) (papers w)
              (update demoId (fun _ => failedDemo d e) (demos w))
              (storage w) q calls)
| step_demo_teardown_failed (demoId : Id) (d : Demo.t) (q : list Job)
                            (sandboxId renderedHtml : string) (e : Thrown)
                            (calls : list SandboxCall) :
    dequeue (JobExecuteInSandbox demoId) (scheduled w) = Some q ->
    lookup demoId (demos w) = Some d ->
    step w (mkWorld (S (nextId w)) (users w) (papers w)
              (update demoId
                 (fun _ => failedDemo (readyDemo d sandboxId renderedHtml (nextId w)) e)
                 (demos w))
              (storage w ++ [(nextId w, mkBlob "text/html" renderedHtml)])%list q calls).

(** No id at or above the counter is in use. *)
Definition idsBelow (w : World) : Prop :=
  forall id, nextId w <= id ->
    ~ In id (map fst (users w)) /\ ~ In id (map fst (papers w))
    /\ ~ In id (map fst (demos w)) /\ ~ In id (map fst (storage w)).

(** No two rows of a table share an id. *)
Definition idsDistinct (w : World) : Prop :=
  NoDup (map fst (users w)) /\ NoDup (map fst (papers w))
  /\ NoDup (map fst (demos w)) /\ NoDup (map fst (storage w)).

(** A queued job is queued once, and its record is there and still
    waits for it; a record that waits has its job queued. *)
Definition queueInv (w : World) : Prop :=
  NoDup (scheduled w)
  /\ (forall paperId, In (JobExtractPdfContent paperId) (scheduled w) ->
        exists p, lookup paperId (papers w) = Some p
                  /\ Paper.status p = PaperStatus.processing)
  /\ (forall demoId, In (JobExecuteInSandbox demoId) (scheduled w) ->
        exists d, lookup demoId (demos w) = Some d
                  /\ Demo.status d = DemoStatus.executing)
  /\ (forall paperId p, lookup paperId (papers w) = Some p ->
        Paper.status p = PaperStatus.processing ->
        In (JobExtractPdfContent paperId) (scheduled w))
  /\ (forall demoId d, lookup demoId (demos w) = Some d ->
        Demo.status d = DemoStatus.executing ->
        In (JobExecuteInSandbox demoId) (scheduled w)).

(** What the fields of a paper are in each status. *)
Definition paperInv (w : World) (p : Paper.t) : Prop :=
  match Paper.status p with
  | PaperStatus.uploading => False
  | PaperStatus.processing | PaperStatus.error =>
      Paper.extractedContent p = None /\ Paper.metadata p = None /\ Paper.pdfUrl p = None
  | PaperStatus.ready =>
      Paper.extractedContent p <> None /\ Paper.metadata p <> None
      /\ Paper.pdfUrl p = Some (BlobUrl (Paper.fileStorageId p))
      /\ pdfUrlIn w p = Some (BlobUrl (Paper.fileStorageId p))
  end.

(** What the fields of a demo are in each status. *)
Definition demoInv (w : World) (d : Demo.t) : Prop :=
  match Demo.status d with
  | DemoStatus.generating => False
  | DemoStatus.executing =>
      Demo.executionResults d = None /\ Demo.demoFileStorageId d = None
  | DemoStatus.ready =>
      exists sandboxId renderedHtml fileStorageId,
        Demo.executionResults d
        = Some (ExecutionResults.mk sandboxId (Some renderedHtml) None None None)
        /\ Demo.demoFileStorageId d = Some fileStorageId
        /\ lookup fileStorageId (storage w) = Some (mkBlob "text/html" renderedHtml)
  | DemoStatus.failed =>
      exists message, Demo.executionResults d = Some (failedResults message)
  end.

(** Every paper belongs to a user, and every demo to a paper of the
    demo's own user. *)
Definition ownersInv (w : World) : Prop :=
  (forall paperId p, In (paperId, p) (papers w) ->
      exists u, In (Paper.userId p, u) (users w))
  /\ (forall demoId d, In (demoId, d) (demos w) ->
      exists p, lookup (Demo.paperId d) (papers w) = Some p
                /\ Paper.userId p = Demo.userId d).

(** The two queued jobs of [worldWithDemo] run: the extraction with the
    answer of Scenario A, the sandbox with every step succeeding. *)
Definition settleCalls : list Call :=
  [ RunJob structuredModel (JobExtractPdfContent 3);
    RunJob allSucceed (JobExecuteInSandbox 4) ].

Definition worldSettled : World :=
  match runCalls settleCalls worldWithDemo with
  | Some w => w
  | None => worldWithDemo
  end.

(** Alice's paper and demo as the two jobs leave them. *)
Definition alicePaperReady : Paper.t :=
  Paper.mk 0 "attention" "attention.pdf" 2 (Some (BlobUrl 2)) PaperStatus.ready
           (Some "...")
           (Some (Metadata.mk (Some ["A"; "B"]) (Some "X") (Some ["k1"; "k2"]))).

Definition aliceDemoReady : Demo.t := readyDemo aliceDemo "sbx-1" "<html>ok</html>" 5.

(** More calls after that: another demo of the same paper, a paper of
    Bob's on the same file, and the jobs these two queue. *)
Definition laterCalls : list Call :=
  [ CallGenerateDemo (Some alice) fencedModel 3 "positional encoding";
    CallCreatePaper (Some bob) "copy.pdf" 2 None;
    RunJob silent (JobExtractPdfContent 7);
    RunJob teardownFails (JobExecuteInSandbox 6) ].

Definition worldLater : World :=
  match runCalls laterCalls worldSettled with
  | Some w => w
  | None => worldSettled
  end.

(* ================================================================== *)
(** * Properties *)

(** ** Reasoning about [Fn] *)

Create HintDb fn discriminated.

Lemma readonly_ret {A} (a : A) : readonly (ret a).
Proof. intro w; reflexivity. Qed.

Lemma readonly_throw {A} (e : Thrown) : readonly (@throw A e).
Proof. intro w; reflexivity. Qed.

Lemma readonly_external {A} (r : Result A) : readonly (external r).
Proof. intro w; reflexivity. Qed.

Lemma readonly_runQuery {A} (q : Fn A) : readonly (runQuery q).
Proof. intro w; reflexivity. Qed.

Lemma readonly_bind {A B} (c : Fn A) (k : A -> Fn B) :
  readonly c -> (forall a, readonly (k a)) -> readonly (bind c k).
Proof.
  intros Hc Hk w. unfold bind. specialize (Hc w).
  destruct (c w) as [[a|e] w1]; simpl in *; subst; [apply Hk | reflexivity].
Qed.

Lemma readonly_db_get {A} (T : Table A) id : readonly (db_get T id).
Proof. intro w; reflexivity. Qed.

Lemma readonly_db_collect {A} (T : Table A) sel : readonly (db_collect T sel).
Proof. intro w; reflexivity. Qed.

Lemma readonly_unique {A} (l : list A) : readonly (unique l).
Proof. destruct l as [|x [|y l]]; intro w; reflexivity. Qed.

Lemma readonly_storage_getUrl id : readonly (storage_getUrl id).
Proof. intro w; reflexivity. Qed.

#[export] Hint Resolve readonly_ret readonly_throw readonly_external readonly_runQuery
  readonly_bind readonly_db_get readonly_db_collect readonly_unique
  readonly_storage_getUrl : fn.

Lemma readonly_byWorkosId subject : readonly (byWorkosId subject).
Proof. unfold byWorkosId; auto with fn. Qed.
#[export] Hint Resolve readonly_byWorkosId : fn.

Lemma readonly_getUserFromAuth auth : readonly (getUserFromAuth auth).
Proof.
  destruct auth as [identity|]; simpl; auto with fn.
  apply readonly_bind; auto with fn.
  intros [[id u]|]; auto with fn.
Qed.

Lemma readonly_getCurrentUser auth : readonly (getCurrentUser auth).
Proof. destruct auth; simpl; auto with fn. Qed.
#[export] Hint Resolve readonly_getUserFromAuth readonly_getCurrentUser : fn.

(** A read-only function is determined by its result. *)
Lemma readonly_run {A} (c : Fn A) (w : World) :
  readonly c -> c w = (fst (c w), w).
Proof. intro H. specialize (H w). destruct (c w); simpl in *; subst; reflexivity. Qed.

Lemma rollsBack_readonly {A} (c : Fn A) : readonly c -> rollsBack c.
Proof. intros H w e w' E. specialize (H w). rewrite E in H. simpl in H. auto. Qed.

Lemma rollsBack_runMutation {A} (m : Fn A) : rollsBack (runMutation m).
Proof.
  intros w e w' E. unfold runMutation in E.
  destruct (m w) as [[a|e'] w1]; inversion E; reflexivity.
Qed.

Lemma rollsBack_bind {A B} (c : Fn A) (k : A -> Fn B) :
  readonly c -> (forall a, rollsBack (k a)) -> rollsBack (bind c k).
Proof.
  intros Hc Hk w e w' E. unfold bind in E. specialize (Hc w).
  destruct (c w) as [[a|e'] w1]; simpl in Hc; subst.
  - eapply Hk; eauto.
  - inversion E; reflexivity.
Qed.

(** Rows of a table. *)
Lemma lookup_app {A} id (r1 r2 : list (Id * A)) :
  lookup id (r1 ++ r2) = match lookup id r1 with Some a => Some a | None => lookup id r2 end.
Proof.
  induction r1 as [|[i a] r1 IH]; simpl; [reflexivity|].
  destruct (i =? id); auto.
Qed.

Lemma lookup_update_same {A} id (f : A -> A) rows :
  lookup id (update id f rows) = option_map f (lookup id rows).
Proof.
  induction rows as [|[i a] rows IH]; simpl; [reflexivity|].
  destruct (i =? id) eqn:E; simpl; rewrite E; auto.
Qed.

Lemma lookup_update_other {A} id id' (f : A -> A) rows :
  id' <> id -> lookup id' (update id f rows) = lookup id' rows.
Proof.
  intro N. induction rows as [|[i a] rows IH]; simpl; [reflexivity|].
  destruct (i =? id) eqn:E; simpl.
  - apply Nat.eqb_eq in E; subst.
    destruct (id =? id') eqn:E'; [apply Nat.eqb_eq in E'; congruence | reflexivity].
  - destruct (i =? id'); auto.
Qed.

Lemma in_update {A} id (f : A -> A) rows i x :
  In (i, x) (update id f rows) ->
  In (i, x) rows \/ exists a, lookup id rows = Some a /\ i = id /\ x = f a.
Proof.
  induction rows as [|[j a] rows IH]; simpl; [tauto|].
  destruct (j =? id) eqn:E; simpl.
  - intros [H|H]; [|tauto].
    inversion H; subst. apply Nat.eqb_eq in E. right; eauto.
  - intros [H|H]; [tauto|]. destruct (IH H) as [?|?]; tauto.
Qed.

Lemma lookup_in {A} id (rows : list (Id * A)) a :
  lookup id rows = Some a -> In (id, a) rows.
Proof.
  induction rows as [|[i b] rows IH]; simpl; [discriminate|].
  destruct (i =? id) eqn:E.
  - apply Nat.eqb_eq in E. intro H; inversion H; subst; auto.
  - auto.
Qed.

(* ================================================================== *)
(** ** Owner provisioning ([ensureUser]) *)

Lemma filter_app_single {A} (p : A -> bool) (l : list A) (x : A) :
  filter p l = [] -> p x = true -> filter p (l ++ [x]) = [x].
Proof. intros Hl Hx. rewrite filter_app, Hl. simpl. rewrite Hx. reflexivity. Qed.

(** After a successful [ensureUser] exactly one user has the identity's
    subject, and it is the one returned. *)
Lemma ensureUser_establishes (identity : Identity.t) (w w1 : World) (uid : Id) :
  ensureUser (Some identity) w = (Ok uid, w1) ->
  exists u, filter (fun r : Id * User.t =>
                      String.eqb (User.workosId (snd r)) (Identity.subject identity))
                   (users w1) = [(uid, u)].
Proof.
  unfold ensureUser, runMutation, ensureUser_handler, byWorkosId, bind, db_collect.
  simpl.
  destruct (filter _ (users w)) as [|[i u] [|y l]] eqn:F; simpl; intro H.
  - inversion H; subst; clear H. simpl. eexists.
    apply filter_app_single; [exact F | simpl; apply String.eqb_refl].
  - inversion H; subst. eauto.
  - discriminate.
Qed.

(** C8. Calling [ensureUser] a second time for the same identity, right
    after a call that succeeded, returns the same user id and leaves the
    world (so the users table) exactly as the first call left it; the
    first call added at most one user. *)
Theorem ensureUser_idempotent (auth : option Identity.t) (w w1 : World) (uid : Id) :
  ensureUser auth w = (Ok uid, w1) ->
  ensureUser auth w1 = (Ok uid, w1)
  /\ length (users w1) <= S (length (users w)).
Proof.
  intro H. destruct auth as [identity|]; [|discriminate].
  split.
  - destruct (ensureUser_establishes _ _ _ _ H) as [u F].
    unfold ensureUser, runMutation, ensureUser_handler, byWorkosId, bind, db_collect.
    simpl. rewrite F. reflexivity.
  - revert H.
    unfold ensureUser, runMutation, ensureUser_handler, byWorkosId, bind, db_collect.
    simpl.
    destruct (filter _ (users w)) as [|[i u] [|y l]]; simpl; intro H;
      inversion H; subst; simpl; [rewrite length_app; simpl; lia | lia].
Qed.

Lemma ensureUser_idempotent_witness :
  let w1 := snd (ensureUser (Some alice) emptyWorld) in
  ensureUser (Some alice) emptyWorld = (Ok 0, w1)
  /\ ensureUser (Some alice) w1 = (Ok 0, w1)
  /\ length (users w1) <= S (length (users emptyWorld)).
Proof.
  split; [reflexivity|].
  apply (ensureUser_idempotent (Some alice) emptyWorld _ 0). reflexivity.
Defined.

(* ================================================================== *)
(** ** Owner-scoped reads ([getPaper], [getDemo], [listPaperDemos]) *)

(** C9. For a caller that [getUserFromAuth] resolves to a user, [getPaper]
    and [getDemo] return [null], without throwing and without a write,
    both when no record has the requested id and when the record belongs
    to another user: the two cases give the same answer. *)
Theorem getPaper_getDemo_null_when_absent_or_foreign
    (auth : option Identity.t) (w : World) (uid : Id) :
  fst (getUserFromAuth auth w) = Ok uid ->
  (forall paperId,
      (lookup paperId (papers w) = None
       \/ exists p, lookup paperId (papers w) = Some p /\ Paper.userId p <> uid) ->
      getPaper auth paperId w = (Ok None, w))
  /\ (forall demoId,
      (lookup demoId (demos w) = None
       \/ exists d, lookup demoId (demos w) = Some d /\ Demo.userId d <> uid) ->
      getDemo auth demoId w = (Ok None, w)).
Proof.
  intro Hu.
  pose proof (readonly_run (getUserFromAuth auth) w (readonly_getUserFromAuth auth)) as R.
  rewrite Hu in R.
  split.
  - intros paperId H. unfold getPaper, runQuery. f_equal.
    unfold bind. rewrite R. unfold db_get. simpl.
    destruct H as [H | [p [H N]]]; rewrite H; [reflexivity|].
    apply Nat.eqb_neq in N. rewrite N. reflexivity.
  - intros demoId H. unfold getDemo, runQuery. f_equal.
    unfold bind. rewrite R. unfold db_get. simpl.
    destruct H as [H | [d [H N]]]; rewrite H; [reflexivity|].
    apply Nat.eqb_neq in N. rewrite N. reflexivity.
Qed.

(** [Promise.all] over a function that only reads. *)
Lemma mapFn_total {A B} (f : A -> Fn B) (g : A -> B) (w : World) (l : list A) :
  (forall a, f a w = (Ok (g a), w)) -> mapFn f l w = (Ok (map g l), w).
Proof.
  intro H. induction l as [|a l IH]; simpl; [reflexivity|].
  unfold bind. rewrite H, IH. reflexivity.
Qed.

Lemma demoUrlOf_total (d : Demo.t) (w : World) :
  demoUrlOf d w = (Ok (demoUrlIn w d), w).
Proof. unfold demoUrlOf, demoUrlIn. destruct (Demo.demoFileStorageId d); reflexivity. Qed.

(** C10. For a caller that [getUserFromAuth] resolves to [uid], and for
    every [paperId], [listPaperDemos] returns a list (it does not throw
    and writes nothing) whose elements all have [userId = uid]; the
    documents listed are exactly the caller's demos of that paper, newest
    first, so demos of other users on the same paper are left out. *)
Theorem listPaperDemos_only_callers_demos
    (auth : option Identity.t) (w : World) (uid : Id) (paperId : Id) :
  fst (getUserFromAuth auth w) = Ok uid ->
  exists l,
    listPaperDemos auth paperId w = (Ok l, w)
    /\ Forall (fun d => Demo.userId (snd (demoDoc d)) = uid) l
    /\ map demoDoc l =
       filter (fun r : Id * Demo.t => Demo.userId (snd r) =? uid)
              (rev (filter (fun r : Id * Demo.t => Demo.paperId (snd r) =? paperId) (demos w))).
Proof.
  intro Hu.
  pose proof (readonly_run (getUserFromAuth auth) w (readonly_getUserFromAuth auth)) as R.
  rewrite Hu in R.
  unfold listPaperDemos, runQuery, bind. rewrite R. unfold db_collect. simpl.
  set (rows := filter (fun r : Id * Demo.t => Demo.userId (snd r) =? uid) _).
  rewrite (mapFn_total _ (fun demo => mkDemoWithUrl demo (demoUrlIn w (snd demo)))).
  2:{ intro a. unfold bind. rewrite (demoUrlOf_total (snd a) w). reflexivity. }
  eexists; split; [reflexivity|]. split.
  - apply Forall_forall. intros d Hd. apply in_map_iff in Hd.
    destruct Hd as [r [E Hr]]. subst d. simpl.
    apply filter_In in Hr. destruct Hr as [_ Hr]. apply Nat.eqb_eq in Hr. exact Hr.
  - rewrite map_map. simpl. apply map_id.
Qed.

(* ================================================================== *)
(** ** Artifact generation ([generateDemo]) *)

(** C2. When the caller resolves to a user, the paper exists and its
    [userId] is not that user's id, [generateDemo] throws [Unauthorized]
    and the world is exactly as before: no demo is created, no record is
    changed, nothing is queued for the sandbox. *)
Theorem generateDemo_unauthorized_no_mutation
    (auth : option Identity.t) (env : Collaborators) (paperId : Id) (concept : string)
    (w : World) (uid : Id) (u : User.t) (paper : Paper.t) :
  fst (getCurrentUser auth w) = Ok (Some (uid, u)) ->
  lookup paperId (papers w) = Some paper ->
  Paper.userId paper <> uid ->
  generateDemo auth env paperId concept w = (Throw (ErrorObj "Unauthorized"), w).
Proof.
  intros Hu Hp Hn.
  unfold generateDemo, bind, runQuery. rewrite Hu. simpl.
  unfold getPaperInternal, db_get. simpl. rewrite Hp.
  apply Nat.eqb_neq in Hn. rewrite Hn. reflexivity.
Qed.

Lemma generateDemo_unauthorized_witness :
  fst (getCurrentUser (Some bob) worldWithPaper)
    = Ok (Some (1, User.mk "user_02" EmptyString "Unknown User" None))
  /\ lookup 3 (papers worldWithPaper)
     = Some (Paper.mk 0 "attention" "attention.pdf" 2 None PaperStatus.processing None None)
  /\ generateDemo (Some bob) silent 3 "self-attention" worldWithPaper
     = (Throw (ErrorObj "Unauthorized"), worldWithPaper).
Proof.
  split; [reflexivity|]. split; [reflexivity|].
  apply (generateDemo_unauthorized_no_mutation (Some bob) silent 3 "self-attention"
           worldWithPaper 1 (User.mk "user_02" EmptyString "Unknown User" None)
           (Paper.mk 0 "attention" "attention.pdf" 2 None PaperStatus.processing None None)).
  - reflexivity.
  - reflexivity.
  - simpl. lia.
Defined.

(** *** Stripping the formatting fences *)

Lemma removeAll_keep (lit : string) (c : ascii) (s : string) :
  String.prefix lit (String c s) = false ->
  removeAll lit 0 false (String c s) = String c (removeAll lit 0 false s).
Proof. intro H. simpl. simpl in H. rewrite H. reflexivity. Qed.

Lemma prefix_cons (a b : ascii) (p s : string) :
  String.prefix (String a p) (String b s)
  = if Ascii.eqb a b then String.prefix p s else false.
Proof.
  simpl. destruct (ascii_dec a b) as [E|N].
  - subst. rewrite Ascii.eqb_refl. reflexivity.
  - apply Ascii.eqb_neq in N. rewrite N. reflexivity.
Qed.

Lemma prefix_nil (s : string) : String.prefix EmptyString s = true.
Proof. destruct s; reflexivity. Qed.

(** Case analysis on the first bytes of a string tested against a
    literal that is made of back quotes and letters. *)
Ltac prefix_cases :=
  cbn [append] in *;
  rewrite ?prefix_cons, ?prefix_nil in *;
  change (Ascii.eqb "`"%char "010"%char) with false in *;
  repeat match goal with
         | H : context [Ascii.eqb ?a ?b] |- _ => is_var b; destruct (Ascii.eqb a b)
         | |- context [Ascii.eqb ?a ?b] => is_var b; destruct (Ascii.eqb a b)
         end;
  simpl in *; try discriminate; auto.

Lemma fence_not_before_newline (m t : string) :
  String.prefix fence m = false ->
  String.prefix fence (m ++ String newline t) = false.
Proof.
  unfold fence, newline.
  destruct m as [|c1 [|c2 [|c3 m]]]; intro H; prefix_cases.
Qed.

Lemma fenceHtml_needs_fence (s : string) :
  String.prefix fence s = false -> String.prefix fenceHtml s = false.
Proof.
  unfold fence, fenceHtml.
  destruct s as [|c1 [|c2 [|c3 s]]]; intro H; prefix_cases.
Qed.

Lemma includes_cons (lit : string) (c : ascii) (s : string) :
  includes lit (String c s) = false ->
  String.prefix lit (String c s) = false /\ includes lit s = false.
Proof. simpl. intro H. apply orb_false_elim in H. exact H. Qed.

(** Without a fence inside [m], the first replacement finds nothing
    after the opening fence... *)
Lemma replace_fenceHtml_tail (m : string) :
  includes fence m = false ->
  removeAll fenceHtml 0 false (m ++ String newline fence) = m ++ String newline fence.
Proof.
  induction m as [|c m IH]; intro H.
  - reflexivity.
  - apply includes_cons in H. destruct H as [Hp Hi].
    change (String c m ++ String newline fence)
      with (String c (m ++ String newline fence)).
    rewrite removeAll_keep.
    + rewrite IH by exact Hi. reflexivity.
    + apply fenceHtml_needs_fence.
      apply (fence_not_before_newline (String c m) fence Hp).
Qed.

(** ... and the second removes the closing fence and nothing else. *)
Lemma replace_fence_tail (m : string) :
  includes fence m = false ->
  removeAll fence 0 false (m ++ String newline fence) = m ++ String newline EmptyString.
Proof.
  induction m as [|c m IH]; intro H.
  - reflexivity.
  - apply includes_cons in H. destruct H as [Hp Hi].
    change (String c m ++ String newline fence)
      with (String c (m ++ String newline fence)).
    rewrite removeAll_keep.
    + rewrite IH by exact Hi. reflexivity.
    + apply (fence_not_before_newline (String c m) fence Hp).
Qed.

Lemma prefix_append (p m t : string) :
  String.prefix p m = true -> String.prefix p (m ++ t) = true.
Proof.
  revert m. induction p as [|a p IH]; intros m H.
  - apply prefix_nil.
  - destruct m as [|b m]; [discriminate|].
    cbn [append]. rewrite prefix_cons in *.
    destruct (Ascii.eqb a b); [auto | discriminate].
Qed.

Lemma fence_needs_back_quote (c : ascii) (s : string) :
  Ascii.eqb "`"%char c = false -> String.prefix fence (String c s) = false.
Proof. intro H. unfold fence. rewrite prefix_cons, H. reflexivity. Qed.

Lemma one_back_quote_kept (s : string) :
  String.prefix "`" s = false ->
  String.prefix "`" (removeAll fence 0 false s) = false.
Proof.
  destruct s as [|c s]; intro H; [reflexivity|].
  rewrite prefix_cons in H. destruct (Ascii.eqb "`"%char c) eqn:E.
  - rewrite prefix_nil in H. discriminate.
  - rewrite removeAll_keep by (apply fence_needs_back_quote; exact E).
    rewrite prefix_cons, E. reflexivity.
Qed.

Lemma two_back_quotes_kept (s : string) :
  String.prefix "``" s = false ->
  String.prefix "``" (removeAll fence 0 false s) = false.
Proof.
  destruct s as [|c s]; intro H; [reflexivity|].
  rewrite prefix_cons in H. destruct (Ascii.eqb "`"%char c) eqn:E.
  - assert (K : String.prefix fence (String c s) = false).
    { unfold fence. rewrite prefix_cons, E.
      destruct s as [|d s]; [reflexivity|].
      rewrite prefix_cons in *. destruct (Ascii.eqb "`"%char d); [|reflexivity].
      rewrite prefix_nil in H. discriminate. }
    rewrite removeAll_keep by exact K.
    rewrite prefix_cons, E. apply one_back_quote_kept; exact H.
  - rewrite removeAll_keep by (apply fence_needs_back_quote; exact E).
    rewrite prefix_cons, E. reflexivity.
Qed.

Lemma no_fence_across_kept_byte (c : ascii) (s : string) :
  String.prefix fence (String c s) = false ->
  String.prefix fence (String c (removeAll fence 0 false s)) = false.
Proof.
  intro H. unfold fence in *. rewrite prefix_cons in *.
  destruct (Ascii.eqb "`"%char c); [|reflexivity].
  apply two_back_quotes_kept; exact H.
Qed.

(** After [replace(/FENCE\n?/g, '')] no fence is left. *)
Lemma no_fence_after_removeAll (s : string) (skip : nat) (nl : bool) :
  includes fence (removeAll fence skip nl s) = false.
Proof.
  revert skip nl. induction s as [|c s IH]; intros skip nl; [reflexivity|].
  cbn [removeAll]. destruct skip as [|k]; [|apply IH].
  destruct (nl && Ascii.eqb c newline); [apply IH|].
  destruct (String.prefix fence (String c s)) eqn:P; [apply IH|].
  cbn [includes]. rewrite IH.
  rewrite (no_fence_across_kept_byte c s P). reflexivity.
Qed.

Lemma prefix_split (p m : string) :
  String.prefix p m = true -> exists rest, m = p ++ rest.
Proof.
  revert m. induction p as [|a p IH]; intros m H.
  - exists m. reflexivity.
  - destruct m as [|b m]; [discriminate|].
    rewrite prefix_cons in H. destruct (Ascii.eqb a b) eqn:E; [|discriminate].
    apply Ascii.eqb_eq in E. subst b. destruct (IH m H) as [rest R].
    exists rest. simpl. rewrite R. reflexivity.
Qed.

Lemma removeAll_after_doctype (lit rest : string) :
  lit = fence \/ lit = fenceHtml ->
  removeAll lit 0 false (doctype ++ rest) = doctype ++ removeAll lit 0 false rest.
Proof. intros [E|E]; subst lit; reflexivity. Qed.

(** The clean-up of a fenced answer: the opening fence goes with its
    line feed, and the two replacements run over the rest. *)
Lemma cleanHtml_fenced (resultText m : string) :
  trim resultText = fenced m ->
  cleanHtml resultText
  = removeAll fence 0 false (removeAll fenceHtml 0 false (m ++ String newline fence)).
Proof. intro Ht. unfold cleanHtml. rewrite Ht. reflexivity. Qed.

Lemma cleanHtml_fenced_plain (resultText m : string) :
  trim resultText = fenced m ->
  includes fence m = false ->
  cleanHtml resultText = m ++ String newline EmptyString.
Proof.
  intros Ht Hm. rewrite (cleanHtml_fenced _ _ Ht).
  rewrite replace_fenceHtml_tail by exact Hm.
  apply replace_fence_tail; exact Hm.
Qed.

Lemma cleanHtml_fenced_doctype (resultText m : string) :
  trim resultText = fenced m ->
  startsWith m doctype = true ->
  startsWith (cleanHtml resultText) doctype = true.
Proof.
  intros Ht Hd. rewrite (cleanHtml_fenced _ _ Ht).
  destruct (prefix_split _ _ Hd) as [rest R]. subst m.
  replace ((doctype ++ rest) ++ String newline fence)
    with (doctype ++ (rest ++ String newline fence)) by reflexivity.
  rewrite !removeAll_after_doctype by auto.
  apply (prefix_append doctype doctype). reflexivity.
Qed.

(** *** Writes of the generation path *)

Lemma updateDemo_found (demoId : Id) (u : DemoUpdates.t) (w : World) (d : Demo.t) :
  lookup demoId (demos w) = Some d ->
  updateDemo demoId u w
  = (Ok tt, withRows demosT (update demoId (DemoUpdates.apply u) (demos w)) w).
Proof.
  intro H. unfold updateDemo, runMutation, updateDemo_handler, db_patch. simpl.
  rewrite H. reflexivity.
Qed.

Lemma lookup_inserted {A} (id : Id) (rows : list (Id * A)) (a : A) :
  exists x, lookup id (rows ++ [(id, a)]) = Some x.
Proof.
  rewrite lookup_app. destruct (lookup id rows); [eauto|].
  simpl. rewrite Nat.eqb_refl. eauto.
Qed.

(** C7. When the caller owns the paper and the model's answer, trimmed,
    is markup [m] that begins with the document-start sentinel, wrapped
    in triple-backtick fences labelled html, [generateDemo] returns a
    demo id whose record is in [executing] with a [generatedCode] in
    which no fence is left and which begins with [<!DOCTYPE html>]; when
    [m] itself holds no fence the stored code is [m] followed by the line
    feed that preceded the closing fence. *)
Theorem generateDemo_strips_fences
    (auth : option Identity.t) (env : Collaborators) (paperId : Id) (concept : string)
    (w : World) (uid : Id) (u : User.t) (paper : Paper.t) (resultText m : string) :
  fst (getCurrentUser auth w) = Ok (Some (uid, u)) ->
  lookup paperId (papers w) = Some paper ->
  Paper.userId paper = uid ->
  generateText env (demoPrompt (Paper.title paper) (Paper.extractedContent paper) concept) None
    = Ok resultText ->
  trim resultText = fenced m ->
  startsWith m doctype = true ->
  exists demoId w' d,
    generateDemo auth env paperId concept w = (Ok demoId, w')
    /\ lookup demoId (demos w') = Some d
    /\ Demo.status d = DemoStatus.executing
    /\ includes fence (Demo.generatedCode d) = false
    /\ startsWith (Demo.generatedCode d) doctype = true
    /\ (includes fence m = false -> Demo.generatedCode d = m ++ String newline EmptyString).
Proof.
  intros Hu Hp Ho Hg Ht Hd.
  unfold generateDemo, bind at 1, runQuery at 1. rewrite Hu. simpl fst.
  unfold bind at 1, runQuery, getPaperInternal, db_get. simpl fst. rewrite Hp.
  apply Nat.eqb_eq in Ho. rewrite Ho. simpl negb. cbv iota.
  unfold bind at 1, createDemo, runMutation, createDemo_handler, db_insert, bind at 1, freshId.
  set (new := Demo.mk paperId uid concept DemoStatus.generating EmptyString CodeType.html None None).
  simpl.
  destruct (lookup_inserted (nextId w) (demos w) new) as [x Hx].
  unfold bind at 1, tryCatch, generateDemo_try, bind at 1, external. rewrite Hg.
  unfold bind at 1.
  rewrite (updateDemo_found _ _ _ x) by exact Hx.
  unfold scheduler_runAfter, ret. simpl.
  do 3 eexists. split; [reflexivity|]. simpl.
  rewrite lookup_update_same, Hx. simpl.
  split; [reflexivity|]. split; [reflexivity|].
  split; [|split].
  - rewrite (cleanHtml_fenced _ _ Ht). apply no_fence_after_removeAll.
  - apply (cleanHtml_fenced_doctype resultText m); assumption.
  - intro Hm. apply cleanHtml_fenced_plain; assumption.
Qed.

Lemma generateDemo_strips_fences_witness :
  trim fencedAnswer = fenced "<!DOCTYPE html><p>hi</p>"
  /\ exists demoId w' d,
      generateDemo (Some alice) fencedModel 3 "self-attention" worldWithPaper = (Ok demoId, w')
      /\ lookup demoId (demos w') = Some d
      /\ Demo.status d = DemoStatus.executing
      /\ includes fence (Demo.generatedCode d) = false
      /\ startsWith (Demo.generatedCode d) doctype = true
      /\ (includes fence "<!DOCTYPE html><p>hi</p>" = false ->
          Demo.generatedCode d = "<!DOCTYPE html><p>hi</p>" ++ String newline EmptyString).
Proof.
  split; [reflexivity|].
  apply (generateDemo_strips_fences (Some alice) fencedModel 3 "self-attention"
           worldWithPaper 0
           (User.mk "user_01" "alice@example.org" "Alice" None)
           (Paper.mk 0 "attention" "attention.pdf" 2 None PaperStatus.processing None None)
           fencedAnswer "<!DOCTYPE html><p>hi</p>");
    reflexivity.
Defined.

(* ================================================================== *)
(** ** Document ingestion ([extractPdfContent]) *)

Section ExtractionProperties.
Import Json.

Variable JSON_parse : string -> option json.

Lemma readonly_prop k v : readonly (prop k v).
Proof. destruct v; intro w; reflexivity. Qed.

Lemma readonly_splitTrim x : readonly (splitTrim x).
Proof. destruct x as [[]|]; intro w; reflexivity. Qed.

Lemma readonly_v_optional_string x : readonly (v_optional_string x).
Proof. destruct x as [[]|]; intro w; reflexivity. Qed.

Hint Resolve readonly_prop readonly_splitTrim readonly_v_optional_string : fn.

(** Whatever makes the [try] block throw, the world is then as it was
    when the action started: its only write is the last step, and that
    is one transaction. *)
Lemma extractPdfContent_try_rollsBack env paperId :
  rollsBack (extractPdfContent_try JSON_parse env paperId).
Proof.
  unfold extractPdfContent_try.
  apply rollsBack_bind; auto with fn.
  intros [paper|]; [|apply rollsBack_readonly; auto with fn].
  apply rollsBack_bind; auto with fn.
  intros [pdfUrl|]; [|apply rollsBack_readonly; auto with fn].
  repeat (apply rollsBack_bind; [solve [auto with fn] | intro]).
  apply rollsBack_runMutation.
Qed.

Lemma updatePaper_found paperId u w p :
  lookup paperId (papers w) = Some p ->
  updatePaper paperId u w
  = (Ok tt, withRows papersT (update paperId (PaperUpdates.apply u) (papers w)) w).
Proof.
  intro H. unfold updatePaper, runMutation, updatePaper_handler, db_patch. simpl.
  rewrite H. reflexivity.
Qed.

(** The causes named by the design for a failure of steps 2 to 4. *)
Lemma extraction_raises_blob_unresolvable env paperId w p :
  lookup paperId (papers w) = Some p ->
  lookup (Paper.fileStorageId p) (storage w) = None ->
  extractPdfContent_try JSON_parse env paperId w
  = (Throw (ErrorObj "PDF file not found in storage"), w).
Proof.
  intros Hp Hs. unfold extractPdfContent_try, bind, runQuery, getPaperInternal, db_get,
    storage_getUrl. simpl. rewrite Hp. rewrite Hs. reflexivity.
Qed.

Lemma extraction_raises_network_failure env paperId w p b e :
  lookup paperId (papers w) = Some p ->
  lookup (Paper.fileStorageId p) (storage w) = Some b ->
  fetchArrayBuffer env (BlobUrl (Paper.fileStorageId p)) = Throw e ->
  extractPdfContent_try JSON_parse env paperId w = (Throw e, w).
Proof.
  intros Hp Hs Hf. unfold extractPdfContent_try, bind, runQuery, getPaperInternal, db_get,
    storage_getUrl, external. simpl. rewrite Hp. rewrite Hs. rewrite Hf. reflexivity.
Qed.

Lemma extraction_raises_analysis_failure env paperId w p b data e :
  lookup paperId (papers w) = Some p ->
  lookup (Paper.fileStorageId p) (storage w) = Some b ->
  fetchArrayBuffer env (BlobUrl (Paper.fileStorageId p)) = Ok data ->
  generateText env extractionPrompt (Some data) = Throw e ->
  extractPdfContent_try JSON_parse env paperId w = (Throw e, w).
Proof.
  intros Hp Hs Hf Hg. unfold extractPdfContent_try, bind, runQuery, getPaperInternal, db_get,
    storage_getUrl, external. simpl. rewrite Hp. rewrite Hs. rewrite Hf. rewrite Hg.
  reflexivity.
Qed.

End ExtractionProperties.

(** C6. When the [try] block of [extractPdfContent] throws on an existing
    paper (the blob has no address, the download or the analysis call
    fails, or any later step throws), the action returns normally and the
    world differs from the one it started in only by that paper's
    [status], now [error]: its [userId], [title], [fileName],
    [fileStorageId], [pdfUrl], [extractedContent] and [metadata], every
    other paper, the other tables, storage and the scheduler's queue (no
    retry is queued) are as before. *)
Theorem extractPdfContent_failure_sets_only_status
    (JSON_parse : string -> option Json.json) (env : Collaborators)
    (paperId : Id) (w w1 : World) (p : Paper.t) (e : Thrown) :
  lookup paperId (papers w) = Some p ->
  extractPdfContent_try JSON_parse env paperId w = (Throw e, w1) ->
  exists w',
    extractPdfContent JSON_parse env paperId w = (Ok tt, w')
    /\ lookup paperId (papers w')
       = Some (Paper.mk (Paper.userId p) (Paper.title p) (Paper.fileName p)
                 (Paper.fileStorageId p) (Paper.pdfUrl p) PaperStatus.error
                 (Paper.extractedContent p) (Paper.metadata p))
    /\ (forall other, other <> paperId -> lookup other (papers w') = lookup other (papers w))
    /\ length (papers w') = length (papers w)
    /\ users w' = users w
    /\ demos w' = demos w
    /\ storage w' = storage w
    /\ scheduled w' = scheduled w
    /\ sandboxCalls w' = sandboxCalls w
    /\ nextId w' = nextId w.
Proof.
  intros Hp Ht.
  pose proof (extractPdfContent_try_rollsBack JSON_parse env paperId w e w1 Ht) as E.
  subst w1.
  unfold extractPdfContent, bind, tryCatch. rewrite Ht.
  rewrite (updatePaper_found _ _ _ p Hp). unfold ret.
  eexists. split; [reflexivity|]. simpl.
  split; [rewrite lookup_update_same, Hp; reflexivity|].
  split; [intros other N; apply lookup_update_other; exact N|].
  split; [|repeat split; reflexivity].
  clear. induction (papers w) as [|[i a] r IH]; simpl; [reflexivity|].
  destruct (i =? paperId); simpl; congruence.
Qed.

Lemma extractPdfContent_failure_witness :
  extractPdfContent_try Json.parse analysisDown 3 worldWithPaper
    = (Throw (ErrorObj "model unavailable"), worldWithPaper)
  /\ exists w',
    extractPdfContent Json.parse analysisDown 3 worldWithPaper = (Ok tt, w')
    /\ lookup 3 (papers w')
       = Some (Paper.mk 0 "attention" "attention.pdf" 2 None PaperStatus.error None None)
    /\ (forall other, other <> 3 ->
          lookup other (papers w') = lookup other (papers worldWithPaper))
    /\ length (papers w') = length (papers worldWithPaper)
    /\ users w' = users worldWithPaper
    /\ demos w' = demos worldWithPaper
    /\ storage w' = storage worldWithPaper
    /\ scheduled w' = scheduled worldWithPaper
    /\ sandboxCalls w' = sandboxCalls worldWithPaper
    /\ nextId w' = nextId worldWithPaper.
Proof.
  split; [reflexivity|].
  apply (extractPdfContent_failure_sets_only_status Json.parse analysisDown 3
           worldWithPaper worldWithPaper
           (Paper.mk 0 "attention" "attention.pdf" 2 None PaperStatus.processing None None)
           (ErrorObj "model unavailable")); reflexivity.
Defined.

(** *** The lenient parse *)

Lemma extractedDataOf_fallback JSON_parse resultText :
  fallsBack JSON_parse resultText ->
  extractedDataOf JSON_parse resultText
  = Json.JObj [("content", Json.JStr resultText)].
Proof.
  unfold extractedDataOf. intros [H | [m [H1 H2]]].
  - rewrite H. reflexivity.
  - rewrite H1, H2. reflexivity.
Qed.

(** C4, as the code has it. When the analysis answer holds no span from
    an opening brace to a later closing brace, or [JSON.parse] refuses
    the span from its first opening brace to its last closing brace,
    [extractPdfContent] ends with the paper [ready], [extractedContent]
    the whole answer, the metadata fields all absent, and [pdfUrl] the
    blob's address. *)
Theorem extractPdfContent_fallback_ready
    (JSON_parse : string -> option Json.json) (env : Collaborators)
    (paperId : Id) (w : World) (p : Paper.t) (b : Blob) (data resultText : string) :
  lookup paperId (papers w) = Some p ->
  lookup (Paper.fileStorageId p) (storage w) = Some b ->
  fetchArrayBuffer env (BlobUrl (Paper.fileStorageId p)) = Ok data ->
  generateText env extractionPrompt (Some data) = Ok resultText ->
  fallsBack JSON_parse resultText ->
  exists w',
    extractPdfContent JSON_parse env paperId w = (Ok tt, w')
    /\ lookup paperId (papers w')
       = Some (Paper.mk (Paper.userId p) (Paper.title p) (Paper.fileName p)
                 (Paper.fileStorageId p) (Some (BlobUrl (Paper.fileStorageId p)))
                 PaperStatus.ready (Some resultText) (Some emptyMetadata)).
Proof.
  intros Hp Hs Hf Hg Hfb.
  unfold extractPdfContent, bind at 1, tryCatch, extractPdfContent_try.
  unfold bind at 1, runQuery, getPaperInternal, db_get. simpl fst. rewrite Hp.
  unfold bind at 1, storage_getUrl. rewrite Hs.
  unfold bind at 1, external. rewrite Hf.
  unfold bind at 1. rewrite Hg.
  rewrite (extractedDataOf_fallback _ _ Hfb).
  unfold bind, prop, ret. simpl.
  rewrite (updatePaper_found _ _ _ p Hp).
  eexists. split; [reflexivity|]. simpl.
  rewrite lookup_update_same, Hp. reflexivity.
Qed.

Lemma extractPdfContent_fallback_witness :
  fallsBack Json.parse "hello world"
  /\ exists w',
    extractPdfContent Json.parse plainText 3 worldWithPaper = (Ok tt, w')
    /\ lookup 3 (papers w')
       = Some (Paper.mk 0 "attention" "attention.pdf" 2 (Some (BlobUrl 2))
                 PaperStatus.ready (Some "hello world") (Some emptyMetadata)).
Proof.
  split; [left; reflexivity|].
  apply (extractPdfContent_fallback_ready Json.parse plainText 3 worldWithPaper
           (Paper.mk 0 "attention" "attention.pdf" 2 None PaperStatus.processing None None)
           pdfBlob "%PDF-1.7" "hello world");
    try reflexivity.
  left; reflexivity.
Defined.

(** C4 as stated fails: the answer [proseAroundJson] is not parseable as
    JSON, yet the paper's [extractedContent] is [abc], the [content]
    member of the object inside it, and not the whole answer. *)
Lemma extractPdfContent_embedded_json_counterexample :
  Json.parse proseAroundJson = None
  /\ exists w',
    extractPdfContent Json.parse proseModel 3 worldWithPaper = (Ok tt, w')
    /\ lookup 3 (papers w')
       = Some (Paper.mk 0 "attention" "attention.pdf" 2 (Some (BlobUrl 2))
                 PaperStatus.ready (Some "abc") (Some emptyMetadata))
    /\ option_map Paper.extractedContent (lookup 3 (papers w'))
       <> Some (Some proseAroundJson).
Proof.
  split; [reflexivity|].
  eexists. split; [reflexivity|]. split; [reflexivity|].
  vm_compute. discriminate.
Qed.

(** With a list of authors the lenient parse goes further than the text
    of the answer: [split] is not a function of a list, the [try] block
    throws, and the paper ends in [error]. *)
Example extractPdfContent_author_list_ends_in_error :
  Json.parse proseAroundAuthorList = None
  /\ option_map Paper.status
       (lookup 3 (papers (snd (extractPdfContent Json.parse
          (mkCollaborators (fun _ _ => Ok proseAroundAuthorList) (fun _ => Ok "%PDF-1.7")
             (Throw NonError) (fun _ _ => Throw NonError) (fun _ => Throw NonError)
             (fun _ => Throw NonError) (fun _ => Throw NonError))
          3 worldWithPaper))))
     = Some PaperStatus.error.
Proof. split; reflexivity. Qed.

(* ================================================================== *)
(** ** Sandbox execution ([executeInSandbox]) *)

Lemma preserves_readonly {A} (I : World -> Prop) (c : Fn A) : readonly c -> preserves I c.
Proof. intros H w HI. rewrite H. exact HI. Qed.

Lemma preserves_bind {A B} (I : World -> Prop) (c : Fn A) (k : A -> Fn B) :
  preserves I c -> (forall a, preserves I (k a)) -> preserves I (bind c k).
Proof.
  intros Hc Hk w HI. unfold bind. specialize (Hc w HI).
  destruct (c w) as [[a|e] w1]; simpl in *; [apply Hk; exact Hc | exact Hc].
Qed.

Lemma preserves_tryCatch {A} (I : World -> Prop) (c : Fn A) (h : Thrown -> Fn A) :
  preserves I c -> (forall e, preserves I (h e)) -> preserves I (tryCatch c h).
Proof.
  intros Hc Hh w HI. unfold tryCatch. specialize (Hc w HI).
  destruct (c w) as [[a|e] w1]; simpl in *; [exact Hc | apply Hh; exact Hc].
Qed.

Lemma preserves_runMutation {A} (I : World -> Prop) (m : Fn A) :
  preserves I m -> preserves I (runMutation m).
Proof.
  intros Hm w HI. unfold runMutation. specialize (Hm w HI).
  destruct (m w) as [[a|e] w1]; simpl in *; [exact Hm | exact HI].
Qed.

Lemma preserves_logSandbox I c : onDemos I -> preserves I (logSandbox c).
Proof. intros H w HI. apply (H w); auto. Qed.

Lemma preserves_freshId I : onDemos I -> preserves I freshId.
Proof. intros H w HI. apply (H w); auto. Qed.

Lemma preserves_insert_users I a : onDemos I -> preserves I (db_insert usersT a).
Proof. intros H w HI. apply (H w); auto. Qed.

Lemma preserves_insert_papers I a : onDemos I -> preserves I (db_insert papersT a).
Proof. intros H w HI. apply (H w); auto. Qed.

Lemma preserves_insert_storage I a : onDemos I -> preserves I (db_insert storageT a).
Proof. intros H w HI. apply (H w); auto. Qed.

Lemma preserves_patch_papers I id f : onDemos I -> preserves I (db_patch papersT id f).
Proof.
  intros H w HI. unfold db_patch. simpl.
  destruct (lookup id (papers w)); simpl; [apply (H w); auto | exact HI].
Qed.

(** A patch of the demos table keeps [I] when [I] survives the update
    of a row that is there. *)
Lemma preserves_patch_demos (I : World -> Prop) id f :
  (forall w d, I w -> lookup id (demos w) = Some d ->
               I (withRows demosT (update id f (demos w)) w)) ->
  preserves I (db_patch demosT id f).
Proof.
  intros H w HI. unfold db_patch. simpl.
  destruct (lookup id (demos w)) eqn:E; simpl; [eapply H; eauto | exact HI].
Qed.

#[export] Hint Resolve preserves_bind preserves_tryCatch preserves_runMutation
  preserves_logSandbox preserves_freshId preserves_insert_users preserves_insert_papers
  preserves_insert_storage preserves_patch_papers : fn.

#[export] Hint Extern 1 (preserves _ (ret _)) => apply preserves_readonly, readonly_ret : fn.
#[export] Hint Extern 1 (preserves _ (throw _)) => apply preserves_readonly, readonly_throw : fn.
#[export] Hint Extern 1 (preserves _ (external _)) =>
  apply preserves_readonly, readonly_external : fn.
#[export] Hint Extern 1 (preserves _ (runQuery _)) =>
  apply preserves_readonly, readonly_runQuery : fn.

(** The steps of the [try] block that do not write to the demos table. *)
Lemma preserves_daytonaCreate I env : onDemos I -> preserves I (daytonaCreate env).
Proof. intro H. unfold daytonaCreate. auto 6 with fn. Qed.

Lemma preserves_executeCommand I env sid cmd :
  onDemos I -> preserves I (executeCommand env sid cmd).
Proof. intro H. unfold executeCommand. auto 6 with fn. Qed.

Lemma preserves_sandboxDelete I env sid : onDemos I -> preserves I (sandboxDelete env sid).
Proof. intro H. unfold sandboxDelete. auto 6 with fn. Qed.

Lemma preserves_storageStore I env blob : onDemos I -> preserves I (storageStore env blob).
Proof. intro H. unfold storageStore. auto 6 with fn. Qed.

#[export] Hint Resolve preserves_daytonaCreate preserves_executeCommand
  preserves_sandboxDelete preserves_storageStore : fn.

(** The [try] block keeps every property of the demos and the queue
    that survives its one patch. *)
Lemma preserves_executeInSandbox_try (I : World -> Prop) env demoId demo :
  onDemos I ->
  (forall u, DemoUpdates.generatedCode u = None ->
             preserves I (db_patch demosT demoId (DemoUpdates.apply u))) ->
  preserves I (executeInSandbox_try env demoId demo).
Proof.
  intros HI Hp. unfold executeInSandbox_try.
  apply preserves_bind; [auto with fn | intro sandboxId].
  apply preserves_bind; [auto with fn | intros _].
  apply preserves_bind; [auto with fn | intros _].
  apply preserves_bind; [auto with fn | intro htmlResponse].
  destruct (negb (ok htmlResponse)); [auto with fn|].
  apply preserves_bind; [auto with fn | intro renderedHtml].
  apply preserves_bind; [auto with fn | intro fileStorageId].
  apply preserves_bind; [|auto with fn].
  unfold updateDemo, updateDemo_handler. apply preserves_runMutation. apply Hp. reflexivity.
Qed.

Lemma onDemos_demoFound demoId : onDemos (demoFound demoId).
Proof. intros w w' E _. unfold demoFound. rewrite E. auto. Qed.

Lemma demoFound_patch demoId id f :
  preserves (demoFound demoId) (db_patch demosT id f).
Proof.
  apply preserves_patch_demos. intros w d H _. unfold demoFound in *. simpl.
  destruct (Nat.eq_dec demoId id) as [E|N].
  - subst. rewrite lookup_update_same. destruct (lookup id (demos w)); [discriminate | auto].
  - rewrite lookup_update_other by exact N. exact H.
Qed.

(** C3, as the code has it. When the [try] block of [executeInSandbox]
    throws [e] (provisioning, a command, the fetch, the upload, the
    patch or the teardown failed), the action patches the demo to
    [failed] with execution results whose [sandboxId] is the empty
    string - also when a sandbox had been provisioned - and whose
    [errors] is the one-element list of the message of [e]; then it
    throws [e] again. *)
Theorem executeInSandbox_failure_recorded_then_rethrown
    (env : Collaborators) (demoId : Id) (w w1 : World) (demo : Demo.t) (e : Thrown) :
  lookup demoId (demos w) = Some demo ->
  executeInSandbox_try env demoId demo w = (Throw e, w1) ->
  exists w' d',
    executeInSandbox env demoId w = (Throw e, w')
    /\ lookup demoId (demos w') = Some d'
    /\ Demo.status d' = DemoStatus.failed
    /\ Demo.executionResults d'
       = Some (ExecutionResults.mk EmptyString None None None
                 (Some [messageOr "Unknown sandbox execution error" e])).
Proof.
  intros Hd Ht.
  assert (F : demoFound demoId w1).
  { change w1 with (snd (Throw (A:=unit) e, w1)). rewrite <- Ht.
    apply preserves_executeInSandbox_try.
    - apply onDemos_demoFound.
    - intros u _. apply demoFound_patch.
    - unfold demoFound. rewrite Hd. discriminate. }
  unfold demoFound in F. destruct (lookup demoId (demos w1)) as [d1|] eqn:E1; [|congruence].
  unfold executeInSandbox, bind at 1, runQuery, getDemoInternal, db_get. simpl fst. rewrite Hd.
  unfold bind at 1, tryCatch. rewrite Ht.
  unfold bind at 1. rewrite (updateDemo_found _ _ _ d1 E1).
  unfold throw. do 2 eexists. split; [reflexivity|]. simpl.
  rewrite lookup_update_same, E1. simpl. repeat split; reflexivity.
Qed.

Lemma executeInSandbox_failure_witness :
  lookup 4 (demos worldWithDemo)
    = Some (Demo.mk 3 0 "self-attention" DemoStatus.executing
              ("<!DOCTYPE html><p>hi</p>" ++ String newline EmptyString)
              CodeType.html None None)
  /\ fst (executeInSandbox_try writeFails 4
            (Demo.mk 3 0 "self-attention" DemoStatus.executing
               ("<!DOCTYPE html><p>hi</p>" ++ String newline EmptyString)
               CodeType.html None None) worldWithDemo)
     = Throw (ErrorObj "disk full")
  /\ exists w' d',
    executeInSandbox writeFails 4 worldWithDemo = (Throw (ErrorObj "disk full"), w')
    /\ lookup 4 (demos w') = Some d'
    /\ Demo.status d' = DemoStatus.failed
    /\ Demo.executionResults d'
       = Some (ExecutionResults.mk EmptyString None None None (Some ["disk full"])).
Proof.
  split; [reflexivity|]. split; [reflexivity|].
  apply (executeInSandbox_failure_recorded_then_rethrown writeFails 4 worldWithDemo
           (snd (executeInSandbox_try writeFails 4
                   (Demo.mk 3 0 "self-attention" DemoStatus.executing
                      ("<!DOCTYPE html><p>hi</p>" ++ String newline EmptyString)
                      CodeType.html None None) worldWithDemo))
           (Demo.mk 3 0 "self-attention" DemoStatus.executing
              ("<!DOCTYPE html><p>hi</p>" ++ String newline EmptyString)
              CodeType.html None None)
           (ErrorObj "disk full")); reflexivity.
Defined.

(** C3 as stated fails: the sandbox [sbx-1] was provisioned before the
    write failed, yet the recorded [sandboxId] is empty, and the action
    does not return normally: it throws the exception again. *)
Lemma executeInSandbox_rethrows_counterexample :
  let r := executeInSandbox writeFails 4 worldWithDemo in
  In (SandboxCreated "sbx-1") (sandboxCalls (snd r))
  /\ option_map Demo.executionResults (lookup 4 (demos (snd r)))
     = Some (Some (ExecutionResults.mk EmptyString None None None (Some ["disk full"])))
  /\ option_map Demo.executionResults (lookup 4 (demos (snd r)))
     <> Some (Some (ExecutionResults.mk "sbx-1" None None None (Some ["disk full"])))
  /\ fst r = Throw (ErrorObj "disk full")
  /\ fst r <> Ok tt.
Proof.
  vm_compute. repeat split; try discriminate. left; reflexivity.
Qed.

(** *** Provisioning and teardown *)

Lemma createCount_log w c :
  createCount (snd (logSandbox c w)) = createCount w + (if isCreate c then 1 else 0).
Proof.
  unfold createCount. simpl. rewrite filter_app, length_app. simpl.
  destruct (isCreate c); reflexivity.
Qed.

Lemma deleteCount_log w c :
  deleteCount (snd (logSandbox c w)) = deleteCount w + (if isDelete c then 1 else 0).
Proof.
  unfold deleteCount. simpl. rewrite filter_app, length_app. simpl.
  destruct (isDelete c); reflexivity.
Qed.

(** On the path that returns normally one sandbox is provisioned and
    one teardown call is made. *)
Lemma executeInSandbox_success_balanced (env : Collaborators) (demoId : Id) (w w' : World) :
  executeInSandbox env demoId w = (Ok tt, w') ->
  createCount w' = S (createCount w) /\ deleteCount w' = S (deleteCount w).
Proof.
  unfold executeInSandbox, executeInSandbox_try, daytonaCreate, executeCommand,
    sandboxDelete, storageStore, updateDemo, runMutation, updateDemo_handler, db_patch,
    db_insert, freshId, tryCatch, bind, runQuery, getDemoInternal, db_get, external, throw,
    ret, logSandbox, createCount, deleteCount.
  simpl.
  repeat match goal with
         | |- context [match ?x with _ => _ end] =>
             lazymatch x with
             | context [match _ with _ => _ end] => fail
             | _ => destruct x; simpl; try discriminate
             end
         end.
  intro H; inversion H; subst; clear H; simpl.
  rewrite !filter_app, !length_app; simpl; split; lia.
Qed.

(** The [catch] block makes no sandbox call: whenever provisioning
    succeeded and the action ends with an exception, and the teardown
    call is not itself the one that fails, no teardown call was made. *)
Lemma executeInSandbox_no_teardown_on_failure
    (env : Collaborators) (demoId : Id) (w w' : World) (demo : Demo.t)
    (sandboxId : string) (e : Thrown) :
  lookup demoId (demos w) = Some demo ->
  daytona_create env = Ok sandboxId ->
  sandbox_delete env sandboxId = Ok tt ->
  executeInSandbox env demoId w = (Throw e, w') ->
  createCount w' = S (createCount w) /\ deleteCount w' = deleteCount w.
Proof.
  intros Hd Hc Hdel.
  unfold executeInSandbox, executeInSandbox_try, daytonaCreate, executeCommand,
    sandboxDelete, storageStore, updateDemo, runMutation, updateDemo_handler, db_patch,
    db_insert, freshId, tryCatch, bind, runQuery, getDemoInternal, db_get, external, throw,
    ret, logSandbox, createCount, deleteCount.
  simpl. rewrite Hd, Hc. simpl.
  repeat match goal with
         | |- context [match ?x with _ => _ end] =>
             lazymatch x with
             | context [match _ with _ => _ end] => fail
             | _ => destruct x eqn:?; simpl; rewrite ?Hd, ?Hdel; simpl; try discriminate
             end
         end.
  all: intro H; inversion H; subst; clear H; simpl;
    rewrite ?filter_app, ?length_app; simpl; split; lia.
Qed.

(** C1 at Scenario D. The demo exists, provisioning and both commands
    succeed, the fetch answers 502: when [executeInSandbox] is over one
    sandbox has been provisioned and no teardown call has been made (the
    demo is [failed] and the exception is thrown again). *)
Theorem executeInSandbox_leaks_sandbox_when_fetch_fails :
  let r := executeInSandbox fetchNotOk 4 worldWithDemo in
  createCount worldWithDemo = 0
  /\ deleteCount worldWithDemo = 0
  /\ createCount (snd r) = 1
  /\ deleteCount (snd r) = 0
  /\ option_map Demo.status (lookup 4 (demos (snd r))) = Some DemoStatus.failed
  /\ fst r = Throw (ErrorObj "Failed to fetch demo: 502 Bad Gateway").
Proof. vm_compute. repeat split; reflexivity. Qed.

(** Scenario E, for comparison: provisioning and teardown are paired. *)
Example executeInSandbox_scenario_E :
  let r := executeInSandbox allSucceed 4 worldWithDemo in
  fst r = Ok tt
  /\ createCount (snd r) = 1
  /\ deleteCount (snd r) = 1
  /\ option_map Demo.status (lookup 4 (demos (snd r))) = Some DemoStatus.ready
  /\ lookup 5 (storage (snd r)) = Some (mkBlob "text/html" "<html>ok</html>").
Proof. vm_compute. repeat split; reflexivity. Qed.

(* ================================================================== *)
(** ** The code of a demo that has left [generating] *)

Lemma onDemos_codeInv : onDemos codeInv.
Proof. intros w w' Ed Es [H1 H2]. unfold codeInv. rewrite <- Ed, <- Es. auto. Qed.

Lemma onDemos_hasCode demoId : onDemos (hasCode demoId).
Proof. intros w w' Ed _ H. unfold hasCode. rewrite <- Ed. exact H. Qed.

Lemma onDemos_and (I J : World -> Prop) :
  onDemos I -> onDemos J -> onDemos (fun w => I w /\ J w).
Proof. intros HI HJ w w' Ed Es [H1 H2]. split; [eapply HI | eapply HJ]; eauto. Qed.

(** The update of one row keeps [codeInv] when the new row has code if
    its status asks for it, and keeps the code it had. *)
Lemma codeInv_update (w : World) (id : Id) (f : Demo.t -> Demo.t) (a : Demo.t) :
  codeInv w ->
  lookup id (demos w) = Some a ->
  (Demo.status (f a) = DemoStatus.executing \/ Demo.status (f a) = DemoStatus.ready ->
   Demo.generatedCode (f a) <> EmptyString) ->
  (Demo.generatedCode a <> EmptyString -> Demo.generatedCode (f a) <> EmptyString) ->
  codeInv (withRows demosT (update id f (demos w)) w).
Proof.
  intros [H1 H2] Ha Hs Hc. split; simpl.
  - intros i x Hin Hst. apply in_update in Hin.
    destruct Hin as [Hin | [a' [Ha' [_ Hx]]]].
    + eapply H1; eauto.
    + rewrite Ha in Ha'. inversion Ha'; subst. auto.
  - intros d' Hin. destruct (H2 d' Hin) as [d [Hd Hcode]].
    destruct (Nat.eq_dec d' id) as [E|N].
    + subst. rewrite lookup_update_same, Hd. simpl. eexists; split; [reflexivity|].
      rewrite Ha in Hd. inversion Hd; subst. auto.
    + rewrite lookup_update_other by exact N. eauto.
Qed.

Lemma hasCode_update (w : World) (demoId id : Id) (f : Demo.t -> Demo.t) :
  hasCode demoId w ->
  (forall a, Demo.generatedCode a <> EmptyString -> Demo.generatedCode (f a) <> EmptyString) ->
  hasCode demoId (withRows demosT (update id f (demos w)) w).
Proof.
  intros [d [Hd Hc]] Hf. unfold hasCode. simpl.
  destruct (Nat.eq_dec demoId id) as [E|N].
  - subst. rewrite lookup_update_same, Hd. simpl. eauto.
  - rewrite lookup_update_other by exact N. eauto.
Qed.

(** A patch that marks a demo [failed] and leaves its code. *)
Lemma codeInv_patch_failed demoId results :
  preserves codeInv
    (db_patch demosT demoId
       (DemoUpdates.apply (DemoUpdates.mk (Some DemoStatus.failed) None results None))).
Proof.
  apply preserves_patch_demos. intros w d H Hd.
  apply (codeInv_update w demoId _ d H Hd); simpl.
  - intros [E|E]; discriminate.
  - auto.
Qed.

(** A patch that leaves the code, on a demo that has code. *)
Lemma codeInv_patch_keeping_code demoId u :
  DemoUpdates.generatedCode u = None ->
  preserves (fun w => codeInv w /\ hasCode demoId w)
    (db_patch demosT demoId (DemoUpdates.apply u)).
Proof.
  intro Hu. apply preserves_patch_demos. intros w d [H [d0 [Hd0 Hc0]]] Hd.
  rewrite Hd in Hd0. inversion Hd0; subst d0.
  assert (K : forall a, Demo.generatedCode (DemoUpdates.apply u a) = Demo.generatedCode a).
  { intro a. unfold DemoUpdates.apply. simpl. rewrite Hu. reflexivity. }
  split.
  - apply (codeInv_update w demoId _ d H Hd); rewrite K; auto.
  - apply hasCode_update; [exists d; auto | intros a; rewrite K; auto].
Qed.

Lemma codeInv_insert_generating paperId userId concept codeType :
  preserves codeInv
    (db_insert demosT
       (Demo.mk paperId userId concept DemoStatus.generating EmptyString codeType None None)).
Proof.
  intros w [H1 H2]. split; simpl.
  - intros i x Hin Hst. apply in_app_or in Hin. destruct Hin as [Hin | [Hx | []]].
    + eapply H1; eauto.
    + inversion Hx; subst. simpl in Hst. destruct Hst; discriminate.
  - intros d' Hin. destruct (H2 d' Hin) as [d [Hd Hc]].
    exists d. rewrite lookup_app, Hd. auto.
Qed.

Lemma codeInv_schedule_extraction paperId :
  preserves codeInv (scheduler_runAfter (JobExtractPdfContent paperId)).
Proof.
  intros w [H1 H2]. split; simpl; [exact H1|].
  intros d' Hin. apply in_app_or in Hin. destruct Hin as [Hin | [Hx | []]].
  - apply H2; exact Hin.
  - discriminate.
Qed.

Lemma codeInv_ensureUser auth : preserves codeInv (ensureUser auth).
Proof.
  pose proof onDemos_codeInv.
  unfold ensureUser, ensureUser_handler. apply preserves_runMutation.
  destruct auth as [identity|]; [|auto with fn].
  apply preserves_bind; [apply preserves_readonly; auto with fn|].
  intros [[id u]|]; auto with fn.
Qed.

Lemma codeInv_createPaper auth fileName fileStorageId title :
  preserves codeInv (createPaper auth fileName fileStorageId title).
Proof.
  pose proof onDemos_codeInv.
  unfold createPaper, createPaper_handler. apply preserves_runMutation.
  apply preserves_bind; [apply preserves_readonly; auto with fn | intro userId].
  apply preserves_bind; [auto with fn | intro paperId].
  apply preserves_bind; [apply codeInv_schedule_extraction | auto with fn].
Qed.

Lemma codeInv_extractPdfContent JSON_parse env paperId :
  preserves codeInv (extractPdfContent JSON_parse env paperId).
Proof.
  pose proof onDemos_codeInv.
  assert (U : forall u, preserves codeInv (updatePaper paperId u)).
  { intro u. unfold updatePaper, updatePaper_handler. auto with fn. }
  unfold extractPdfContent. apply preserves_bind; [|auto with fn].
  apply preserves_tryCatch; [|intro; apply U].
  unfold extractPdfContent_try.
  apply preserves_bind; [auto with fn|].
  intros [paper|]; [|auto with fn].
  apply preserves_bind; [apply preserves_readonly; auto with fn|].
  intros [pdfUrl|]; [|auto with fn].
  repeat (apply preserves_bind;
          [solve [auto with fn
                 | apply preserves_readonly;
                   auto using readonly_prop, readonly_splitTrim, readonly_v_optional_string
                     with fn]
          | intro]).
  apply U.
Qed.

Lemma codeInv_executeInSandbox env demoId (w : World) :
  codeInv w -> hasCode demoId w -> codeInv (snd (executeInSandbox env demoId w)).
Proof.
  intros H Hc.
  assert (O : onDemos (fun w => codeInv w /\ hasCode demoId w))
    by (apply onDemos_and; [apply onDemos_codeInv | apply onDemos_hasCode]).
  assert (P : preserves (fun w => codeInv w /\ hasCode demoId w) (executeInSandbox env demoId)).
  { unfold executeInSandbox.
    apply preserves_bind; [auto with fn|].
    intros [demo|]; [|auto with fn].
    apply preserves_bind; [|auto with fn].
    apply preserves_tryCatch.
    - apply preserves_executeInSandbox_try; [exact O|].
      intros u Hu. apply codeInv_patch_keeping_code; exact Hu.
    - intro e. apply preserves_bind; [|auto with fn].
      unfold updateDemo, updateDemo_handler. apply preserves_runMutation.
      apply codeInv_patch_keeping_code. reflexivity. }
  apply (P w). split; assumption.
Qed.

(** The [try] block of [generateDemo], with a model whose cleaned answers
    are not empty. *)
Lemma codeInv_generateDemo_try env paper concept demoId :
  (forall prompt file resultText,
      generateText env prompt file = Ok resultText -> cleanHtml resultText <> EmptyString) ->
  preserves codeInv (generateDemo_try env paper concept demoId).
Proof.
  intros Hg w H. unfold generateDemo_try, bind at 1, external.
  destruct (generateText env _ None) as [resultText|e] eqn:G; [|exact H].
  specialize (Hg _ _ _ G).
  unfold bind, updateDemo, runMutation, updateDemo_handler, db_patch. simpl.
  destruct (lookup demoId (demos w)) as [a|] eqn:L; simpl; [|exact H].
  pose proof (codeInv_update w demoId
                (DemoUpdates.apply
                   (DemoUpdates.mk (Some DemoStatus.executing) (Some (cleanHtml resultText))
                      None None)) a H L) as K.
  simpl in K. destruct K as [K1 K2]; [auto | auto |].
  split; simpl; [exact K1|].
  intros d' Hin. apply in_app_or in Hin. destruct Hin as [Hin | [Hx | []]].
  - apply K2. exact Hin.
  - inversion Hx; subst d'. rewrite lookup_update_same, L. simpl. eauto.
Qed.

Lemma codeInv_generateDemo auth env paperId concept :
  (forall prompt file resultText,
      generateText env prompt file = Ok resultText -> cleanHtml resultText <> EmptyString) ->
  preserves codeInv (generateDemo auth env paperId concept).
Proof.
  intro Hg. pose proof onDemos_codeInv.
  unfold generateDemo.
  apply preserves_bind; [auto with fn|].
  intros [[userId u]|]; [|auto with fn].
  apply preserves_bind; [auto with fn|].
  intros [paper|]; [|auto with fn].
  destruct (negb (Paper.userId paper =? userId)); [auto with fn|].
  apply preserves_bind.
  - unfold createDemo, createDemo_handler. apply preserves_runMutation.
    apply codeInv_insert_generating.
  - intro demoId. apply preserves_bind; [|auto with fn].
    apply preserves_tryCatch.
    + apply codeInv_generateDemo_try; exact Hg.
    + intro e. unfold updateDemo, updateDemo_handler. apply preserves_runMutation.
      apply codeInv_patch_failed.
Qed.

Lemma Job_eqb_eq a b : Job_eqb a b = true -> a = b.
Proof.
  destruct a, b; simpl; intro H; try discriminate; apply Nat.eqb_eq in H; congruence.
Qed.

Lemma dequeue_some j q q' :
  dequeue j q = Some q' -> In j q /\ (forall x, In x q' -> In x q).
Proof.
  revert q'. induction q as [|h t IH]; simpl; intros q' H; [discriminate|].
  destruct (Job_eqb h j) eqn:E.
  - inversion H; subst. apply Job_eqb_eq in E. subst. auto.
  - destruct (dequeue j t) as [t'|]; [|discriminate].
    inversion H; subst. destruct (IH t' eq_refl) as [I1 I2].
    split; [auto|]. intros x [Hx|Hx]; auto.
Qed.

Lemma codeInv_run (c : Call) (w w' : World) :
  answersNonEmpty c -> codeInv w -> run c w = Some w' -> codeInv w'.
Proof.
  intros Hg H R. destruct c; unfold run in R.
  - inversion R; subst. apply codeInv_ensureUser; exact H.
  - inversion R; subst.
    apply (preserves_insert_storage codeInv blob onDemos_codeInv w H).
  - inversion R; subst. apply codeInv_createPaper; exact H.
  - inversion R; subst. apply codeInv_generateDemo; [exact Hg | exact H].
  - destruct (dequeue job (scheduled w)) as [q|] eqn:D; [|discriminate].
    inversion R; subst. apply dequeue_some in D. destruct D as [Hin Hsub].
    assert (H0 : codeInv (withScheduled q w)).
    { destruct H as [H1 H2]. split; simpl; [exact H1|]. intros d Hd. apply H2. auto. }
    destruct job as [paperId|demoId]; simpl.
    + apply codeInv_extractPdfContent; exact H0.
    + apply codeInv_executeInSandbox; [exact H0|].
      destruct H as [_ H2]. apply (H2 demoId Hin).
Qed.

Lemma reachable_codeInv (w : World) : reachable answersNonEmpty w -> codeInv w.
Proof.
  induction 1 as [|c w w' Hr IH Hg R].
  - split; simpl; [intros id d []|intros d []].
  - eapply codeInv_run; eauto.
Qed.

(** Worlds reached by running a list of calls. *)
Lemma reachable_runCalls (good : Call -> Prop) (cs : list Call) (w w' : World) :
  reachable good w -> Forall good cs -> runCalls cs w = Some w' -> reachable good w'.
Proof.
  revert w. induction cs as [|c cs IH]; simpl; intros w Hr Hg R.
  - inversion R; subst; exact Hr.
  - destruct (run c w) as [w1|] eqn:E; [|discriminate].
    inversion Hg; subst. apply (IH w1); auto.
    eapply reachable_step; eauto.
Qed.

(** C5, as the code has it. In every world reached from the empty one
    by the backend's calls, with a model whose answers are not empty
    once cleaned, a demo whose status is [executing] or [ready] has a
    non-empty [generatedCode]. (A demo that is [failed] may have none:
    see the counterexample.) *)
Theorem generatedCode_nonempty_when_executing_or_ready (w : World) (id : Id) (d : Demo.t) :
  reachable answersNonEmpty w ->
  In (id, d) (demos w) ->
  Demo.status d = DemoStatus.executing \/ Demo.status d = DemoStatus.ready ->
  Demo.generatedCode d <> EmptyString.
Proof.
  intros Hr Hin Hs. destruct (reachable_codeInv w Hr) as [H1 _]. eapply H1; eauto.
Qed.

Lemma worldWithDemo_reachable : reachable answersNonEmpty worldWithDemo.
Proof.
  apply (reachable_runCalls answersNonEmpty (callsToDemo fencedModel) emptyWorld).
  - apply reachable_empty.
  - repeat constructor. simpl. intros prompt file resultText H.
    inversion H; subst. vm_compute. discriminate.
  - reflexivity.
Qed.

Lemma generatedCode_nonempty_witness :
  In (4, Demo.mk 3 0 "self-attention" DemoStatus.executing
           ("<!DOCTYPE html><p>hi</p>" ++ String newline EmptyString)
           CodeType.html None None)
     (demos worldWithDemo)
  /\ ("<!DOCTYPE html><p>hi</p>" ++ String newline EmptyString)%string <> EmptyString.
Proof.
  split; [left; reflexivity|].
  apply (generatedCode_nonempty_when_executing_or_ready worldWithDemo 4
           (Demo.mk 3 0 "self-attention" DemoStatus.executing
              ("<!DOCTYPE html><p>hi</p>" ++ String newline EmptyString)
              CodeType.html None None)).
  - exact worldWithDemo_reachable.
  - left; reflexivity.
  - left; reflexivity.
Defined.

(** C5 as stated fails: when the model call throws, [generateDemo]
    patches the demo it created with empty code from [generating] to
    [failed] and leaves the code empty. *)
Lemma failed_demo_without_code_counterexample :
  let w := snd (generateDemo (Some alice) silent 3 "self-attention" worldWithPaper) in
  reachable answersNonEmpty w
  /\ exists d,
      In (4, d) (demos w)
      /\ Demo.status d = DemoStatus.failed
      /\ Demo.status d <> DemoStatus.generating
      /\ Demo.generatedCode d = EmptyString.
Proof.
  split.
  - apply (reachable_runCalls answersNonEmpty (callsToDemo silent) emptyWorld).
    + apply reachable_empty.
    + repeat constructor. simpl. intros prompt file resultText H. discriminate.
    + reflexivity.
  - eexists. split; [left; reflexivity|]. simpl. repeat split. discriminate.
Qed.

(** Nothing in the code refuses an answer that is empty once cleaned:
    it puts the demo in [executing] with no code. *)
Example empty_answer_executing_without_code :
  let w := snd (generateDemo (Some alice) fencesOnly 3 "self-attention" worldWithPaper) in
  reachable anyCall w
  /\ option_map Demo.status (lookup 4 (demos w)) = Some DemoStatus.executing
  /\ option_map Demo.generatedCode (lookup 4 (demos w)) = Some EmptyString.
Proof.
  split; [|split; reflexivity].
  apply (reachable_runCalls anyCall (callsToDemo fencesOnly) emptyWorld).
  - apply reachable_empty.
  - repeat constructor.
  - reflexivity.
Qed.

(** *** Witnesses of the owner-scoped reads *)

Lemma getPaper_getDemo_null_witness :
  fst (getUserFromAuth (Some bob) mixedWorld) = Ok 1
  /\ getPaper (Some bob) 3 mixedWorld = (Ok None, mixedWorld)
  /\ getPaper (Some bob) 99 mixedWorld = (Ok None, mixedWorld)
  /\ getDemo (Some bob) 4 mixedWorld = (Ok None, mixedWorld)
  /\ getDemo (Some bob) 99 mixedWorld = (Ok None, mixedWorld).
Proof.
  destruct (getPaper_getDemo_null_when_absent_or_foreign (Some bob) mixedWorld 1 eq_refl)
    as [HP HD].
  split; [reflexivity|].
  split; [apply HP; right; eexists; split; [reflexivity | simpl; lia]|].
  split; [apply HP; left; reflexivity|].
  split; [apply HD; right; eexists; split; [reflexivity | simpl; lia]|].
  apply HD; left; reflexivity.
Defined.

Lemma listPaperDemos_witness :
  fst (getUserFromAuth (Some alice) mixedWorld) = Ok 0
  /\ length (filter (fun r : Id * Demo.t => Demo.paperId (snd r) =? 3) (demos mixedWorld)) = 2
  /\ exists l,
      listPaperDemos (Some alice) 3 mixedWorld = (Ok l, mixedWorld)
      /\ Forall (fun d => Demo.userId (snd (demoDoc d)) = 0) l
      /\ map demoDoc l =
         filter (fun r : Id * Demo.t => Demo.userId (snd r) =? 0)
                (rev (filter (fun r : Id * Demo.t => Demo.paperId (snd r) =? 3)
                             (demos mixedWorld))).
Proof.
  split; [reflexivity|]. split; [reflexivity|].
  apply (listPaperDemos_only_callers_demos (Some alice) mixedWorld 0 3). reflexivity.
Defined.

(* ================================================================== *)
(** * Further properties *)

(** ** What a function leaves alone *)

Lemma keeps_readonly {A X} (proj : World -> X) (c : Fn A) : readonly c -> keeps proj c.
Proof. intros H w. rewrite H. reflexivity. Qed.

Lemma keeps_bind {A B X} (proj : World -> X) (c : Fn A) (k : A -> Fn B) :
  keeps proj c -> (forall a, keeps proj (k a)) -> keeps proj (bind c k).
Proof.
  intros Hc Hk w. unfold bind. specialize (Hc w).
  destruct (c w) as [[a|e] w1]; simpl in *; [rewrite Hk; exact Hc | exact Hc].
Qed.

Lemma keeps_tryCatch {A X} (proj : World -> X) (c : Fn A) (h : Thrown -> Fn A) :
  keeps proj c -> (forall e, keeps proj (h e)) -> keeps proj (tryCatch c h).
Proof.
  intros Hc Hh w. unfold tryCatch. specialize (Hc w).
  destruct (c w) as [[a|e] w1]; simpl in *; [exact Hc | rewrite Hh; exact Hc].
Qed.

Lemma keeps_runMutation {A X} (proj : World -> X) (m : Fn A) :
  keeps proj m -> keeps proj (runMutation m).
Proof.
  intros Hm w. unfold runMutation. specialize (Hm w).
  destruct (m w) as [[a|e] w1]; simpl in *; [exact Hm | reflexivity].
Qed.

Lemma keeps_db_patch {A X} (proj : World -> X) (T : Table A) id f :
  (forall r w, proj (withRows T r w) = proj w) -> keeps proj (db_patch T id f).
Proof.
  intros H w. unfold db_patch. destruct (lookup id (rowsOf T w)); simpl; [apply H | reflexivity].
Qed.

(** One step of the proof that a function keeps a component: open the
    combinators, split the cases of the code, and close the primitives
    by computation. *)
Ltac keeps_step :=
  match goal with
  | |- keeps _ (bind _ _) => apply keeps_bind; [|intro]
  | |- keeps _ (tryCatch _ _) => apply keeps_tryCatch; [|intro]
  | |- keeps _ (runMutation _) => apply keeps_runMutation
  | |- keeps _ (runQuery _) => apply keeps_readonly, readonly_runQuery
  | |- keeps _ (db_patch _ _ _) => apply keeps_db_patch; intros; reflexivity
  | |- keeps _ (match ?x with _ => _ end) => destruct x
  | |- keeps _ (updatePaper _ _) => unfold updatePaper, updatePaper_handler
  | |- keeps _ (updateDemo _ _) => unfold updateDemo, updateDemo_handler
  | |- keeps _ (createDemo _ _ _ _ _ _) => unfold createDemo, createDemo_handler
  | |- keeps _ (daytonaCreate _) => unfold daytonaCreate
  | |- keeps _ (executeCommand _ _ _) => unfold executeCommand
  | |- keeps _ (sandboxDelete _ _) => unfold sandboxDelete
  | |- keeps _ (storageStore _ _) => unfold storageStore
  | |- keeps _ (getUserFromAuth _) => apply keeps_readonly, readonly_getUserFromAuth
  | |- keeps _ (byWorkosId _) => apply keeps_readonly, readonly_byWorkosId
  | |- keeps _ _ => solve [intro; reflexivity]
  end.

Ltac keeps_tac := repeat keeps_step.

Lemma keeps_users_createPaper auth fileName sid title :
  keeps users (createPaper auth fileName sid title).
Proof. unfold createPaper, createPaper_handler. keeps_tac. Qed.

Lemma keeps_users_extractPdfContent JSON_parse env paperId :
  keeps users (extractPdfContent JSON_parse env paperId).
Proof. unfold extractPdfContent, extractPdfContent_try, prop, splitTrim, v_optional_string. keeps_tac. Qed.

Lemma keeps_users_generateDemo auth env paperId concept :
  keeps users (generateDemo auth env paperId concept).
Proof. unfold generateDemo, generateDemo_try. keeps_tac. Qed.

Lemma keeps_users_executeInSandbox env demoId :
  keeps users (executeInSandbox env demoId).
Proof. unfold executeInSandbox, executeInSandbox_try. keeps_tac. Qed.

(* ================================================================== *)
(** ** Owners ([convex/users.ts]) *)

(** X1. Once [ensureUser] has succeeded for an identity,
    [getUserFromAuth] resolves that identity to the id it returned and
    [getCurrentUser] returns the user with that id, whose [workosId] is
    the identity's subject; both leave the world alone. *)
Theorem ensureUser_then_caller_resolves
    (identity : Identity.t) (w w1 : World) (uid : Id) :
  ensureUser (Some identity) w = (Ok uid, w1) ->
  getUserFromAuth (Some identity) w1 = (Ok uid, w1)
  /\ exists u,
      getCurrentUser (Some identity) w1 = (Ok (Some (uid, u)), w1)
      /\ User.workosId u = Identity.subject identity.
Proof.
  intro H. destruct (ensureUser_establishes _ _ _ _ H) as [u F].
  assert (K : String.eqb (User.workosId u) (Identity.subject identity) = true).
  { assert (I : In (uid, u) (filter (fun r : Id * User.t =>
       String.eqb (User.workosId (snd r)) (Identity.subject identity)) (users w1)))
      by (rewrite F; left; reflexivity).
    apply filter_In in I. exact (proj2 I). }
  split.
  - unfold getUserFromAuth, byWorkosId, bind, db_collect. simpl. rewrite F. reflexivity.
  - exists u. split.
    + unfold getCurrentUser, byWorkosId, bind, db_collect. simpl. rewrite F. reflexivity.
    + apply String.eqb_eq. exact K.
Qed.

Lemma ensureUser_then_caller_resolves_witness :
  let w1 := snd (ensureUser (Some bob) emptyWorld) in
  ensureUser (Some bob) emptyWorld = (Ok 0, w1)
  /\ getUserFromAuth (Some bob) w1 = (Ok 0, w1)
  /\ exists u,
      getCurrentUser (Some bob) w1 = (Ok (Some (0, u)), w1)
      /\ User.workosId u = Identity.subject bob.
Proof.
  split; [reflexivity|].
  apply (ensureUser_then_caller_resolves bob emptyWorld _ 0). reflexivity.
Defined.

Lemma usersWith_app subject (w : World) (r : Id * User.t) :
  filter (fun r : Id * User.t => String.eqb (User.workosId (snd r)) subject)
         (users w ++ [r])%list
  = (usersWith subject w
     ++ (if String.eqb (User.workosId (snd r)) subject then [r] else []))%list.
Proof. unfold usersWith. rewrite filter_app. simpl. destruct (String.eqb _ _); reflexivity. Qed.

Lemma usersUnique_ensureUser auth (w : World) :
  usersUnique w -> usersUnique (snd (ensureUser auth w)).
Proof.
  intros U. destruct auth as [identity|]; [|exact U].
  unfold ensureUser, runMutation, ensureUser_handler, byWorkosId, bind, db_collect. simpl.
  destruct (filter _ (users w)) as [|[i u] [|y l]] eqn:F; simpl; try exact U.
  intro subject. unfold usersWith at 1. simpl users. rewrite usersWith_app. simpl snd.
  simpl User.workosId. rewrite length_app.
  destruct (String.eqb (Identity.subject identity) subject) eqn:E.
  - apply String.eqb_eq in E. subst subject. unfold usersWith. rewrite F. simpl. lia.
  - simpl. specialize (U subject). lia.
Qed.

Lemma usersUnique_keeps {A} (c : Fn A) (w : World) :
  keeps users c -> usersUnique w -> usersUnique (snd (c w)).
Proof. intros K U subject. unfold usersWith. rewrite K. apply U. Qed.

Lemma usersUnique_run (c : Call) (w w' : World) :
  usersUnique w -> run c w = Some w' -> usersUnique w'.
Proof.
  intros U R. destruct c; unfold run in R.
  - inversion R; subst. apply usersUnique_ensureUser; exact U.
  - inversion R; subst. exact U.
  - inversion R; subst. apply usersUnique_keeps; [apply keeps_users_createPaper | exact U].
  - inversion R; subst. apply usersUnique_keeps; [apply keeps_users_generateDemo | exact U].
  - destruct (dequeue job (scheduled w)) as [q|]; [|discriminate].
    inversion R; subst.
    assert (U0 : usersUnique (withScheduled q w)) by exact U.
    destruct job; simpl; apply usersUnique_keeps; auto.
    + apply keeps_users_extractPdfContent.
    + apply keeps_users_executeInSandbox.
Qed.

Lemma reachable_usersUnique (w : World) : reachable anyCall w -> usersUnique w.
Proof.
  induction 1 as [|c w w' Hr IH _ R].
  - intro subject. simpl. lia.
  - eapply usersUnique_run; eauto.
Qed.

(** X2. In every world reached by the backend's calls no two users have
    the same [workosId]; so the [unique()] of the user lookup never
    throws there, and [ensureUser] returns a user id for every identity. *)
Theorem reachable_users_unique_per_identity (w : World) (identity : Identity.t) :
  reachable anyCall w ->
  length (usersWith (Identity.subject identity) w) <= 1
  /\ exists uid w1, ensureUser (Some identity) w = (Ok uid, w1).
Proof.
  intro Hr. pose proof (reachable_usersUnique w Hr (Identity.subject identity)) as U.
  split; [exact U|].
  unfold ensureUser, runMutation, ensureUser_handler, byWorkosId, bind, db_collect. simpl.
  unfold usersWith in U.
  destruct (filter _ (users w)) as [|[i u] [|y l]]; simpl in *; eauto.
  lia.
Qed.

Lemma worldWithDemo_reachable_any : reachable anyCall worldWithDemo.
Proof.
  apply (reachable_runCalls anyCall (callsToDemo fencedModel) emptyWorld).
  - apply reachable_empty.
  - repeat constructor.
  - vm_compute. reflexivity.
Qed.

Lemma reachable_users_unique_witness :
  length (usersWith (Identity.subject alice) worldWithDemo) <= 1
  /\ exists uid w1, ensureUser (Some alice) worldWithDemo = (Ok uid, w1).
Proof.
  apply (reachable_users_unique_per_identity worldWithDemo alice).
  exact worldWithDemo_reachable_any.
Defined.



(* ================================================================== *)
(** ** Paper creation ([createPaper]) *)

Lemma pdfExt_not_across (c : ascii) (b rest : string) :
  String.prefix pdfExt (String c b) = false ->
  String.prefix pdfExt (String c b ++ pdfExt ++ rest) = false.
Proof.
  unfold pdfExt.
  destruct b as [|c2 [|c3 [|c4 b]]]; intro H;
    cbn [append] in *; rewrite ?prefix_cons, ?prefix_nil in *;
    change (Ascii.eqb "p"%char "."%char) with false in *;
    change (Ascii.eqb "d"%char "."%char) with false in *;
    change (Ascii.eqb "f"%char "."%char) with false in *;
    repeat match goal with
           | H : context [Ascii.eqb ?a ?b] |- _ => is_var b; destruct (Ascii.eqb a b)
           | |- context [Ascii.eqb ?a ?b] => is_var b; destruct (Ascii.eqb a b)
           end;
    simpl in *; try discriminate; auto.
Qed.

Lemma prefix_self_append (p rest : string) : String.prefix p (p ++ rest) = true.
Proof.
  induction p as [|a p IH]; simpl append; [apply prefix_nil|].
  rewrite prefix_cons, Ascii.eqb_refl. exact IH.
Qed.

Lemma removeFirst_pdfExt (base rest : string) :
  includes pdfExt base = false ->
  removeFirst pdfExt (base ++ pdfExt ++ rest) = base ++ rest.
Proof.
  induction base as [|c b IH]; intro H.
  - change (EmptyString ++ pdfExt ++ rest) with (String "."%char ("pdf" ++ rest)).
    cbn [removeFirst].
    replace (String.prefix pdfExt (String "."%char ("pdf" ++ rest))) with true
      by (symmetry; apply (prefix_self_append pdfExt rest)).
    reflexivity.
  - apply includes_cons in H. destruct H as [Hp Hi].
    pose proof (pdfExt_not_across c b rest Hp) as K.
    change (String c b ++ pdfExt ++ rest) with (String c (b ++ pdfExt ++ rest)) in *.
    cbn [removeFirst]. rewrite K. rewrite IH by exact Hi. reflexivity.
Qed.

Lemma removeFirst_absent (lit s : string) :
  includes lit s = false -> removeFirst lit s = s.
Proof.
  induction s as [|c s IH]; intro H; [reflexivity|].
  apply includes_cons in H. destruct H as [Hp Hi].
  cbn [removeFirst]. rewrite Hp, IH by exact Hi. reflexivity.
Qed.

(** [createPaper] for a caller that resolves to a user. *)
Lemma createPaper_resolved
    (auth : option Identity.t) (fileName : string) (fileStorageId : Id)
    (title : option string) (w : World) (uid : Id) :
  fst (getUserFromAuth auth w) = Ok uid ->
  createPaper auth fileName fileStorageId title w
  = (Ok (nextId w),
     snd (scheduler_runAfter (JobExtractPdfContent (nextId w))
            (snd (db_insert papersT
                    (Paper.mk uid (orElse title (removeFirst pdfExt fileName)) fileName
                              fileStorageId None PaperStatus.processing None None) w)))).
Proof.
  intro Hu.
  pose proof (readonly_run (getUserFromAuth auth) w (readonly_getUserFromAuth auth)) as R.
  rewrite Hu in R.
  unfold createPaper, createPaper_handler, runMutation, bind at 1. rewrite R.
  reflexivity.
Qed.

(** X4. For a caller that resolves to the user [uid], [createPaper]
    returns a new id, appends one paper with that id - owned by [uid],
    in [processing], with no extracted content, metadata or address -
    and queues one extraction of it; nothing else changes, and the
    storage id is not looked up. The title is the one given; without
    one it is the file name with its first [.pdf] removed: [base] and
    [rest] for a name [base.pdf rest] when [base] holds no [.pdf], the
    whole name when it holds none (the match is case sensitive). *)
Theorem createPaper_appends_processing_paper
    (auth : option Identity.t) (fileName : string) (fileStorageId : Id)
    (title : option string) (w : World) (uid : Id) :
  fst (getUserFromAuth auth w) = Ok uid ->
  exists w1 t,
    createPaper auth fileName fileStorageId title w = (Ok (nextId w), w1)
    /\ papers w1
       = (papers w ++ [(nextId w, Paper.mk uid t fileName fileStorageId None
                                   PaperStatus.processing None None)])%list
    /\ scheduled w1 = (scheduled w ++ [JobExtractPdfContent (nextId w)])%list
    /\ users w1 = users w /\ demos w1 = demos w /\ storage w1 = storage w
    /\ sandboxCalls w1 = sandboxCalls w /\ nextId w1 = S (nextId w)
    /\ (forall given, title = Some given -> t = given)
    /\ (forall base rest, title = None -> fileName = base ++ pdfExt ++ rest ->
          includes pdfExt base = false -> t = base ++ rest)
    /\ (title = None -> includes pdfExt fileName = false -> t = fileName).
Proof.
  intro Hu. rewrite (createPaper_resolved _ _ _ _ _ _ Hu).
  do 2 eexists. split; [reflexivity|]. simpl.
  repeat split.
  - intros given E. subst title. reflexivity.
  - intros base rest E F I. subst title fileName. simpl. apply removeFirst_pdfExt; exact I.
  - intros E I. subst title. simpl. apply removeFirst_absent; exact I.
Qed.

Lemma createPaper_appends_witness :
  fst (getUserFromAuth (Some alice) (snd (ensureUser (Some alice) emptyWorld))) = Ok 0
  /\ exists w1 t,
    createPaper (Some alice) "notes.v2.pdf" 7 None (snd (ensureUser (Some alice) emptyWorld))
      = (Ok 1, w1)
    /\ papers w1 = ([] ++ [(1, Paper.mk 0 t "notes.v2.pdf" 7 None
                                 PaperStatus.processing None None)])%list
    /\ scheduled w1 = ([] ++ [JobExtractPdfContent 1])%list
    /\ users w1 = users (snd (ensureUser (Some alice) emptyWorld))
    /\ demos w1 = [] /\ storage w1 = []
    /\ sandboxCalls w1 = [] /\ nextId w1 = 2
    /\ (forall given, @None string = Some given -> t = given)
    /\ (forall base rest, @None string = None -> "notes.v2.pdf" = base ++ pdfExt ++ rest ->
          includes pdfExt base = false -> t = base ++ rest)
    /\ (@None string = None -> includes pdfExt "notes.v2.pdf" = false -> t = "notes.v2.pdf").
Proof.
  split; [reflexivity|].
  apply (createPaper_appends_processing_paper (Some alice) "notes.v2.pdf" 7 None
           (snd (ensureUser (Some alice) emptyWorld)) 0).
  reflexivity.
Defined.

(* ================================================================== *)
(** ** More on document ingestion ([extractPdfContent]) *)

Lemma split_not_nil (c : ascii) (s : string) : split c s <> [].
Proof.
  induction s as [|a s IH]; simpl; [discriminate|].
  destruct (Ascii.eqb a c); [discriminate|].
  destruct (split c s); [contradiction | discriminate].
Qed.

Lemma commaList_not_nil (s : string) : commaList s <> [].
Proof.
  unfold commaList. pose proof (split_not_nil ","%char s) as H.
  destruct (split ","%char s); [contradiction | discriminate].
Qed.

(** The [try] block on an answer whose braces parse to an object: it
    ends in the patch to [ready] with the fields of the object, or it
    throws and the world is as it was. *)
Lemma extractPdfContent_try_on_object
    (JSON_parse : string -> option Json.json) (env : Collaborators)
    (paperId : Id) (w : World) (p : Paper.t) (b : Blob)
    (data resultText m : string) (ms : list (string * Json.json)) :
  lookup paperId (papers w) = Some p ->
  lookup (Paper.fileStorageId p) (storage w) = Some b ->
  fetchArrayBuffer env (BlobUrl (Paper.fileStorageId p)) = Ok data ->
  generateText env extractionPrompt (Some data) = Ok resultText ->
  matchBraces resultText = Some m ->
  JSON_parse m = Some (Json.JObj ms) ->
  match fieldsOf ms resultText with
  | Some (content, md) =>
      extractPdfContent_try JSON_parse env paperId w
      = updatePaper paperId
          (PaperUpdates.mk (Some PaperStatus.ready) (Some content) (Some md)
             (Some (BlobUrl (Paper.fileStorageId p)))) w
  | None => exists e, extractPdfContent_try JSON_parse env paperId w = (Throw e, w)
  end.
Proof.
  intros Hp Hs Hf Hg Hm Hj.
  eassert (E : extractPdfContent_try JSON_parse env paperId w = _).
  { unfold extractPdfContent_try.
    unfold bind at 1, runQuery, getPaperInternal, db_get. simpl fst. rewrite Hp.
    unfold bind at 1, storage_getUrl. rewrite Hs.
    unfold bind at 1, external. rewrite Hf.
    unfold bind at 1. rewrite Hg.
    unfold extractedDataOf. rewrite Hm, Hj.
    unfold prop, bind, ret. reflexivity. }
  rewrite E. clear E. unfold fieldsOf.
  destruct (Json.lookupLast "authors" ms) as [[]|]; simpl;
    try (eexists; reflexivity);
    destruct (Json.lookupLast "keywords" ms) as [[]|]; simpl;
    try (eexists; reflexivity);
    destruct (Json.lookupLast "content" ms) as [[]|]; simpl;
    try (eexists; reflexivity);
    destruct (Json.lookupLast "abstract" ms) as [[]|]; simpl;
    try (eexists; reflexivity); reflexivity.
Qed.

(** X5. When the braces of the analysis answer parse to an object whose
    [content], [authors] and [keywords] are each absent, [null] or a
    string and whose [abstract] is absent or a string, the paper ends
    [ready]: [extractedContent] is the [content] string (the whole
    answer when there is none), [authors] and [keywords] are the strings
    split at commas with each piece trimmed (never an empty list),
    [abstract] is the string; a [title] in the object is not used, the
    paper keeps its title. *)
Theorem extractPdfContent_structured_answer
    (JSON_parse : string -> option Json.json) (env : Collaborators)
    (paperId : Id) (w : World) (p : Paper.t) (b : Blob)
    (data resultText m : string) (ms : list (string * Json.json)) :
  lookup paperId (papers w) = Some p ->
  lookup (Paper.fileStorageId p) (storage w) = Some b ->
  fetchArrayBuffer env (BlobUrl (Paper.fileStorageId p)) = Ok data ->
  generateText env extractionPrompt (Some data) = Ok resultText ->
  matchBraces resultText = Some m ->
  JSON_parse m = Some (Json.JObj ms) ->
  textOrNull (Json.lookupLast "content" ms) = true ->
  textOrNull (Json.lookupLast "authors" ms) = true ->
  textOrAbsent (Json.lookupLast "abstract" ms) = true ->
  textOrNull (Json.lookupLast "keywords" ms) = true ->
  exists w' md,
    extractPdfContent JSON_parse env paperId w = (Ok tt, w')
    /\ lookup paperId (papers w')
       = Some (Paper.mk (Paper.userId p) (Paper.title p) (Paper.fileName p)
                 (Paper.fileStorageId p) (Some (BlobUrl (Paper.fileStorageId p)))
                 PaperStatus.ready
                 (Some (match asText (Json.lookupLast "content" ms) with
                        | Some c => c
                        | None => resultText
                        end))
                 (Some md))
    /\ Metadata.authors md = option_map commaList (asText (Json.lookupLast "authors" ms))
    /\ Metadata.abstract md = asText (Json.lookupLast "abstract" ms)
    /\ Metadata.keywords md = option_map commaList (asText (Json.lookupLast "keywords" ms))
    /\ (forall l, Metadata.authors md = Some l -> l <> [])
    /\ (forall l, Metadata.keywords md = Some l -> l <> []).
Proof.
  intros Hp Hs Hf Hg Hm Hj Tc Ta Tb Tk.
  pose proof (extractPdfContent_try_on_object JSON_parse env paperId w p b data resultText
                m ms Hp Hs Hf Hg Hm Hj) as T.
  unfold fieldsOf in T. rewrite Tc, Ta, Tb, Tk in T. cbn [andb] in T.
  unfold extractPdfContent, bind, tryCatch. rewrite T.
  rewrite (updatePaper_found _ _ _ p Hp). unfold ret.
  do 2 eexists. split; [reflexivity|]. simpl.
  rewrite lookup_update_same, Hp. simpl.
  split; [reflexivity|]. repeat split.
  - intros l E. destruct (asText (Json.lookupLast "authors" ms)); simpl in E;
      inversion E. apply commaList_not_nil.
  - intros l E. destruct (asText (Json.lookupLast "keywords" ms)); simpl in E;
      inversion E. apply commaList_not_nil.
Qed.

Lemma extractPdfContent_structured_witness :
  matchBraces structuredAnswer = Some structuredAnswer
  /\ exists w' md,
    extractPdfContent Json.parse structuredModel 3 worldWithPaper = (Ok tt, w')
    /\ lookup 3 (papers w')
       = Some (Paper.mk 0 "attention" "attention.pdf" 2 (Some (BlobUrl 2))
                 PaperStatus.ready (Some "...") (Some md))
    /\ Metadata.authors md = Some ["A"; "B"]
    /\ Metadata.abstract md = Some "X"
    /\ Metadata.keywords md = Some ["k1"; "k2"]
    /\ (forall l, Metadata.authors md = Some l -> l <> [])
    /\ (forall l, Metadata.keywords md = Some l -> l <> []).
Proof.
  split; [vm_compute; reflexivity|].
  apply (extractPdfContent_structured_answer Json.parse structuredModel 3 worldWithPaper
           (Paper.mk 0 "attention" "attention.pdf" 2 None PaperStatus.processing None None)
           pdfBlob "%PDF-1.7" structuredAnswer structuredAnswer
           [("content", Json.JStr "..."); ("title", Json.JStr "T");
            ("authors", Json.JStr "A, B"); ("abstract", Json.JStr "X");
            ("keywords", Json.JStr "k1, k2")]);
    vm_compute; reflexivity.
Defined.

(** X6. When the braces of the analysis answer parse to an object in
    which [content], [authors] or [keywords] is something other than a
    string or [null], or [abstract] is something other than a string
    ([null] included), the paper ends in [error] with every other field
    as it was: [split] is called on a value that has none, or the
    argument validator of [updatePaper] refuses the value. *)
Theorem extractPdfContent_mistyped_member_ends_in_error
    (JSON_parse : string -> option Json.json) (env : Collaborators)
    (paperId : Id) (w : World) (p : Paper.t) (b : Blob)
    (data resultText m : string) (ms : list (string * Json.json)) :
  lookup paperId (papers w) = Some p ->
  lookup (Paper.fileStorageId p) (storage w) = Some b ->
  fetchArrayBuffer env (BlobUrl (Paper.fileStorageId p)) = Ok data ->
  generateText env extractionPrompt (Some data) = Ok resultText ->
  matchBraces resultText = Some m ->
  JSON_parse m = Some (Json.JObj ms) ->
  textOrNull (Json.lookupLast "content" ms) = false
  \/ textOrNull (Json.lookupLast "authors" ms) = false
  \/ textOrAbsent (Json.lookupLast "abstract" ms) = false
  \/ textOrNull (Json.lookupLast "keywords" ms) = false ->
  exists w',
    extractPdfContent JSON_parse env paperId w = (Ok tt, w')
    /\ lookup paperId (papers w')
       = Some (Paper.mk (Paper.userId p) (Paper.title p) (Paper.fileName p)
                 (Paper.fileStorageId p) (Paper.pdfUrl p) PaperStatus.error
                 (Paper.extractedContent p) (Paper.metadata p)).
Proof.
  intros Hp Hs Hf Hg Hm Hj Bad.
  pose proof (extractPdfContent_try_on_object JSON_parse env paperId w p b data resultText
                m ms Hp Hs Hf Hg Hm Hj) as T.
  assert (N : fieldsOf ms resultText = None).
  { unfold fieldsOf.
    destruct Bad as [B|[B|[B|B]]]; rewrite B; rewrite ?andb_false_r; reflexivity. }
  rewrite N in T. destruct T as [e T].
  unfold extractPdfContent, bind, tryCatch. rewrite T.
  rewrite (updatePaper_found _ _ _ p Hp). unfold ret.
  eexists. split; [reflexivity|]. simpl.
  rewrite lookup_update_same, Hp. reflexivity.
Qed.

Lemma extractPdfContent_mistyped_witness :
  textOrAbsent (Json.lookupLast "abstract"
                  [("content", Json.JStr "text"); ("abstract", Json.JNull)]) = false
  /\ exists w',
    extractPdfContent Json.parse nullAbstractModel 3 worldWithPaper = (Ok tt, w')
    /\ lookup 3 (papers w')
       = Some (Paper.mk 0 "attention" "attention.pdf" 2 None PaperStatus.error None None).
Proof.
  split; [reflexivity|].
  apply (extractPdfContent_mistyped_member_ends_in_error Json.parse nullAbstractModel 3
           worldWithPaper
           (Paper.mk 0 "attention" "attention.pdf" 2 None PaperStatus.processing None None)
           pdfBlob "%PDF-1.7" nullAbstractAnswer nullAbstractAnswer
           [("content", Json.JStr "text"); ("abstract", Json.JNull)]);
    try (vm_compute; reflexivity).
  right; right; left; reflexivity.
Defined.

Lemma yields_readonly {A} (c : Fn A) : readonly c -> yields (fun _ => True) c.
Proof.
  intros H w. rewrite (readonly_run c w H).
  destruct (fst (c w)) as [a|e]; [right; exists a; auto | left; exists e; reflexivity].
Qed.

Lemma readyPatchOrThrow_bind {A} (Q : A -> Prop) paperId url (c : Fn A) (k : A -> Fn unit) :
  yields Q c ->
  (forall a, Q a -> readyPatchOrThrow paperId url (k a)) ->
  readyPatchOrThrow paperId url (bind c k).
Proof.
  intros Hc Hk w. unfold bind.
  destruct (Hc w) as [[e E] | [a [Ha E]]]; rewrite E.
  - left. exists e. reflexivity.
  - apply Hk. exact Ha.
Qed.

Lemma yields_validated_string (x : Json.json) :
  yields (fun a : option string => a <> None) (v_optional_string (Some x)).
Proof.
  intro w. destruct x; simpl;
    try (left; eexists; reflexivity).
  right. eexists. split; [|reflexivity]. discriminate.
Qed.

(** The [try] block on an existing paper: it throws and has written
    nothing, or it is the patch to [ready]. *)
Lemma extractPdfContent_try_outcome
    (JSON_parse : string -> option Json.json) (env : Collaborators)
    (paperId : Id) (w : World) (p : Paper.t) :
  lookup paperId (papers w) = Some p ->
  (exists e, extractPdfContent_try JSON_parse env paperId w = (Throw e, w))
  \/ (exists content md,
        extractPdfContent_try JSON_parse env paperId w
        = updatePaper paperId
            (PaperUpdates.mk (Some PaperStatus.ready) (Some content) (Some md)
               (Some (BlobUrl (Paper.fileStorageId p)))) w).
Proof.
  intro Hp.
  destruct (lookup (Paper.fileStorageId p) (storage w)) as [b|] eqn:Hs.
  2:{ left. eexists.
      apply (extraction_raises_blob_unresolvable JSON_parse env paperId w p Hp Hs). }
  eassert (E : extractPdfContent_try JSON_parse env paperId w = _ w).
  { unfold extractPdfContent_try.
    unfold bind at 1, runQuery, getPaperInternal, db_get. simpl fst. rewrite Hp.
    unfold bind at 1, storage_getUrl. rewrite Hs. reflexivity. }
  rewrite E. clear E.
  match goal with
  | |- (exists e, ?c w = _) \/ _ =>
      assert (H : readyPatchOrThrow paperId (BlobUrl (Paper.fileStorageId p)) c);
        [clear w Hp Hs | exact (H w)]
  end.
  apply (readyPatchOrThrow_bind (fun _ => True)); [apply yields_readonly; auto with fn|].
  intros data _.
  apply (readyPatchOrThrow_bind (fun _ => True)); [apply yields_readonly; auto with fn|].
  intros resultText _. cbv zeta.
  apply (readyPatchOrThrow_bind (fun _ => True));
    [apply yields_readonly, readonly_prop|]. intros content _.
  apply (readyPatchOrThrow_bind (fun _ => True)).
  { apply yields_readonly, readonly_bind; [apply readonly_prop | apply readonly_splitTrim]. }
  intros authors _.
  apply (readyPatchOrThrow_bind (fun _ => True));
    [apply yields_readonly, readonly_prop|]. intros abstract _.
  apply (readyPatchOrThrow_bind (fun _ => True)).
  { apply yields_readonly, readonly_bind; [apply readonly_prop | apply readonly_splitTrim]. }
  intros keywords _.
  apply (readyPatchOrThrow_bind (fun a : option string => a <> None));
    [apply yields_validated_string|].
  intros extractedContent Hc.
  apply (readyPatchOrThrow_bind (fun _ => True));
    [apply yields_readonly, readonly_v_optional_string|]. intros abstract' _.
  intro w. right.
  destruct extractedContent as [s|]; [|congruence].
  do 2 eexists. reflexivity.
Qed.

Lemma map_fst_update {A} (id : Id) (f : A -> A) (rows : list (Id * A)) :
  map fst (update id f rows) = map fst rows.
Proof.
  induction rows as [|[i a] r IH]; simpl; [reflexivity|].
  destruct (i =? id); simpl; congruence.
Qed.

(** X7. On an existing paper [extractPdfContent] always returns
    normally and leaves the paper [ready] or [error], never
    [processing]. It never changes the paper's owner, title, file name
    or file; when the paper ends [ready] it has content, metadata and
    the address of its blob, when it ends [error] those three are as
    they were. No other paper, no other table, nor the queue changes. *)
Theorem extractPdfContent_ends_ready_or_error
    (JSON_parse : string -> option Json.json) (env : Collaborators)
    (paperId : Id) (w : World) (p : Paper.t) :
  lookup paperId (papers w) = Some p ->
  exists w' p',
    extractPdfContent JSON_parse env paperId w = (Ok tt, w')
    /\ lookup paperId (papers w') = Some p'
    /\ Paper.userId p' = Paper.userId p
    /\ Paper.title p' = Paper.title p
    /\ Paper.fileName p' = Paper.fileName p
    /\ Paper.fileStorageId p' = Paper.fileStorageId p
    /\ ((Paper.status p' = PaperStatus.ready
         /\ Paper.extractedContent p' <> None
         /\ Paper.metadata p' <> None
         /\ Paper.pdfUrl p' = Some (BlobUrl (Paper.fileStorageId p)))
        \/ (Paper.status p' = PaperStatus.error
            /\ Paper.extractedContent p' = Paper.extractedContent p
            /\ Paper.metadata p' = Paper.metadata p
            /\ Paper.pdfUrl p' = Paper.pdfUrl p))
    /\ (forall other, other <> paperId -> lookup other (papers w') = lookup other (papers w))
    /\ map fst (papers w') = map fst (papers w)
    /\ users w' = users w /\ demos w' = demos w /\ storage w' = storage w
    /\ scheduled w' = scheduled w /\ sandboxCalls w' = sandboxCalls w
    /\ nextId w' = nextId w.
Proof.
  intro Hp.
  pose proof (fun f => map_fst_update paperId f (papers w)) as M.
  unfold extractPdfContent, bind, tryCatch.
  destruct (extractPdfContent_try_outcome JSON_parse env paperId w p Hp)
    as [[e E] | [content [md E]]]; rewrite E;
    rewrite (updatePaper_found _ _ _ p Hp); unfold ret;
    do 2 eexists; (split; [reflexivity|]); simpl;
    (split; [rewrite lookup_update_same, Hp; reflexivity|]); simpl;
    repeat (split; [reflexivity|]).
  - split; [right; repeat split|].
    split; [intros other N; apply lookup_update_other; exact N|].
    split; [apply M|]. repeat split.
  - split; [left; repeat split; discriminate|].
    split; [intros other N; apply lookup_update_other; exact N|].
    split; [apply M|]. repeat split.
Qed.

Lemma extractPdfContent_ends_witness :
  lookup 3 (papers worldWithPaper)
    = Some (Paper.mk 0 "attention" "attention.pdf" 2 None PaperStatus.processing None None)
  /\ exists w' p',
    extractPdfContent Json.parse structuredModel 3 worldWithPaper = (Ok tt, w')
    /\ lookup 3 (papers w') = Some p'
    /\ Paper.userId p' = 0
    /\ Paper.title p' = "attention"
    /\ Paper.fileName p' = "attention.pdf"
    /\ Paper.fileStorageId p' = 2
    /\ ((Paper.status p' = PaperStatus.ready
         /\ Paper.extractedContent p' <> None
         /\ Paper.metadata p' <> None
         /\ Paper.pdfUrl p' = Some (BlobUrl 2))
        \/ (Paper.status p' = PaperStatus.error
            /\ Paper.extractedContent p' = None
            /\ Paper.metadata p' = None
            /\ Paper.pdfUrl p' = None))
    /\ (forall other, other <> 3 ->
          lookup other (papers w') = lookup other (papers worldWithPaper))
    /\ map fst (papers w') = map fst (papers worldWithPaper)
    /\ users w' = users worldWithPaper /\ demos w' = demos worldWithPaper
    /\ storage w' = storage worldWithPaper
    /\ scheduled w' = scheduled worldWithPaper
    /\ sandboxCalls w' = sandboxCalls worldWithPaper
    /\ nextId w' = nextId worldWithPaper.
Proof.
  split; [reflexivity|].
  apply (extractPdfContent_ends_ready_or_error Json.parse structuredModel 3 worldWithPaper
           (Paper.mk 0 "attention" "attention.pdf" 2 None PaperStatus.processing None None)).
  reflexivity.
Defined.

(** X8. For an id that no paper has, [extractPdfContent] throws - the
    [catch] block's own patch fails on the missing document - and the
    world is as it was: no status is written anywhere. *)
Theorem extractPdfContent_missing_paper_throws
    (JSON_parse : string -> option Json.json) (env : Collaborators)
    (paperId : Id) (w : World) :
  lookup paperId (papers w) = None ->
  exists e, extractPdfContent JSON_parse env paperId w = (Throw e, w).
Proof.
  intro Hp.
  unfold extractPdfContent, bind at 1, tryCatch, extractPdfContent_try.
  unfold bind at 1, runQuery, getPaperInternal, db_get. simpl fst. rewrite Hp.
  unfold throw, updatePaper, runMutation, updatePaper_handler, db_patch. simpl.
  rewrite Hp. eexists. reflexivity.
Qed.

Lemma extractPdfContent_missing_paper_witness :
  lookup 99 (papers worldWithPaper) = None
  /\ exists e, extractPdfContent Json.parse plainText 99 worldWithPaper = (Throw e, worldWithPaper).
Proof.
  split; [reflexivity|].
  apply (extractPdfContent_missing_paper_throws Json.parse plainText 99 worldWithPaper).
  reflexivity.
Defined.

Lemma dequeue_last (j : Job) (q : list Job) :
  exists q', dequeue j (q ++ [j]) = Some q'.
Proof.
  induction q as [|h t [q' IH]]; simpl.
  - replace (Job_eqb j j) with true; [eauto|].
    destruct j; simpl; symmetry; apply Nat.eqb_refl.
  - destruct (Job_eqb h j); [eauto|]. rewrite IH. eauto.
Qed.

(** X9. [createPaper] accepts a storage id that no stored file has. The
    paper it creates is queued for extraction like any other, and when
    the scheduler runs that extraction the paper ends in [error] with
    no content, whatever the collaborators would have answered. *)
Theorem createPaper_unknown_file_ends_in_error
    (auth : option Identity.t) (fileName : string) (fileStorageId : Id)
    (title : option string) (env : Collaborators) (w : World) (uid : Id) :
  fst (getUserFromAuth auth w) = Ok uid ->
  lookup fileStorageId (storage w) = None ->
  lookup (nextId w) (papers w) = None ->
  exists w1 w2 p,
    createPaper auth fileName fileStorageId title w = (Ok (nextId w), w1)
    /\ run (RunJob env (JobExtractPdfContent (nextId w))) w1 = Some w2
    /\ lookup (nextId w) (papers w2) = Some p
    /\ Paper.status p = PaperStatus.error
    /\ Paper.fileStorageId p = fileStorageId
    /\ Paper.extractedContent p = None
    /\ Paper.metadata p = None.
Proof.
  intros Hu Hs Hn. rewrite (createPaper_resolved _ _ _ _ _ _ Hu).
  set (new := Paper.mk uid (orElse title (removeFirst pdfExt fileName)) fileName
                       fileStorageId None PaperStatus.processing None None).
  destruct (dequeue_last (JobExtractPdfContent (nextId w)) (scheduled w)) as [q D].
  set (w0 := snd (scheduler_runAfter (JobExtractPdfContent (nextId w))
                    (snd (db_insert papersT new w)))).
  assert (R : run (RunJob env (JobExtractPdfContent (nextId w))) w0
              = Some (snd (extractPdfContent Json.parse env (nextId w) (withScheduled q w0)))).
  { unfold run. change (scheduled w0)
      with (scheduled w ++ [JobExtractPdfContent (nextId w)])%list.
    rewrite D. reflexivity. }
  assert (L : lookup (nextId w) (papers (withScheduled q w0)) = Some new).
  { simpl. rewrite lookup_app, Hn. simpl. rewrite Nat.eqb_refl. reflexivity. }
  pose proof (extraction_raises_blob_unresolvable Json.parse env (nextId w)
                (withScheduled q w0) new L Hs) as T.
  exists w0. eexists. eexists.
  split; [reflexivity|]. split; [exact R|].
  unfold extractPdfContent, bind, tryCatch. rewrite T.
  rewrite (updatePaper_found _ _ _ new L). unfold ret. simpl snd.
  simpl papers. rewrite lookup_update_same.
  change (lookup (nextId w) (papers w ++ [(nextId w, new)])%list)
    with (lookup (nextId w) (papers (withScheduled q w0))).
  rewrite L. simpl. repeat split.
Qed.

Lemma createPaper_unknown_file_witness :
  fst (getUserFromAuth (Some alice) worldWithPaper) = Ok 0
  /\ lookup 77 (storage worldWithPaper) = None
  /\ lookup (nextId worldWithPaper) (papers worldWithPaper) = None
  /\ exists w1 w2 p,
    createPaper (Some alice) "lost.pdf" 77 None worldWithPaper = (Ok 4, w1)
    /\ run (RunJob structuredModel (JobExtractPdfContent 4)) w1 = Some w2
    /\ lookup 4 (papers w2) = Some p
    /\ Paper.status p = PaperStatus.error
    /\ Paper.fileStorageId p = 77
    /\ Paper.extractedContent p = None
    /\ Paper.metadata p = None.
Proof.
  split; [reflexivity|]. split; [reflexivity|]. split; [reflexivity|].
  apply (createPaper_unknown_file_ends_in_error (Some alice) "lost.pdf" 77 None
           structuredModel worldWithPaper 0); reflexivity.
Defined.

(* ================================================================== *)
(** ** More on artifact generation ([generateDemo]) *)

Lemma update_absent {A} (id : Id) (f : A -> A) (rows : list (Id * A)) :
  lookup id rows = None -> update id f rows = rows.
Proof.
  induction rows as [|[i a] r IH]; simpl; [reflexivity|].
  destruct (i =? id); [discriminate|]. intro H. rewrite IH by exact H. reflexivity.
Qed.

Lemma update_appended {A} (id : Id) (f : A -> A) (rows : list (Id * A)) (a : A) :
  lookup id rows = None ->
  update id f (rows ++ [(id, a)]) = (rows ++ [(id, f a)])%list.
Proof.
  induction rows as [|[i b] r IH]; simpl.
  - rewrite Nat.eqb_refl. reflexivity.
  - destruct (i =? id); [discriminate|]. intro H. rewrite IH by exact H. reflexivity.
Qed.

Lemma db_patch_found {A} (T : Table A) (id : Id) (f : A -> A) (w : World) (a : A) :
  lookup id (rowsOf T w) = Some a ->
  db_patch T id f w = (Ok tt, withRows T (update id f (rowsOf T w)) w).
Proof. intro H. unfold db_patch. rewrite H. reflexivity. Qed.

(** [generateDemo] for a caller that owns the paper: the record is
    created, then patched once, by the [try] block or by the [catch]
    block, and the id is returned either way. *)
Lemma generateDemo_resolved
    (auth : option Identity.t) (env : Collaborators) (paperId : Id) (concept : string)
    (w : World) (uid : Id) (u : User.t) (paper : Paper.t) :
  fst (getCurrentUser auth w) = Ok (Some (uid, u)) ->
  lookup paperId (papers w) = Some paper ->
  Paper.userId paper = uid ->
  let w1 := snd (db_insert demosT
                   (Demo.mk paperId uid concept DemoStatus.generating EmptyString
                            CodeType.html None None) w) in
  generateDemo auth env paperId concept w
  = match generateText env
            (demoPrompt (Paper.title paper) (Paper.extractedContent paper) concept) None with
    | Ok resultText =>
        (Ok (nextId w),
         snd (scheduler_runAfter (JobExecuteInSandbox (nextId w))
                (withRows demosT
                   (update (nextId w)
                      (DemoUpdates.apply
                         (DemoUpdates.mk (Some DemoStatus.executing)
                            (Some (cleanHtml resultText)) None None))
                      (demos w1)) w1)))
    | Throw e =>
        (Ok (nextId w),
         withRows demosT
           (update (nextId w)
              (DemoUpdates.apply
                 (DemoUpdates.mk (Some DemoStatus.failed) None
                    (Some (failedResults (messageOr "Unknown error" e))) None))
              (demos w1)) w1)
    end.
Proof.
  intros Hu Hp Ho w1.
  assert (L : exists x, lookup (nextId w) (demos w1) = Some x)
    by (apply lookup_inserted).
  destruct L as [x Hx].
  assert (G : generateDemo auth env paperId concept w
              = (tryCatch (generateDemo_try env paper concept (nextId w))
                   (fun error =>
                      updateDemo (nextId w)
                        (DemoUpdates.mk (Some DemoStatus.failed) None
                           (Some (failedResults (messageOr "Unknown error" error))) None)) ;;
                 ret (nextId w))%fn w1).
  { unfold generateDemo, bind at 1, runQuery at 1. rewrite Hu. simpl fst.
    unfold bind at 1, runQuery, getPaperInternal, db_get. simpl fst. rewrite Hp.
    apply Nat.eqb_eq in Ho. rewrite Ho. reflexivity. }
  rewrite G. clear G.
  unfold bind at 1, tryCatch, generateDemo_try, bind at 1, external.
  destruct (generateText env _ None) as [resultText|e].
  - unfold bind at 1. rewrite (updateDemo_found _ _ _ x Hx). reflexivity.
  - rewrite (updateDemo_found _ _ _ x Hx). reflexivity.
Qed.

(** X10. When the caller owns the paper and the model call throws,
    [generateDemo] still returns the id of the demo it created; the
    demo is [failed], its code is empty, its execution results hold an
    empty [sandboxId] and the one error message, and nothing is queued
    for the sandbox. Papers, users and storage are untouched. *)
Theorem generateDemo_model_failure_recorded
    (auth : option Identity.t) (env : Collaborators) (paperId : Id) (concept : string)
    (w : World) (uid : Id) (u : User.t) (paper : Paper.t) (e : Thrown) :
  fst (getCurrentUser auth w) = Ok (Some (uid, u)) ->
  lookup paperId (papers w) = Some paper ->
  Paper.userId paper = uid ->
  lookup (nextId w) (demos w) = None ->
  generateText env (demoPrompt (Paper.title paper) (Paper.extractedContent paper) concept) None
    = Throw e ->
  exists w',
    generateDemo auth env paperId concept w = (Ok (nextId w), w')
    /\ demos w'
       = (demos w ++ [(nextId w,
                       Demo.mk paperId uid concept DemoStatus.failed EmptyString CodeType.html
                         (Some (ExecutionResults.mk EmptyString None None None
                                  (Some [messageOr "Unknown error" e])))
                         None)])%list
    /\ scheduled w' = scheduled w
    /\ papers w' = papers w /\ users w' = users w /\ storage w' = storage w
    /\ sandboxCalls w' = sandboxCalls w.
Proof.
  intros Hu Hp Ho Hn Hg.
  rewrite (generateDemo_resolved auth env paperId concept w uid u paper Hu Hp Ho).
  rewrite Hg. eexists. split; [reflexivity|]. simpl.
  rewrite (update_appended _ _ _ _ Hn). repeat split.
Qed.

Lemma generateDemo_model_failure_witness :
  fst (getCurrentUser (Some alice) worldWithPaper)
    = Ok (Some (0, User.mk "user_01" "alice@example.org" "Alice" None))
  /\ exists w',
    generateDemo (Some alice) silent 3 "self-attention" worldWithPaper = (Ok 4, w')
    /\ demos w'
       = ([] ++ [(4, Demo.mk 3 0 "self-attention" DemoStatus.failed EmptyString CodeType.html
                       (Some (ExecutionResults.mk EmptyString None None None
                                (Some ["model unavailable"])))
                       None)])%list
    /\ scheduled w' = scheduled worldWithPaper
    /\ papers w' = papers worldWithPaper /\ users w' = users worldWithPaper
    /\ storage w' = storage worldWithPaper
    /\ sandboxCalls w' = sandboxCalls worldWithPaper.
Proof.
  split; [reflexivity|].
  apply (generateDemo_model_failure_recorded (Some alice) silent 3 "self-attention"
           worldWithPaper 0 (User.mk "user_01" "alice@example.org" "Alice" None)
           (Paper.mk 0 "attention" "attention.pdf" 2 None PaperStatus.processing None None)
           (ErrorObj "model unavailable")); reflexivity.
Defined.

(** X11. When the caller owns the paper and the model answers,
    [generateDemo] returns the id of a new demo of that paper and that
    caller, in [executing], whose code is the cleaned answer, with no
    execution results yet, and queues exactly one sandbox run of it at
    the end of the queue. Papers, users and storage are untouched, and
    no sandbox call is made by [generateDemo] itself. *)
Theorem generateDemo_success_queues_one_run
    (auth : option Identity.t) (env : Collaborators) (paperId : Id) (concept : string)
    (w : World) (uid : Id) (u : User.t) (paper : Paper.t) (resultText : string) :
  fst (getCurrentUser auth w) = Ok (Some (uid, u)) ->
  lookup paperId (papers w) = Some paper ->
  Paper.userId paper = uid ->
  lookup (nextId w) (demos w) = None ->
  generateText env (demoPrompt (Paper.title paper) (Paper.extractedContent paper) concept) None
    = Ok resultText ->
  exists w',
    generateDemo auth env paperId concept w = (Ok (nextId w), w')
    /\ demos w'
       = (demos w ++ [(nextId w,
                       Demo.mk paperId uid concept DemoStatus.executing
                         (cleanHtml resultText) CodeType.html None None)])%list
    /\ scheduled w' = (scheduled w ++ [JobExecuteInSandbox (nextId w)])%list
    /\ papers w' = papers w /\ users w' = users w /\ storage w' = storage w
    /\ sandboxCalls w' = sandboxCalls w.
Proof.
  intros Hu Hp Ho Hn Hg.
  rewrite (generateDemo_resolved auth env paperId concept w uid u paper Hu Hp Ho).
  rewrite Hg. eexists. split; [reflexivity|]. simpl.
  rewrite (update_appended _ _ _ _ Hn). repeat split.
Qed.

Lemma generateDemo_success_witness :
  fst (getCurrentUser (Some alice) worldWithPaper)
    = Ok (Some (0, User.mk "user_01" "alice@example.org" "Alice" None))
  /\ exists w',
    generateDemo (Some alice) fencedModel 3 "self-attention" worldWithPaper = (Ok 4, w')
    /\ demos w'
       = ([] ++ [(4, Demo.mk 3 0 "self-attention" DemoStatus.executing
                       (cleanHtml fencedAnswer) CodeType.html None None)])%list
    /\ scheduled w' = ([JobExtractPdfContent 3] ++ [JobExecuteInSandbox 4])%list
    /\ papers w' = papers worldWithPaper /\ users w' = users worldWithPaper
    /\ storage w' = storage worldWithPaper
    /\ sandboxCalls w' = sandboxCalls worldWithPaper.
Proof.
  split; [reflexivity|].
  apply (generateDemo_success_queues_one_run (Some alice) fencedModel 3 "self-attention"
           worldWithPaper 0 (User.mk "user_01" "alice@example.org" "Alice" None)
           (Paper.mk 0 "attention" "attention.pdf" 2 None PaperStatus.processing None None)
           fencedAnswer); reflexivity.
Defined.

(** X12. What the clean-up stores. When the trimmed answer starts with
    a fence, every triple backtick is removed, also fences inside the
    markup and fences with another label, so the stored code holds none.
    When it does not start with a fence - prose before the fence, for
    one - the trimmed answer is stored as it is, fences included. *)
Theorem cleanHtml_fence_cases (resultText : string) :
  (startsWith (trim resultText) fence = true -> includes fence (cleanHtml resultText) = false)
  /\ (startsWith (trim resultText) fence = false -> cleanHtml resultText = trim resultText).
Proof.
  unfold cleanHtml. split; intro H; rewrite H.
  - apply no_fence_after_removeAll.
  - reflexivity.
Qed.

Lemma cleanHtml_fence_cases_witness :
  startsWith (trim fencedAnswer) fence = true
  /\ includes fence (cleanHtml fencedAnswer) = false
  /\ startsWith (trim ("Here you go: " ++ fencedAnswer)) fence = false
  /\ cleanHtml ("Here you go: " ++ fencedAnswer) = trim ("Here you go: " ++ fencedAnswer).
Proof.
  split; [reflexivity|].
  split; [apply (proj1 (cleanHtml_fence_cases fencedAnswer)); reflexivity|].
  split; [reflexivity|].
  apply (proj2 (cleanHtml_fence_cases ("Here you go: " ++ fencedAnswer))); reflexivity.
Defined.

(* ================================================================== *)
(** ** More on sandbox execution ([executeInSandbox]) *)

Lemma update_update {A} (id : Id) (f g : A -> A) (rows : list (Id * A)) :
  update id g (update id f rows) = update id (fun a => g (f a)) rows.
Proof.
  induction rows as [|[i a] r IH]; simpl; [reflexivity|].
  destruct (i =? id) eqn:E; simpl; rewrite E; [reflexivity | rewrite IH; reflexivity].
Qed.

(** Opens [executeInSandbox] down to the oracles and the tables. *)
Ltac open_sandbox :=
  unfold executeInSandbox, executeInSandbox_try, daytonaCreate, executeCommand,
    sandboxDelete, storageStore, updateDemo, runMutation, updateDemo_handler, db_patch,
    db_insert, freshId, tryCatch, bind, runQuery, getDemoInternal, db_get, external, throw,
    ret, logSandbox;
  simpl.

(** Splits the cases of the innermost test first. *)
Ltac split_paths tac :=
  repeat match goal with
         | |- context [match ?x with _ => _ end] =>
             lazymatch x with
             | context [match _ with _ => _ end] => fail
             | _ => destruct x eqn:?; simpl; tac
             end
         end.

(** What a run of [executeInSandbox] on an existing demo does. *)
Lemma executeInSandbox_effect (env : Collaborators) (demoId : Id) (w : World) (demo : Demo.t) :
  lookup demoId (demos w) = Some demo ->
  exists r w' d',
    executeInSandbox env demoId w = (r, w')
    /\ lookup demoId (demos w') = Some d'
    /\ (Demo.paperId d' = Demo.paperId demo /\ Demo.userId d' = Demo.userId demo
        /\ Demo.concept d' = Demo.concept demo
        /\ Demo.generatedCode d' = Demo.generatedCode demo
        /\ Demo.codeType d' = Demo.codeType demo)
    /\ ((r = Ok tt /\ Demo.status d' = DemoStatus.ready
         /\ (exists sid body,
               Demo.executionResults d'
               = Some (ExecutionResults.mk sid (Some body) None None None))
         /\ Demo.demoFileStorageId d' = Some (nextId w))
        \/ (exists e, r = Throw e /\ Demo.status d' = DemoStatus.failed
            /\ Demo.executionResults d'
               = Some (failedResults (messageOr "Unknown sandbox execution error" e))
            /\ (Demo.demoFileStorageId d' = Demo.demoFileStorageId demo
                \/ Demo.demoFileStorageId d' = Some (nextId w))))
    /\ (forall id, id <> demoId -> lookup id (demos w') = lookup id (demos w))
    /\ map fst (demos w') = map fst (demos w)
    /\ users w' = users w /\ papers w' = papers w /\ scheduled w' = scheduled w
    /\ ((storage w' = storage w /\ nextId w' = nextId w)
        \/ (exists b, storage w' = (storage w ++ [(nextId w, b)])%list
                      /\ nextId w' = S (nextId w))).
Proof.
  intro Hd. open_sandbox. rewrite Hd. simpl.
  split_paths ltac:(rewrite ?lookup_update_same, ?Hd; simpl).
  all: do 3 eexists; (split; [reflexivity|]); simpl;
    rewrite ?update_update, ?lookup_update_same, ?Hd; simpl;
    (split; [reflexivity|]);
    unfold DemoUpdates.apply; simpl;
    (split; [repeat split|]);
    (split; [first [ left; repeat split; solve [eauto]
                   | right; eexists; repeat split; solve [eauto] ]|]);
    (split; [intros id N; rewrite ?lookup_update_other by exact N; reflexivity|]);
    (split; [rewrite ?map_fst_update; reflexivity|]);
    (split; [reflexivity|]); (split; [reflexivity|]); (split; [reflexivity|]);
    first [ left; split; reflexivity | right; eexists; split; reflexivity ].
Qed.

(** X13. A run of [executeInSandbox] on an existing demo never leaves
    it [executing]: either the action returns normally and the demo is
    [ready] with a sandbox id, the fetched output and a stored file, or
    the action throws and the demo is [failed] with an empty sandbox id
    and the one error message. The demo's paper, owner, concept and code
    never change, no other demo changes, and users, papers and the queue
    are untouched; at most one blob is added to storage. *)
Theorem executeInSandbox_ends_ready_or_failed
    (env : Collaborators) (demoId : Id) (w : World) (demo : Demo.t) :
  lookup demoId (demos w) = Some demo ->
  exists r w' d',
    executeInSandbox env demoId w = (r, w')
    /\ lookup demoId (demos w') = Some d'
    /\ (Demo.paperId d' = Demo.paperId demo /\ Demo.userId d' = Demo.userId demo
        /\ Demo.concept d' = Demo.concept demo
        /\ Demo.generatedCode d' = Demo.generatedCode demo
        /\ Demo.codeType d' = Demo.codeType demo)
    /\ ((r = Ok tt /\ Demo.status d' = DemoStatus.ready
         /\ (exists sid body,
               Demo.executionResults d'
               = Some (ExecutionResults.mk sid (Some body) None None None))
         /\ Demo.demoFileStorageId d' = Some (nextId w))
        \/ (exists e, r = Throw e /\ Demo.status d' = DemoStatus.failed
            /\ Demo.executionResults d'
               = Some (failedResults (messageOr "Unknown sandbox execution error" e))
            /\ (Demo.demoFileStorageId d' = Demo.demoFileStorageId demo
                \/ Demo.demoFileStorageId d' = Some (nextId w))))
    /\ (forall id, id <> demoId -> lookup id (demos w') = lookup id (demos w))
    /\ map fst (demos w') = map fst (demos w)
    /\ users w' = users w /\ papers w' = papers w /\ scheduled w' = scheduled w
    /\ ((storage w' = storage w /\ nextId w' = nextId w)
        \/ (exists b, storage w' = (storage w ++ [(nextId w, b)])%list
                      /\ nextId w' = S (nextId w))).
Proof. apply executeInSandbox_effect. Qed.

Lemma executeInSandbox_ends_witness :
  exists r w' d',
    executeInSandbox fetchNotOk 4 worldWithDemo = (r, w')
    /\ lookup 4 (demos w') = Some d'
    /\ (Demo.paperId d' = Demo.paperId aliceDemo /\ Demo.userId d' = Demo.userId aliceDemo
        /\ Demo.concept d' = Demo.concept aliceDemo
        /\ Demo.generatedCode d' = Demo.generatedCode aliceDemo
        /\ Demo.codeType d' = Demo.codeType aliceDemo)
    /\ ((r = Ok tt /\ Demo.status d' = DemoStatus.ready
         /\ (exists sid body,
               Demo.executionResults d'
               = Some (ExecutionResults.mk sid (Some body) None None None))
         /\ Demo.demoFileStorageId d' = Some (nextId worldWithDemo))
        \/ (exists e, r = Throw e /\ Demo.status d' = DemoStatus.failed
            /\ Demo.executionResults d'
               = Some (failedResults (messageOr "Unknown sandbox execution error" e))
            /\ (Demo.demoFileStorageId d' = Demo.demoFileStorageId aliceDemo
                \/ Demo.demoFileStorageId d' = Some (nextId worldWithDemo))))
    /\ (forall id, id <> 4 -> lookup id (demos w') = lookup id (demos worldWithDemo))
    /\ map fst (demos w') = map fst (demos worldWithDemo)
    /\ users w' = users worldWithDemo /\ papers w' = papers worldWithDemo
    /\ scheduled w' = scheduled worldWithDemo
    /\ ((storage w' = storage worldWithDemo /\ nextId w' = nextId worldWithDemo)
        \/ (exists b, storage w' = (storage worldWithDemo ++ [(nextId worldWithDemo, b)])%list
                      /\ nextId w' = S (nextId worldWithDemo))).
Proof.
  apply (executeInSandbox_ends_ready_or_failed fetchNotOk 4 worldWithDemo aliceDemo).
  vm_compute. reflexivity.
Defined.

(** The run up to the teardown, when every step before it succeeds. *)
Lemma executeInSandbox_until_teardown
    (env : Collaborators) (demoId : Id) (w : World) (demo : Demo.t)
    (sandboxId renderedHtml : string) (response : Response) :
  lookup demoId (demos w) = Some demo ->
  daytona_create env = Ok sandboxId ->
  process_executeCommand env sandboxId (writeCommand (Demo.generatedCode demo)) = Ok tt ->
  process_executeCommand env sandboxId serverCommand = Ok tt ->
  fetch env (sandboxUrl sandboxId ++ "/demo.html") = Ok response ->
  ok response = true ->
  text response = Ok renderedHtml ->
  storage_store env (mkBlob "text/html" renderedHtml) = Ok tt ->
  let calls := (sandboxCalls w ++ deployCalls sandboxId (Demo.generatedCode demo)
                  ++ [SandboxDelete sandboxId])%list in
  let store := (storage w ++ [(nextId w, mkBlob "text/html" renderedHtml)])%list in
  executeInSandbox env demoId w
  = match sandbox_delete env sandboxId with
    | Ok _ =>
        (Ok tt,
         mkWorld (S (nextId w)) (users w) (papers w)
           (update demoId (fun d => readyDemo d sandboxId renderedHtml (nextId w)) (demos w))
           store (scheduled w) calls)
    | Throw e =>
        (Throw e,
         mkWorld (S (nextId w)) (users w) (papers w)
           (update demoId
              (fun d => failedDemo (readyDemo d sandboxId renderedHtml (nextId w)) e)
              (demos w))
           store (scheduled w) calls)
    end.
Proof.
  intros Hd Hc Hw Hs Hf Ho Ht Hst calls store. subst calls store.
  open_sandbox. rewrite Hd, Hc. simpl. rewrite Hw. simpl. rewrite Hs. simpl.
  change (String "h" (String "t" (String "t" (String "p" (String "s" (String ":"
            (String "/" (String "/" ((sandboxId ++ "-8080.daytona.app") ++ "/demo.html")))))))))
    with (sandboxUrl sandboxId ++ "/demo.html").
  rewrite Hf, Ho. simpl. rewrite Ht, Hst. simpl. rewrite Hd. simpl.
  rewrite <- !app_assoc. simpl.
  destruct (sandbox_delete env sandboxId) as [[]|e]; simpl.
  - reflexivity.
  - rewrite lookup_update_same, Hd. simpl. rewrite update_update. reflexivity.
Qed.

(** X14. When every step succeeds (Scenario E), [executeInSandbox]
    returns normally; the demo is [ready] with the sandbox id, the
    fetched text as [outputHtml] and the id of a new blob of type
    [text/html] that holds that same text; the sandbox was asked, in
    this order, to start, to write the file, to start the server and to
    delete itself, once each. *)
Theorem executeInSandbox_all_steps_succeed
    (env : Collaborators) (demoId : Id) (w : World) (demo : Demo.t)
    (sandboxId renderedHtml : string) (response : Response) :
  lookup demoId (demos w) = Some demo ->
  daytona_create env = Ok sandboxId ->
  process_executeCommand env sandboxId (writeCommand (Demo.generatedCode demo)) = Ok tt ->
  process_executeCommand env sandboxId serverCommand = Ok tt ->
  fetch env (sandboxUrl sandboxId ++ "/demo.html") = Ok response ->
  ok response = true ->
  text response = Ok renderedHtml ->
  storage_store env (mkBlob "text/html" renderedHtml) = Ok tt ->
  sandbox_delete env sandboxId = Ok tt ->
  exists w',
    executeInSandbox env demoId w = (Ok tt, w')
    /\ lookup demoId (demos w') = Some (readyDemo demo sandboxId renderedHtml (nextId w))
    /\ storage w' = (storage w ++ [(nextId w, mkBlob "text/html" renderedHtml)])%list
    /\ sandboxCalls w'
       = (sandboxCalls w
          ++ [SandboxCreated sandboxId;
              SandboxCommand sandboxId (writeCommand (Demo.generatedCode demo));
              SandboxCommand sandboxId serverCommand;
              SandboxDelete sandboxId])%list
    /\ users w' = users w /\ papers w' = papers w /\ scheduled w' = scheduled w.
Proof.
  intros Hd Hc Hw Hs Hf Ho Ht Hst Hdel.
  rewrite (executeInSandbox_until_teardown env demoId w demo sandboxId renderedHtml response
             Hd Hc Hw Hs Hf Ho Ht Hst).
  rewrite Hdel. eexists. split; [reflexivity|]. simpl.
  rewrite lookup_update_same, Hd. repeat split.
Qed.

Lemma executeInSandbox_all_steps_witness :
  exists w',
    executeInSandbox allSucceed 4 worldWithDemo = (Ok tt, w')
    /\ lookup 4 (demos w')
       = Some (readyDemo aliceDemo "sbx-1" "<html>ok</html>" (nextId worldWithDemo))
    /\ storage w'
       = (storage worldWithDemo
          ++ [(nextId worldWithDemo, mkBlob "text/html" "<html>ok</html>")])%list
    /\ sandboxCalls w'
       = (sandboxCalls worldWithDemo
          ++ [SandboxCreated "sbx-1";
              SandboxCommand "sbx-1" (writeCommand (Demo.generatedCode aliceDemo));
              SandboxCommand "sbx-1" serverCommand;
              SandboxDelete "sbx-1"])%list
    /\ users w' = users worldWithDemo /\ papers w' = papers worldWithDemo
    /\ scheduled w' = scheduled worldWithDemo.
Proof.
  apply (executeInSandbox_all_steps_succeed allSucceed 4 worldWithDemo aliceDemo
           "sbx-1" "<html>ok</html>" (mkResponse true 200 "OK" (Ok "<html>ok</html>")));
    vm_compute; reflexivity.
Defined.

(** X15. When every step up to the patch to [ready] succeeds and the
    teardown call then throws, the [catch] block patches the demo a
    second time: it ends [failed], its execution results hold only the
    teardown's message (the sandbox id and the output are gone), while
    the blob that was stored stays in storage and the demo still refers
    to it; the exception is thrown again. *)
Theorem executeInSandbox_failed_teardown_overrides_ready
    (env : Collaborators) (demoId : Id) (w : World) (demo : Demo.t)
    (sandboxId renderedHtml : string) (response : Response) (e : Thrown) :
  lookup demoId (demos w) = Some demo ->
  daytona_create env = Ok sandboxId ->
  process_executeCommand env sandboxId (writeCommand (Demo.generatedCode demo)) = Ok tt ->
  process_executeCommand env sandboxId serverCommand = Ok tt ->
  fetch env (sandboxUrl sandboxId ++ "/demo.html") = Ok response ->
  ok response = true ->
  text response = Ok renderedHtml ->
  storage_store env (mkBlob "text/html" renderedHtml) = Ok tt ->
  sandbox_delete env sandboxId = Throw e ->
  exists w' d',
    executeInSandbox env demoId w = (Throw e, w')
    /\ lookup demoId (demos w') = Some d'
    /\ Demo.status d' = DemoStatus.failed
    /\ Demo.executionResults d'
       = Some (ExecutionResults.mk EmptyString None None None
                 (Some [messageOr "Unknown sandbox execution error" e]))
    /\ Demo.demoFileStorageId d' = Some (nextId w)
    /\ storage w' = (storage w ++ [(nextId w, mkBlob "text/html" renderedHtml)])%list
    /\ createCount w' = S (createCount w)
    /\ deleteCount w' = S (deleteCount w).
Proof.
  intros Hd Hc Hw Hs Hf Ho Ht Hst Hdel.
  rewrite (executeInSandbox_until_teardown env demoId w demo sandboxId renderedHtml response
             Hd Hc Hw Hs Hf Ho Ht Hst).
  rewrite Hdel. do 2 eexists. split; [reflexivity|]. simpl.
  rewrite lookup_update_same, Hd. simpl.
  repeat (split; [reflexivity|]).
  unfold createCount, deleteCount. simpl.
  rewrite !filter_app, !length_app. simpl. split; lia.
Qed.

Lemma executeInSandbox_failed_teardown_witness :
  exists w' d',
    executeInSandbox teardownFails 4 worldWithDemo = (Throw (ErrorObj "sandbox is busy"), w')
    /\ lookup 4 (demos w') = Some d'
    /\ Demo.status d' = DemoStatus.failed
    /\ Demo.executionResults d'
       = Some (ExecutionResults.mk EmptyString None None None
                 (Some [messageOr "Unknown sandbox execution error"
                          (ErrorObj "sandbox is busy")]))
    /\ Demo.demoFileStorageId d' = Some (nextId worldWithDemo)
    /\ storage w'
       = (storage worldWithDemo
          ++ [(nextId worldWithDemo, mkBlob "text/html" "<html>ok</html>")])%list
    /\ createCount w' = S (createCount worldWithDemo)
    /\ deleteCount w' = S (deleteCount worldWithDemo).
Proof.
  apply (executeInSandbox_failed_teardown_overrides_ready teardownFails 4 worldWithDemo
           aliceDemo "sbx-1" "<html>ok</html>"
           (mkResponse true 200 "OK" (Ok "<html>ok</html>")) (ErrorObj "sandbox is busy"));
    vm_compute; reflexivity.
Defined.

(** X16. [executeInSandbox] makes no sandbox call and stores nothing
    when the demo is missing - it throws [Demo not found] and writes
    nothing at all - and when provisioning itself throws: then the demo
    is patched to [failed] with that message and the exception is thrown
    again. *)
Theorem executeInSandbox_without_sandbox
    (env : Collaborators) (demoId : Id) (w : World) :
  (lookup demoId (demos w) = None ->
   executeInSandbox env demoId w = (Throw (ErrorObj "Demo not found"), w))
  /\ (forall demo e,
        lookup demoId (demos w) = Some demo ->
        daytona_create env = Throw e ->
        exists w',
          executeInSandbox env demoId w = (Throw e, w')
          /\ lookup demoId (demos w') = Some (failedDemo demo e)
          /\ sandboxCalls w' = sandboxCalls w
          /\ storage w' = storage w
          /\ nextId w' = nextId w).
Proof.
  split.
  - intro Hd. open_sandbox. rewrite Hd. reflexivity.
  - intros demo e Hd Hc. open_sandbox. rewrite Hd, Hc. simpl. rewrite Hd. simpl.
    eexists. split; [reflexivity|]. simpl.
    rewrite lookup_update_same, Hd. repeat split.
Qed.

Lemma executeInSandbox_without_sandbox_witness :
  executeInSandbox silent 99 worldWithDemo = (Throw (ErrorObj "Demo not found"), worldWithDemo)
  /\ exists w',
      executeInSandbox silent 4 worldWithDemo = (Throw (ErrorObj "no sandbox"), w')
      /\ lookup 4 (demos w') = Some (failedDemo aliceDemo (ErrorObj "no sandbox"))
      /\ sandboxCalls w' = sandboxCalls worldWithDemo
      /\ storage w' = storage worldWithDemo
      /\ nextId w' = nextId worldWithDemo.
Proof.
  destruct (executeInSandbox_without_sandbox silent 4 worldWithDemo) as [_ H4].
  destruct (executeInSandbox_without_sandbox silent 99 worldWithDemo) as [H99 _].
  split; [apply H99; vm_compute; reflexivity|].
  apply (H4 aliceDemo (ErrorObj "no sandbox")); vm_compute; reflexivity.
Defined.

(* ================================================================== *)
(** ** What an owner reads ([getPaper], [getDemo], [listUserPapers]) *)

(** X17. The owner of a record gets it back: for a caller that
    [getUserFromAuth] resolves to [uid], [getPaper] on a paper whose
    [userId] is [uid] returns that paper under the requested id, with
    [pdfUrl] set to the address storage has for its file now (whatever
    was patched into the record), and [getDemo] on a demo whose [userId]
    is [uid] returns the demo with the address of its stored output, or
    [null] for the address when it has none; neither writes. *)
Theorem getPaper_getDemo_owner_reads_record
    (auth : option Identity.t) (w : World) (uid : Id) :
  fst (getUserFromAuth auth w) = Ok uid ->
  (forall paperId p,
      lookup paperId (papers w) = Some p -> Paper.userId p = uid ->
      getPaper auth paperId w = (Ok (Some (paperDocIn w (paperId, p))), w))
  /\ (forall demoId d,
      lookup demoId (demos w) = Some d -> Demo.userId d = uid ->
      getDemo auth demoId w = (Ok (Some (mkDemoWithUrl (demoId, d) (demoUrlIn w d))), w)).
Proof.
  intro Hu.
  pose proof (readonly_run (getUserFromAuth auth) w (readonly_getUserFromAuth auth)) as R.
  rewrite Hu in R.
  split.
  - intros paperId p H E. unfold getPaper, runQuery. f_equal.
    unfold bind. rewrite R. unfold db_get. simpl. rewrite H.
    apply Nat.eqb_eq in E. rewrite E. reflexivity.
  - intros demoId d H E. unfold getDemo, runQuery. f_equal.
    unfold bind. rewrite R. unfold db_get. simpl. rewrite H.
    apply Nat.eqb_eq in E. rewrite E. simpl.
    rewrite (demoUrlOf_total d w). reflexivity.
Qed.

Lemma getPaper_getDemo_owner_witness :
  getPaper (Some alice) 3 worldWithDemo
  = (Ok (Some (3, Paper.mk 0 "attention" "attention.pdf" 2 (Some (BlobUrl 2))
                    PaperStatus.processing None None)), worldWithDemo)
  /\ getDemo (Some alice) 4 worldWithDemo
     = (Ok (Some (mkDemoWithUrl (4, aliceDemo) None)), worldWithDemo).
Proof.
  destruct (getPaper_getDemo_owner_reads_record (Some alice) worldWithDemo 0) as [P D].
  - vm_compute. reflexivity.
  - split.
    + apply (P 3 (Paper.mk 0 "attention" "attention.pdf" 2 None PaperStatus.processing
                    None None)); vm_compute; reflexivity.
    + apply (D 4 aliceDemo); vm_compute; reflexivity.
Defined.

(** X18. For a caller that [getUserFromAuth] resolves to [uid],
    [listUserPapers] returns (it does not throw and writes nothing) the
    caller's papers and no others, newest first, each under its id and
    with a fresh [pdfUrl]: every paper of the table whose [userId] is
    [uid] is listed, and every paper listed has [userId = uid]. *)
Theorem listUserPapers_exactly_callers_papers
    (auth : option Identity.t) (w : World) (uid : Id) :
  fst (getUserFromAuth auth w) = Ok uid ->
  exists l,
    listUserPapers auth w = (Ok l, w)
    /\ l = map (paperDocIn w)
             (rev (filter (fun r : Id * Paper.t => Paper.userId (snd r) =? uid) (papers w)))
    /\ Forall (fun r => Paper.userId (snd r) = uid) l
    /\ (forall paperId p,
          In (paperId, p) (papers w) -> Paper.userId p = uid ->
          In (paperDocIn w (paperId, p)) l).
Proof.
  intro Hu.
  pose proof (readonly_run (getUserFromAuth auth) w (readonly_getUserFromAuth auth)) as R.
  rewrite Hu in R.
  unfold listUserPapers, runQuery, bind. rewrite R. unfold db_collect. simpl.
  rewrite (mapFn_total _ (paperDocIn w)).
  2:{ intro a. reflexivity. }
  eexists; split; [reflexivity|]. split; [reflexivity|]. split.
  - apply Forall_forall. intros r Hr. apply in_map_iff in Hr.
    destruct Hr as [r0 [E Hr]]. subst r. simpl.
    apply in_rev in Hr. apply filter_In in Hr. apply Nat.eqb_eq. exact (proj2 Hr).
  - intros paperId p I E. apply in_map. apply -> in_rev.
    apply filter_In. split; [exact I|]. apply Nat.eqb_eq. exact E.
Qed.

Lemma listUserPapers_witness :
  exists l,
    listUserPapers (Some alice) worldWithDemo = (Ok l, worldWithDemo)
    /\ l = map (paperDocIn worldWithDemo)
             (rev (filter (fun r : Id * Paper.t => Paper.userId (snd r) =? 0)
                          (papers worldWithDemo)))
    /\ Forall (fun r => Paper.userId (snd r) = 0) l
    /\ (forall paperId p,
          In (paperId, p) (papers worldWithDemo) -> Paper.userId p = 0 ->
          In (paperDocIn worldWithDemo (paperId, p)) l).
Proof.
  apply (listUserPapers_exactly_callers_papers (Some alice) worldWithDemo 0).
  vm_compute. reflexivity.
Defined.

(* ================================================================== *)
(** ** The calls by their effect on the world *)

Lemma update_const {A} (id : Id) (f : A -> A) (rows : list (Id * A)) (a : A) :
  lookup id rows = Some a -> update id f rows = update id (fun _ => f a) rows.
Proof.
  induction rows as [|[i b] r IH]; simpl; [reflexivity|].
  destruct (i =? id); intro H.
  - injection H as ->. reflexivity.
  - rewrite IH by exact H. reflexivity.
Qed.

Lemma lookup_notin {A} (id : Id) (rows : list (Id * A)) :
  ~ In id (map fst rows) -> lookup id rows = None.
Proof.
  induction rows as [|[i a] r IH]; simpl; [reflexivity|].
  intro N. destruct (i =? id) eqn:E.
  - apply Nat.eqb_eq in E. tauto.
  - apply IH. tauto.
Qed.

Lemma lookup_some_in_ids {A} (id : Id) (rows : list (Id * A)) (a : A) :
  lookup id rows = Some a -> In id (map fst rows).
Proof. intro H. apply lookup_in in H. apply (in_map fst) in H. exact H. Qed.

Lemma in_lookup {A} (id : Id) (rows : list (Id * A)) (a : A) :
  NoDup (map fst rows) -> In (id, a) rows -> lookup id rows = Some a.
Proof.
  induction rows as [|[i b] r IH]; simpl; [tauto|].
  intros N [E|I].
  - injection E as -> ->. rewrite Nat.eqb_refl. reflexivity.
  - inversion N as [|? ? N1 N2]; subst.
    destruct (i =? id) eqn:E.
    + apply Nat.eqb_eq in E. subst i. exfalso. apply N1.
      apply (in_map fst) in I. exact I.
    + apply IH; assumption.
Qed.

(** The user [getUserFromAuth] resolves a caller to is in the table. *)
Lemma getUserFromAuth_user (auth : option Identity.t) (w : World) (uid : Id) :
  fst (getUserFromAuth auth w) = Ok uid -> exists u, In (uid, u) (users w).
Proof.
  destruct auth as [identity|]; [|discriminate].
  unfold getUserFromAuth, byWorkosId, bind, db_collect. simpl.
  destruct (filter _ (users w)) as [|[i u] [|y l]] eqn:F; simpl; try discriminate.
  intro H. injection H as ->. exists u.
  assert (I : In (uid, u) (filter (fun r : Id * User.t =>
             String.eqb (User.workosId (snd r)) (Identity.subject identity)) (users w)))
    by (rewrite F; left; reflexivity).
  apply filter_In in I. exact (proj1 I).
Qed.

Lemma getCurrentUser_user (auth : option Identity.t) (w : World) (uid : Id) (u : User.t) :
  fst (getCurrentUser auth w) = Ok (Some (uid, u)) -> In (uid, u) (users w).
Proof.
  destruct auth as [identity|]; [|discriminate].
  unfold getCurrentUser, byWorkosId, bind, db_collect. simpl.
  destruct (filter _ (users w)) as [|[i u0] [|y l]] eqn:F; simpl; try discriminate.
  intro H. injection H as -> ->.
  assert (I : In (uid, u) (filter (fun r : Id * User.t =>
             String.eqb (User.workosId (snd r)) (Identity.subject identity)) (users w)))
    by (rewrite F; left; reflexivity).
  apply filter_In in I. exact (proj1 I).
Qed.

Lemma ensureUser_step (auth : option Identity.t) (w : World) :
  step w (snd (ensureUser auth w)).
Proof.
  unfold ensureUser, runMutation, ensureUser_handler.
  destruct auth as [identity|]; [|apply step_refused].
  unfold byWorkosId, bind, db_collect. simpl.
  destruct (filter _ (users w)) as [|[i u] [|y l]]; simpl;
    first [apply step_refused | apply step_user].
Qed.

Lemma createPaper_step auth fileName fileStorageId title (w : World) :
  step w (snd (createPaper auth fileName fileStorageId title w)).
Proof.
  destruct (fst (getUserFromAuth auth w)) as [uid|e] eqn:Hu.
  - rewrite (createPaper_resolved auth fileName fileStorageId title w uid Hu).
    destruct (getUserFromAuth_user auth w uid Hu) as [u I].
    simpl. apply (step_paper w uid u). exact I.
  - pose proof (readonly_run (getUserFromAuth auth) w (readonly_getUserFromAuth auth)) as R.
    rewrite Hu in R.
    unfold createPaper, createPaper_handler, runMutation, bind at 1. rewrite R.
    apply step_refused.
Qed.

Lemma generateDemo_step auth env paperId concept (w : World) :
  lookup (nextId w) (demos w) = None ->
  step w (snd (generateDemo auth env paperId concept w)).
Proof.
  intro Hn.
  destruct (fst (getCurrentUser auth w)) as [[[uid u]|]|e] eqn:Hu.
  - destruct (lookup paperId (papers w)) as [paper|] eqn:Hp.
    + destruct (Paper.userId paper =? uid) eqn:Ho.
      * apply Nat.eqb_eq in Ho.
        rewrite (generateDemo_resolved auth env paperId concept w uid u paper Hu Hp Ho).
        apply getCurrentUser_user in Hu. subst uid.
        cbv zeta.
        destruct (generateText env _ None) as [resultText|e];
          unfold db_insert, freshId, bind, scheduler_runAfter; simpl;
          rewrite (update_appended _ _ _ _ Hn); simpl.
        -- apply (step_demo_executing w paperId paper u); assumption.
        -- apply (step_demo_failed w paperId paper u); assumption.
      * unfold generateDemo, bind, runQuery. rewrite Hu. simpl.
        unfold getPaperInternal, db_get. simpl. rewrite Hp, Ho. apply step_refused.
    + unfold generateDemo, bind, runQuery. rewrite Hu. simpl.
      unfold getPaperInternal, db_get. simpl. rewrite Hp. apply step_refused.
  - unfold generateDemo, bind, runQuery. rewrite Hu. apply step_refused.
  - unfold generateDemo, bind, runQuery. rewrite Hu. apply step_refused.
Qed.

(** [extractPdfContent] on an existing paper: the world it leaves. *)
Lemma extractPdfContent_shape
    (JSON_parse : string -> option Json.json) (env : Collaborators)
    (paperId : Id) (w : World) (p : Paper.t) :
  lookup paperId (papers w) = Some p ->
  (exists content md b,
      lookup (Paper.fileStorageId p) (storage w) = Some b
      /\ extractPdfContent JSON_parse env paperId w
         = (Ok tt, withRows papersT
                     (update paperId (fun _ => readyPaper p content md) (papers w)) w))
  \/ extractPdfContent JSON_parse env paperId w
     = (Ok tt, withRows papersT (update paperId (fun _ => erroredPaper p) (papers w)) w).
Proof.
  intro Hp.
  assert (Err : forall e,
             extractPdfContent_try JSON_parse env paperId w = (Throw e, w) ->
             extractPdfContent JSON_parse env paperId w
             = (Ok tt, withRows papersT
                         (update paperId (fun _ => erroredPaper p) (papers w)) w)).
  { intros e E. unfold extractPdfContent, bind, tryCatch. rewrite E.
    rewrite (updatePaper_found _ _ _ p Hp).
    rewrite (update_const _ _ _ p Hp). reflexivity. }
  destruct (lookup (Paper.fileStorageId p) (storage w)) as [b|] eqn:Hs.
  2:{ right. apply (Err _ (extraction_raises_blob_unresolvable JSON_parse env paperId w p Hp Hs)). }
  destruct (extractPdfContent_try_outcome JSON_parse env paperId w p Hp)
    as [[e E]|[content [md E]]].
  - right. exact (Err e E).
  - left. exists content, md, b. split; [reflexivity|].
    unfold extractPdfContent, bind, tryCatch. rewrite E.
    rewrite (updatePaper_found _ _ _ p Hp).
    rewrite (update_const _ _ _ p Hp). reflexivity.
Qed.

Lemma extractPdfContent_missing
    (JSON_parse : string -> option Json.json) (env : Collaborators)
    (paperId : Id) (w : World) :
  lookup paperId (papers w) = None ->
  snd (extractPdfContent JSON_parse env paperId w) = w.
Proof.
  intro Hp.
  unfold extractPdfContent, bind at 1, tryCatch, extractPdfContent_try.
  unfold bind at 1, runQuery, getPaperInternal, db_get. simpl fst. rewrite Hp.
  unfold throw, updatePaper, runMutation, updatePaper_handler, db_patch. simpl.
  rewrite Hp. reflexivity.
Qed.

(** [executeInSandbox] on an existing demo: the world it leaves. *)
Lemma executeInSandbox_shape (env : Collaborators) (demoId : Id) (w : World) (d : Demo.t) :
  lookup demoId (demos w) = Some d ->
  (exists sandboxId renderedHtml calls,
      executeInSandbox env demoId w
      = (Ok tt,
         mkWorld (S (nextId w)) (users w) (papers w)
           (update demoId (fun _ => readyDemo d sandboxId renderedHtml (nextId w)) (demos w))
           (storage w ++ [(nextId w, mkBlob "text/html" renderedHtml)])%list
           (scheduled w) calls))
  \/ (exists e calls,
        executeInSandbox env demoId w
        = (Throw e,
           mkWorld (nextId w) (users w) (papers w)
             (update demoId (fun _ => failedDemo d e) (demos w))
             (storage w) (scheduled w) calls))
  \/ (exists e sandboxId renderedHtml calls,
        executeInSandbox env demoId w
        = (Throw e,
           mkWorld (S (nextId w)) (users w) (papers w)
             (update demoId
                (fun _ => failedDemo (readyDemo d sandboxId renderedHtml (nextId w)) e)
                (demos w))
             (storage w ++ [(nextId w, mkBlob "text/html" renderedHtml)])%list
             (scheduled w) calls)).
Proof.
  intro Hd. open_sandbox. rewrite Hd. simpl.
  split_paths ltac:(rewrite ?lookup_update_same, ?Hd; simpl).
  all: rewrite ?update_update; rewrite (update_const _ _ _ d Hd);
    unfold DemoUpdates.apply, readyDemo, failedDemo; simpl;
    first [ left; do 3 eexists; apply f_equal2; reflexivity
          | right; left; do 2 eexists; apply f_equal2; reflexivity
          | right; right;
            match goal with
            | H : daytona_create _ = Ok ?s |- _ =>
                eexists; exists s; do 2 eexists; apply f_equal2; reflexivity
            end ].
Qed.

(** Every call that runs is one of the steps. *)
Lemma run_step (c : Call) (w w' : World) :
  lookup (nextId w) (demos w) = None ->
  run c w = Some w' -> step w w'.
Proof.
  intros Hn R. destruct c as [auth|blob|auth fileName fid title|auth env paperId concept|env j];
    simpl in R.
  - injection R as <-. apply ensureUser_step.
  - injection R as <-. apply step_upload.
  - injection R as <-. apply createPaper_step.
  - injection R as <-. apply generateDemo_step. exact Hn.
  - destruct (dequeue j (scheduled w)) as [q|] eqn:D; [|discriminate].
    injection R as <-. destruct j as [paperId|demoId]; unfold runJob.
    + destruct (lookup paperId (papers w)) as [p|] eqn:Hp.
      * destruct (extractPdfContent_shape Json.parse env paperId (withScheduled q w) p Hp)
          as [[content [md [b [Hs E]]]]|E]; rewrite E; simpl.
        -- apply (step_paper_ready w paperId p q content md b); assumption.
        -- apply (step_paper_error w paperId p q); assumption.
      * rewrite (extractPdfContent_missing Json.parse env paperId (withScheduled q w) Hp).
        apply (step_dropped w _ q D). exact Hp.
    + destruct (lookup demoId (demos w)) as [d|] eqn:Hd.
      * destruct (executeInSandbox_shape env demoId (withScheduled q w) d Hd)
          as [[sid [body [calls E]]]|[[e [calls E]]|[e [sid [body [calls E]]]]]];
          rewrite E; simpl.
        -- apply (step_demo_ready w demoId d q sid body calls); assumption.
        -- apply (step_demo_run_failed w demoId d q e calls); assumption.
        -- apply (step_demo_teardown_failed w demoId d q sid body e calls); assumption.
      * replace (snd (executeInSandbox env demoId (withScheduled q w)))
          with (withScheduled q w).
        -- apply (step_dropped w _ q D). exact Hd.
        -- open_sandbox. rewrite Hd. reflexivity.
Qed.

(* ================================================================== *)
(** ** Invariants of the reachable worlds *)

Lemma NoDup_snoc {A} (l : list A) (x : A) : NoDup l -> ~ In x l -> NoDup (l ++ [x]).
Proof.
  intros N I. apply NoDup_app; [exact N | repeat constructor; simpl; tauto |].
  intros a Ha [E|[]]. subst. tauto.
Qed.

Lemma dequeue_NoDup (j : Job) (l q : list Job) :
  NoDup l -> dequeue j l = Some q -> NoDup q /\ ~ In j q.
Proof.
  revert q. induction l as [|h t IH]; simpl; intros q N D; [discriminate|].
  inversion N as [|? ? N1 N2]; subst.
  destruct (Job_eqb h j) eqn:E.
  - injection D as <-. apply Job_eqb_eq in E. subst h. split; assumption.
  - destruct (dequeue j t) as [t'|] eqn:D'; [|discriminate]. injection D as <-.
    destruct (IH t' N2 eq_refl) as [N' I']. split.
    + constructor; [|exact N']. intro I. apply N1.
      apply (proj2 (dequeue_some _ _ _ D')). exact I.
    + intros [F|F]; [|tauto]. subst h.
      assert (T : Job_eqb j j = true) by (destruct j; simpl; apply Nat.eqb_refl).
      congruence.
Qed.

Lemma dequeue_keeps (j x : Job) (l q : list Job) :
  dequeue j l = Some q -> In x l -> x <> j -> In x q.
Proof.
  revert q. induction l as [|h t IH]; simpl; intros q D I N; [tauto|].
  destruct (Job_eqb h j) eqn:E.
  - injection D as <-. apply Job_eqb_eq in E. subst h. destruct I; [congruence|assumption].
  - destruct (dequeue j t) as [t'|] eqn:D'; [|discriminate]. injection D as <-.
    destruct I as [I|I]; [left; exact I | right; apply IH; auto].
Qed.

Lemma idsBelow_step (w w' : World) : idsBelow w -> step w w' -> idsBelow w'.
Proof.
  intros B S. destruct S; intros id L; simpl in *;
    rewrite ?map_app, ?map_fst_update; simpl;
    rewrite ?in_app_iff; simpl;
    try (destruct (B id ltac:(lia)) as [B1 [B2 [B3 B4]]]; repeat split; intuition lia).
Qed.

Lemma idsDistinct_step (w w' : World) :
  idsBelow w -> idsDistinct w -> step w w' -> idsDistinct w'.
Proof.
  intros B [D1 [D2 [D3 D4]]] S.
  destruct (B (nextId w) (le_n _)) as [B1 [B2 [B3 B4]]].
  destruct S; unfold idsDistinct; simpl;
    rewrite ?map_app, ?map_fst_update; simpl;
    repeat split; try assumption; apply NoDup_snoc; assumption.
Qed.

Lemma reachable_ids (w : World) : reachable anyCall w -> idsBelow w /\ idsDistinct w.
Proof.
  induction 1 as [|c w w' Hr [B D] _ R].
  - split; [intros id _; simpl; tauto | repeat split; constructor].
  - assert (S : step w w').
    { apply (run_step c); [|exact R]. apply lookup_notin. apply (B (nextId w) (le_n _)). }
    split; [apply (idsBelow_step w) | apply (idsDistinct_step w)]; assumption.
Qed.

(** Every call that runs in a reachable world is one of the steps. *)
Lemma reachable_run_step (c : Call) (w w' : World) :
  reachable anyCall w -> run c w = Some w' -> step w w'.
Proof.
  intros Hr R. apply (run_step c); [|exact R].
  apply lookup_notin. apply (proj1 (reachable_ids w Hr) (nextId w) (le_n _)).
Qed.

(** The queue after a job on the record [id] has run and has patched
    that record ([papers] side). *)
Lemma queueInv_papers_patched (w : World) (paperId : Id) (p p' : Paper.t) (q : list Job)
    (calls : list SandboxCall) :
  queueInv w ->
  dequeue (JobExtractPdfContent paperId) (scheduled w) = Some q ->
  lookup paperId (papers w) = Some p ->
  Paper.status p' <> PaperStatus.processing ->
  queueInv (mkWorld (nextId w) (users w) (update paperId (fun _ => p') (papers w))
              (demos w) (storage w) q calls).
Proof.
  intros [Q1 [Q2 [Q3 [Q4 Q5]]]] D L T.
  destruct (dequeue_NoDup _ _ _ Q1 D) as [Nq Iq].
  destruct (dequeue_some _ _ _ D) as [_ Sub].
  unfold queueInv; simpl. repeat apply conj.
  - exact Nq.
  - intros pid I.
    assert (N : pid <> paperId) by (intro; subst; tauto).
    rewrite lookup_update_other by exact N. apply Q2, Sub, I.
  - intros did I. apply Q3, Sub, I.
  - intros pid x Lx P. destruct (Nat.eq_dec pid paperId) as [->|N].
    + rewrite lookup_update_same, L in Lx. simpl in Lx. injection Lx as <-. tauto.
    + rewrite lookup_update_other in Lx by exact N.
      apply (dequeue_keeps _ _ _ _ D); [eapply Q4; eauto|].
      intro E. injection E as E. tauto.
  - intros did d Ld P. apply (dequeue_keeps _ _ _ _ D); [eapply Q5; eauto | discriminate].
Qed.

(** The same on the [demos] side; storage and the id counter may have
    moved. *)
Lemma queueInv_demos_patched (w : World) (demoId : Id) (d d' : Demo.t) (q : list Job)
    (n : Id) (store : list (Id * Blob)) (calls : list SandboxCall) :
  queueInv w ->
  dequeue (JobExecuteInSandbox demoId) (scheduled w) = Some q ->
  lookup demoId (demos w) = Some d ->
  Demo.status d' <> DemoStatus.executing ->
  queueInv (mkWorld n (users w) (papers w) (update demoId (fun _ => d') (demos w))
              store q calls).
Proof.
  intros [Q1 [Q2 [Q3 [Q4 Q5]]]] D L T.
  destruct (dequeue_NoDup _ _ _ Q1 D) as [Nq Iq].
  destruct (dequeue_some _ _ _ D) as [_ Sub].
  unfold queueInv; simpl. repeat apply conj.
  - exact Nq.
  - intros pid I. apply Q2, Sub, I.
  - intros did I.
    assert (N : did <> demoId) by (intro; subst; tauto).
    rewrite lookup_update_other by exact N. apply Q3, Sub, I.
  - intros pid p Lp P. apply (dequeue_keeps _ _ _ _ D); [eapply Q4; eauto | discriminate].
  - intros did x Lx P. destruct (Nat.eq_dec did demoId) as [->|N].
    + rewrite lookup_update_same, L in Lx. simpl in Lx. injection Lx as <-. tauto.
    + rewrite lookup_update_other in Lx by exact N.
      apply (dequeue_keeps _ _ _ _ D); [eapply Q5; eauto|].
      intro E. injection E as E. tauto.
Qed.

Lemma queueInv_step (w w' : World) :
  idsBelow w -> queueInv w -> step w w' -> queueInv w'.
Proof.
  intros B Q S.
  destruct (B (nextId w) (le_n _)) as [_ [B2 [B3 _]]].
  apply lookup_notin in B2. apply lookup_notin in B3.
  destruct S as [|u|b|uid u title fileName fid I|paperId paper u concept code Lp I
                 |paperId paper u concept message Lp I|j q D M
                 |paperId p q content md b D L Ls|paperId p q D L
                 |demoId d q sid body calls D L|demoId d q e calls D L
                 |demoId d q sid body e calls D L].
  - exact Q.
  - exact Q.
  - exact Q.
  - destruct Q as [Q1 [Q2 [Q3 [Q4 Q5]]]]. unfold queueInv; simpl. repeat apply conj.
    + apply NoDup_snoc; [exact Q1|]. intro J. destruct (Q2 _ J) as [p [L _]]. congruence.
    + intros pid J. apply in_app_iff in J. rewrite lookup_app. destruct J as [J|[E|[]]].
      * destruct (Q2 _ J) as [p [L P]]. rewrite L. eauto.
      * injection E as <-. rewrite B2. simpl. rewrite Nat.eqb_refl. eauto.
    + intros did J. apply in_app_iff in J. destruct J as [J|[E|[]]]; [auto|discriminate].
    + intros pid p L P. rewrite lookup_app in L. apply in_app_iff.
      destruct (lookup pid (papers w)) eqn:L0.
      * injection L as <-. left. eapply Q4; eauto.
      * simpl in L. destruct (nextId w =? pid) eqn:E; [|discriminate].
        apply Nat.eqb_eq in E. subst. right; left; reflexivity.
    + intros did d L P. apply in_app_iff. left. eapply Q5; eauto.
  - destruct Q as [Q1 [Q2 [Q3 [Q4 Q5]]]]. unfold queueInv; simpl. repeat apply conj.
    + apply NoDup_snoc; [exact Q1|]. intro J. destruct (Q3 _ J) as [p [L _]]. congruence.
    + intros pid J. apply in_app_iff in J. destruct J as [J|[E|[]]]; [auto|discriminate].
    + intros did J. apply in_app_iff in J. rewrite lookup_app. destruct J as [J|[E|[]]].
      * destruct (Q3 _ J) as [p [L P]]. rewrite L. eauto.
      * injection E as <-. rewrite B3. simpl. rewrite Nat.eqb_refl. eauto.
    + intros pid p L P. apply in_app_iff. left. eapply Q4; eauto.
    + intros did d L P. rewrite lookup_app in L. apply in_app_iff.
      destruct (lookup did (demos w)) eqn:L0.
      * injection L as <-. left. eapply Q5; eauto.
      * simpl in L. destruct (nextId w =? did) eqn:E; [|discriminate].
        apply Nat.eqb_eq in E. subst. right; left; reflexivity.
  - destruct Q as [Q1 [Q2 [Q3 [Q4 Q5]]]]. unfold queueInv; simpl. repeat apply conj.
    + exact Q1.
    + exact Q2.
    + intros did J. rewrite lookup_app. destruct (Q3 _ J) as [p [L P]]. rewrite L. eauto.
    + exact Q4.
    + intros did d L P. rewrite lookup_app in L.
      destruct (lookup did (demos w)) eqn:L0.
      * injection L as <-. eapply Q5; eauto.
      * simpl in L. destruct (nextId w =? did); [|discriminate].
        injection L as <-. discriminate.
  - destruct Q as [Q1 [Q2 [Q3 [Q4 Q5]]]].
    destruct (dequeue_NoDup _ _ _ Q1 D) as [Nq Iq].
    destruct (dequeue_some _ _ _ D) as [_ Sub].
    unfold queueInv; simpl. repeat apply conj.
    + exact Nq.
    + intros pid J. apply Q2, Sub, J.
    + intros did J. apply Q3, Sub, J.
    + intros pid p L P. apply (dequeue_keeps _ _ _ _ D); [eapply Q4; eauto|].
      intro E. subst j. simpl in M. congruence.
    + intros did d L P. apply (dequeue_keeps _ _ _ _ D); [eapply Q5; eauto|].
      intro E. subst j. simpl in M. congruence.
  - apply (queueInv_papers_patched w paperId p); auto. discriminate.
  - apply (queueInv_papers_patched w paperId p); auto. discriminate.
  - apply (queueInv_demos_patched w demoId d); auto. discriminate.
  - apply (queueInv_demos_patched w demoId d); auto. discriminate.
  - apply (queueInv_demos_patched w demoId d); auto. discriminate.
Qed.

Lemma reachable_queueInv (w : World) : reachable anyCall w -> queueInv w.
Proof.
  induction 1 as [|c w w' Hr IH _ R].
  - unfold queueInv; simpl. repeat apply conj; try constructor; try tauto; discriminate.
  - apply (queueInv_step w); [apply (reachable_ids w Hr) | exact IH |].
    apply (reachable_run_step c); assumption.
Qed.

(** The fields of a paper, step by step. *)
Lemma papersInv_step (w w' : World) :
  idsBelow w -> queueInv w ->
  (forall paperId p, In (paperId, p) (papers w) -> paperInv w p) ->
  step w w' ->
  forall paperId p, In (paperId, p) (papers w') -> paperInv w' p.
Proof.
  intros B Q P St.
  assert (Grow : forall b p, paperInv w p ->
            paperInv (mkWorld (S (nextId w)) (users w) (papers w) (demos w)
                        (storage w ++ [(nextId w, b)])%list (scheduled w) (sandboxCalls w)) p).
  { intros b p. unfold paperInv, pdfUrlIn. simpl. rewrite lookup_app.
    destruct (Paper.status p); try tauto.
    destruct (lookup (Paper.fileStorageId p) (storage w)); [tauto|].
    intros [_ [_ [_ F]]]. discriminate. }
  destruct St as [|u|b|uid u title fileName fid I|pid paper u concept code Lp I
                 |pid paper u concept message Lp I|j q D M
                 |pid p0 q content md b D L Ls|pid p0 q D L
                 |demoId d q sid body calls D L|demoId d q e calls D L
                 |demoId d q sid body e calls D L];
    intros paperId p J; simpl in J.
  - exact (P _ _ J).
  - exact (P _ _ J).
  - apply Grow. exact (P _ _ J).
  - apply in_app_iff in J. destruct J as [J|[E|[]]].
    + exact (P _ _ J).
    + injection E as <- <-. unfold paperInv. simpl. tauto.
  - exact (P _ _ J).
  - exact (P _ _ J).
  - exact (P _ _ J).
  - apply in_update in J. destruct J as [J|[a [La [-> ->]]]].
    + exact (P _ _ J).
    + unfold paperInv, pdfUrlIn. simpl. rewrite Ls.
      repeat split; discriminate.
  - apply in_update in J. destruct J as [J|[a [La [-> ->]]]].
    + exact (P _ _ J).
    + destruct Q as [_ [Q2 _]].
      destruct (Q2 pid (proj1 (dequeue_some _ _ _ D))) as [x [Lx Px]].
      rewrite L in Lx. injection Lx as <-.
      pose proof (P _ _ (lookup_in _ _ _ L)) as I0.
      unfold paperInv in *. rewrite Px in I0. simpl. exact I0.
  - pose proof (Grow (mkBlob "text/html" body) p (P _ _ J)) as G. exact G.
  - exact (P _ _ J).
  - pose proof (Grow (mkBlob "text/html" body) p (P _ _ J)) as G. exact G.
Qed.

Lemma reachable_papersInv (w : World) :
  reachable anyCall w -> forall paperId p, In (paperId, p) (papers w) -> paperInv w p.
Proof.
  induction 1 as [|c w w' Hr IH _ R].
  - intros paperId p [].
  - apply (papersInv_step w); [apply (reachable_ids w Hr) | apply (reachable_queueInv w Hr)
                              | exact IH | apply (reachable_run_step c); assumption].
Qed.

(** The fields of a demo, step by step. *)
Lemma demosInv_step (w w' : World) :
  idsBelow w ->
  (forall demoId d, In (demoId, d) (demos w) -> demoInv w d) ->
  step w w' ->
  forall demoId d, In (demoId, d) (demos w') -> demoInv w' d.
Proof.
  intros B P St.
  destruct (B (nextId w) (le_n _)) as [_ [_ [_ B4]]]. apply lookup_notin in B4.
  assert (Grow : forall b n us ps ds q calls d, demoInv w d ->
            demoInv (mkWorld n us ps ds (storage w ++ [(nextId w, b)])%list q calls) d).
  { intros b n us ps ds q calls d. unfold demoInv. simpl.
    destruct (Demo.status d); try tauto.
    intros [sid [html [fid [E1 [E2 E3]]]]]. exists sid, html, fid.
    rewrite lookup_app, E3. auto. }
  assert (Same : forall n us ps ds q calls d, demoInv w d ->
            demoInv (mkWorld n us ps ds (storage w) q calls) d).
  { intros n us ps ds q calls d H. exact H. }
  destruct St as [|u|b|uid u title fileName fid I|pid paper u concept code Lp I
                 |pid paper u concept message Lp I|j q D M
                 |pid p0 q content md b D L Ls|pid p0 q D L
                 |demoId0 d0 q sid body calls D L|demoId0 d0 q e calls D L
                 |demoId0 d0 q sid body e calls D L];
    intros demoId d J; simpl in J.
  - exact (P _ _ J).
  - exact (P _ _ J).
  - apply Grow. exact (P _ _ J).
  - exact (P _ _ J).
  - apply in_app_iff in J. destruct J as [J|[E|[]]].
    + exact (P _ _ J).
    + injection E as <- <-. unfold demoInv. simpl. tauto.
  - apply in_app_iff in J. destruct J as [J|[E|[]]].
    + exact (P _ _ J).
    + injection E as <- <-. unfold demoInv. simpl. eauto.
  - exact (P _ _ J).
  - exact (P _ _ J).
  - exact (P _ _ J).
  - apply in_update in J. destruct J as [J|[a [La [-> ->]]]].
    + apply Grow. exact (P _ _ J).
    + unfold demoInv. simpl. exists sid, body, (nextId w).
      rewrite lookup_app, B4. simpl. rewrite Nat.eqb_refl. auto.
  - apply in_update in J. destruct J as [J|[a [La [-> ->]]]].
    + exact (P _ _ J).
    + unfold demoInv. simpl. eauto.
  - apply in_update in J. destruct J as [J|[a [La [-> ->]]]].
    + apply Grow. exact (P _ _ J).
    + unfold demoInv. simpl. eauto.
Qed.

Lemma reachable_demosInv (w : World) :
  reachable anyCall w -> forall demoId d, In (demoId, d) (demos w) -> demoInv w d.
Proof.
  induction 1 as [|c w w' Hr IH _ R].
  - intros demoId d [].
  - apply (demosInv_step w); [apply (reachable_ids w Hr) | exact IH
                             | apply (reachable_run_step c); assumption].
Qed.

(** Owners, step by step. *)
Lemma ownersInv_step (w w' : World) : ownersInv w -> step w w' -> ownersInv w'.
Proof.
  intros [O1 O2] St.
  assert (PatchPaper : forall pid p0 p', lookup pid (papers w) = Some p0 ->
            Paper.userId p' = Paper.userId p0 ->
            forall n st q calls,
            ownersInv (mkWorld n (users w) (update pid (fun _ => p') (papers w)) (demos w)
                         st q calls)).
  { intros pid p0 p' L E n st q calls. split; simpl.
    - intros paperId p J. apply in_update in J. destruct J as [J|[a [La [-> ->]]]].
      + exact (O1 _ _ J).
      + rewrite E. exact (O1 _ _ (lookup_in _ _ _ L)).
    - intros demoId d J. destruct (O2 _ _ J) as [p [Lp Ep]].
      destruct (Nat.eq_dec (Demo.paperId d) pid) as [N|N].
      + rewrite N in *. rewrite lookup_update_same, L. simpl.
        exists p'. split; [reflexivity|]. rewrite L in Lp. injection Lp as <-. congruence.
      + rewrite lookup_update_other by exact N. eauto. }
  assert (PatchDemo : forall did d0 d', lookup did (demos w) = Some d0 ->
            Demo.userId d' = Demo.userId d0 -> Demo.paperId d' = Demo.paperId d0 ->
            forall n st q calls,
            ownersInv (mkWorld n (users w) (papers w) (update did (fun _ => d') (demos w))
                         st q calls)).
  { intros did d0 d' L E1 E2 n st q calls. split; simpl.
    - exact O1.
    - intros demoId d J. apply in_update in J. destruct J as [J|[a [La [-> ->]]]].
      + exact (O2 _ _ J).
      + rewrite E1, E2. exact (O2 _ _ (lookup_in _ _ _ L)). }
  destruct St as [|u|b|uid u title fileName fid I|pid paper u concept code Lp I
                 |pid paper u concept message Lp I|j q D M
                 |pid p0 q content md b D L Ls|pid p0 q D L
                 |demoId0 d0 q sid body calls D L|demoId0 d0 q e calls D L
                 |demoId0 d0 q sid body e calls D L].
  - split; assumption.
  - split; simpl; [|exact O2].
    intros paperId p J. destruct (O1 _ _ J) as [x Ix]. exists x. apply in_app_iff. auto.
  - split; assumption.
  - split; simpl.
    + intros paperId p J. apply in_app_iff in J. destruct J as [J|[E|[]]].
      * exact (O1 _ _ J).
      * injection E as <- <-. simpl. eauto.
    + intros demoId d J. destruct (O2 _ _ J) as [p [Lp Ep]].
      exists p. rewrite lookup_app, Lp. auto.
  - split; simpl; [exact O1|].
    intros demoId d J. apply in_app_iff in J. destruct J as [J|[E|[]]].
    + exact (O2 _ _ J).
    + injection E as <- <-. simpl. eauto.
  - split; simpl; [exact O1|].
    intros demoId d J. apply in_app_iff in J. destruct J as [J|[E|[]]].
    + exact (O2 _ _ J).
    + injection E as <- <-. simpl. eauto.
  - split; assumption.
  - apply (PatchPaper pid p0); auto.
  - apply (PatchPaper pid p0); auto.
  - apply (PatchDemo demoId0 d0); auto.
  - apply (PatchDemo demoId0 d0); auto.
  - apply (PatchDemo demoId0 d0); auto.
Qed.

Lemma reachable_ownersInv (w : World) : reachable anyCall w -> ownersInv w.
Proof.
  induction 1 as [|c w w' Hr IH _ R].
  - split; intros ? ? [].
  - apply (ownersInv_step w); [exact IH | apply (reachable_run_step c); assumption].
Qed.



(* ================================================================== *)
(** ** The life of a paper and of a demo *)

Lemma worldSettled_reachable : reachable anyCall worldSettled.
Proof.
  apply (reachable_runCalls anyCall settleCalls worldWithDemo).
  - exact worldWithDemo_reachable_any.
  - repeat constructor.
  - vm_compute. reflexivity.
Qed.





(** X21. In every reachable world the fields of a demo follow its
    status: no demo is left [generating]; an [executing] demo has no
    execution results and no stored file; a [ready] demo has the id of
    a sandbox and its output, and its stored file is a [text/html] blob
    that holds exactly that output; a [failed] demo has execution
    results with an empty sandbox id, no output, and one error
    message. *)
Theorem reachable_demo_fields_follow_status (w : World) (demoId : Id) (d : Demo.t) :
  reachable anyCall w ->
  In (demoId, d) (demos w) ->
  Demo.status d <> DemoStatus.generating
  /\ (Demo.status d = DemoStatus.executing ->
      Demo.executionResults d = None /\ Demo.demoFileStorageId d = None)
  /\ (Demo.status d = DemoStatus.ready ->
      exists sandboxId renderedHtml fileStorageId,
        Demo.executionResults d
        = Some (ExecutionResults.mk sandboxId (Some renderedHtml) None None None)
        /\ Demo.demoFileStorageId d = Some fileStorageId
        /\ lookup fileStorageId (storage w) = Some (mkBlob "text/html" renderedHtml)
        /\ demoUrlIn w d = Some (BlobUrl fileStorageId))
  /\ (Demo.status d = DemoStatus.failed ->
      exists message,
        Demo.executionResults d
        = Some (ExecutionResults.mk EmptyString None None None (Some [message]))).
Proof.
  intros Hr I. pose proof (reachable_demosInv w Hr demoId d I) as P.
  unfold demoInv in P. unfold demoUrlIn.
  split; [intro E; rewrite E in P; exact P|]. split; [|split].
  - intro E. rewrite E in P. exact P.
  - intro E. rewrite E in P. destruct P as [sid [html [fid [E1 [E2 E3]]]]].
    exists sid, html, fid. rewrite E2, E3. auto.
  - intro E. rewrite E in P. exact P.
Qed.

Lemma reachable_demo_fields_witness :
  Demo.status aliceDemoReady <> DemoStatus.generating
  /\ (Demo.status aliceDemoReady = DemoStatus.executing ->
      Demo.executionResults aliceDemoReady = None
      /\ Demo.demoFileStorageId aliceDemoReady = None)
  /\ (Demo.status aliceDemoReady = DemoStatus.ready ->
      exists sandboxId renderedHtml fileStorageId,
        Demo.executionResults aliceDemoReady
        = Some (ExecutionResults.mk sandboxId (Some renderedHtml) None None None)
        /\ Demo.demoFileStorageId aliceDemoReady = Some fileStorageId
        /\ lookup fileStorageId (storage worldSettled)
           = Some (mkBlob "text/html" renderedHtml)
        /\ demoUrlIn worldSettled aliceDemoReady = Some (BlobUrl fileStorageId))
  /\ (Demo.status aliceDemoReady = DemoStatus.failed ->
      exists message,
        Demo.executionResults aliceDemoReady
        = Some (ExecutionResults.mk EmptyString None None None (Some [message]))).
Proof.
  apply (reachable_demo_fields_follow_status worldSettled 4 aliceDemoReady).
  - exact worldSettled_reachable.
  - vm_compute. left. reflexivity.
Defined.

(** X22. In every reachable world each paper belongs to a user of the
    table, and each demo belongs to a paper that exists and has the
    demo's own user as its owner. *)
Theorem reachable_records_have_owners (w : World) :
  reachable anyCall w ->
  (forall paperId p, In (paperId, p) (papers w) ->
      exists u, In (Paper.userId p, u) (users w))
  /\ (forall demoId d, In (demoId, d) (demos w) ->
      exists p, lookup (Demo.paperId d) (papers w) = Some p
                /\ Paper.userId p = Demo.userId d).
Proof. intro Hr. exact (reachable_ownersInv w Hr). Qed.

Lemma reachable_records_have_owners_witness :
  (forall paperId p, In (paperId, p) (papers worldWithDemo) ->
      exists u, In (Paper.userId p, u) (users worldWithDemo))
  /\ (forall demoId d, In (demoId, d) (demos worldWithDemo) ->
      exists p, lookup (Demo.paperId d) (papers worldWithDemo) = Some p
                /\ Paper.userId p = Demo.userId d).
Proof.
  apply (reachable_records_have_owners worldWithDemo).
  exact worldWithDemo_reachable_any.
Defined.








(* ================================================================== *)
(** ** The order of the sandbox calls *)

(** X26. The calls a run of [executeInSandbox] makes on the sandbox
    service are, in this order, provision, write the file, start the
    server, delete - cut off at the step that fails. A run on an
    existing demo makes none of them (provisioning failed), or the
    first two (the write failed), or the first three (the server, the
    fetch or the store failed), or all four; so the sandbox is deleted
    at most once, and only after the demo was patched to [ready]. *)
Theorem executeInSandbox_calls_in_order
    (env : Collaborators) (demoId : Id) (w : World) (demo : Demo.t) :
  lookup demoId (demos w) = Some demo ->
  exists made,
    sandboxCalls (snd (executeInSandbox env demoId w)) = (sandboxCalls w ++ made)%list
    /\ (made = []
        \/ exists sandboxId,
             made = [ SandboxCreated sandboxId;
                      SandboxCommand sandboxId (writeCommand (Demo.generatedCode demo)) ]
             \/ made = deployCalls sandboxId (Demo.generatedCode demo)
             \/ made = (deployCalls sandboxId (Demo.generatedCode demo)
                        ++ [SandboxDelete sandboxId])%list).
Proof.
  intro Hd. open_sandbox. rewrite Hd. simpl.
  split_paths ltac:(rewrite ?lookup_update_same, ?Hd; simpl).
  all: rewrite <- ?app_assoc; simpl;
    first [ exists []; split; [symmetry; apply app_nil_r | left; reflexivity]
          | eexists; (split; [reflexivity|]); right; eexists;
            first [ left; reflexivity
                  | right; left; reflexivity
                  | right; right; reflexivity ] ].
Qed.

Lemma executeInSandbox_calls_witness :
  exists made,
    sandboxCalls (snd (executeInSandbox writeFails 4 worldWithDemo))
    = (sandboxCalls worldWithDemo ++ made)%list
    /\ (made = []
        \/ exists sandboxId,
             made = [ SandboxCreated sandboxId;
                      SandboxCommand sandboxId (writeCommand (Demo.generatedCode aliceDemo)) ]
             \/ made = deployCalls sandboxId (Demo.generatedCode aliceDemo)
             \/ made = (deployCalls sandboxId (Demo.generatedCode aliceDemo)
                        ++ [SandboxDelete sandboxId])%list).
Proof.
  apply (executeInSandbox_calls_in_order writeFails 4 worldWithDemo aliceDemo).
  vm_compute. reflexivity.
Defined.

(* ================================================================== *)
(** ** The papers page ([app/papers/page.tsx]) *)

Lemma listUserPapers_shape (auth : option Identity.t) (w : World) (l : list (Id * Paper.t)) :
  listUserPapers auth w = (Ok l, w) ->
  exists uid,
    l = map (paperDocIn w)
          (rev (filter (fun r : Id * Paper.t => Paper.userId (snd r) =? uid) (papers w))).
Proof.
  pose proof (readonly_run (getUserFromAuth auth) w (readonly_getUserFromAuth auth)) as R.
  unfold listUserPapers, runQuery, bind. rewrite R.
  destruct (fst (getUserFromAuth auth w)) as [uid|e]; [|discriminate].
  unfold db_collect. simpl.
  rewrite (mapFn_total _ (paperDocIn w)) by (intro a; reflexivity).
  simpl. intro H. injection H as <-. exists uid. reflexivity.
Qed.

Lemma status_counts_split (l : list (Id * Paper.t)) :
  Forall (fun r => Paper.status (snd r) <> PaperStatus.uploading) l ->
  getStatusCount (Some l) "all"
  = getStatusCount (Some l) "ready" + getStatusCount (Some l) "processing"
    + getStatusCount (Some l) "error".
Proof.
  unfold getStatusCount.
  change (String.eqb "all" "all") with true.
  change (String.eqb "ready" "all") with false.
  change (String.eqb "processing" "all") with false.
  change (String.eqb "error" "all") with false.
  cbv iota.
  induction 1 as [|[i p] l N _ IH]; [reflexivity|].
  cbn [filter length snd]. cbn [snd] in N.
  set (ready := filter _ l) in *.
  set (processing := filter _ l) in *.
  set (error := filter _ l) in *.
  destruct (Paper.status p); [tauto| | |]; simpl; lia.
Qed.

(** X27. The counters of the papers page add up: for the list that
    [listUserPapers] returns in a reachable world, the count under
    [All] is the sum of the counts under [Ready], [Processing] and
    [Error] - no listed paper has another status. *)
Theorem papers_page_counts_add_up
    (auth : option Identity.t) (w : World) (l : list (Id * Paper.t)) :
  reachable anyCall w ->
  listUserPapers auth w = (Ok l, w) ->
  getStatusCount (Some l) "all"
  = getStatusCount (Some l) "ready" + getStatusCount (Some l) "processing"
    + getStatusCount (Some l) "error".
Proof.
  intros Hr H. apply status_counts_split.
  destruct (listUserPapers_shape auth w l H) as [uid ->].
  apply Forall_forall. intros r I. apply in_map_iff in I.
  destruct I as [[i p] [<- I]]. simpl.
  apply in_rev in I. apply filter_In in I. destruct I as [I _].
  pose proof (reachable_papersInv w Hr i p I) as P. unfold paperInv in P.
  intro E. rewrite E in P. exact P.
Qed.

Lemma papers_page_counts_witness :
  getStatusCount (Some [paperDocIn worldLater (3, alicePaperReady)]) "all"
  = getStatusCount (Some [paperDocIn worldLater (3, alicePaperReady)]) "ready"
    + getStatusCount (Some [paperDocIn worldLater (3, alicePaperReady)]) "processing"
    + getStatusCount (Some [paperDocIn worldLater (3, alicePaperReady)]) "error".
Proof.
  apply (papers_page_counts_add_up (Some alice) worldLater).
  - apply (reachable_runCalls anyCall laterCalls worldSettled).
    + exact worldSettled_reachable.
    + repeat constructor.
    + vm_compute. reflexivity.
  - vm_compute. reflexivity.
Defined.
